(** * Verification of [src/services/advancedAnalysis.ts]

    A shallow embedding of the [AdvancedAnalysisService] class and the
    properties its specification states about it.  The source file holds two
    versions of the class one after the other; the embedding is of the first
    (lines 1-1398), the one with the MA-alignment phase labels and the
    widening-range predictions.  The functions of the second version that
    differ from the first and need no tensor are in the module [Alternate].
    Line numbers in the comments are those of the source file.

    ** Numbers

    A JavaScript [number] is modelled as an exact rational extended with
    [NaN], [+Infinity] and [-Infinity].  The special values follow IEEE 754
    as JavaScript exposes it: [0/0], [Infinity - Infinity] and
    [0 * Infinity] are [NaN], a non-zero number divided by zero is an
    infinity, every comparison with [NaN] is false, [Math.max] and
    [Math.min] return [NaN] as soon as one argument is [NaN].  What the
    model leaves out is the rounding of binary64 arithmetic (finite results
    are exact) and the sign of zero (a non-zero number divided by zero takes
    the sign of the numerator).  [undefined], which the code only meets as
    the value of an out-of-range array read that is then used in arithmetic,
    is identified with [NaN].  [Number(x.toFixed(2))] rounds the exact value
    to two decimals; for a magnitude of 1e21 and beyond, which [toFixed]
    prints in exponent notation, every binary64 is an integer and the
    rounding changes nothing. *)

From Stdlib Require Import String DecimalString QArith Qround Qabs Lqa ZArith List Lia Bool.
Import ListNotations.

Open Scope Q_scope.

Module JS.

Inductive number : Type :=
  | NaN
  | PInf
  | NInf
  | Fin (q : Q).

Definition isNaN (x : number) : bool :=
  match x with NaN => true | _ => false end.

Definition isFinite (x : number) : bool :=
  match x with Fin _ => true | _ => false end.

(** Sign of a rational as a comparison with zero. *)
Definition Qsign (q : Q) : comparison := q ?= 0.

Definition neg (x : number) : number :=
  match x with
  | NaN => NaN
  | PInf => NInf
  | NInf => PInf
  | Fin q => Fin (- q)
  end.

Definition add (x y : number) : number :=
  match x, y with
  | NaN, _ | _, NaN => NaN
  | PInf, NInf | NInf, PInf => NaN
  | PInf, _ | _, PInf => PInf
  | NInf, _ | _, NInf => NInf
  | Fin a, Fin b => Fin (a + b)
  end.

Definition sub (x y : number) : number := add x (neg y).

(** An infinity of the given sign; [Eq] (a zero factor) gives [NaN]. *)
Definition inf_of (s : comparison) : number :=
  match s with Gt => PInf | Lt => NInf | Eq => NaN end.

Definition flip (s : comparison) : comparison := CompOpp s.

Definition mul (x y : number) : number :=
  match x, y with
  | NaN, _ | _, NaN => NaN
  | PInf, PInf | NInf, NInf => PInf
  | PInf, NInf | NInf, PInf => NInf
  | PInf, Fin b | Fin b, PInf => inf_of (Qsign b)
  | NInf, Fin b | Fin b, NInf => inf_of (flip (Qsign b))
  | Fin a, Fin b => Fin (a * b)
  end.

Definition div (x y : number) : number :=
  match x, y with
  | NaN, _ | _, NaN => NaN
  | (PInf | NInf), (PInf | NInf) => NaN
  | Fin _, (PInf | NInf) => Fin 0
  | PInf, Fin b => match Qsign b with Lt => NInf | _ => PInf end
  | NInf, Fin b => match Qsign b with Lt => PInf | _ => NInf end
  | Fin a, Fin b =>
      match Qsign b with
      | Eq => inf_of (Qsign a)
      | _ => Fin (a / b)
      end
  end.

(** Relational operators: every comparison with [NaN] is false. *)
Definition ltb (x y : number) : bool :=
  match x, y with
  | NaN, _ | _, NaN => false
  | _, NInf => false
  | NInf, _ => true
  | PInf, _ => false
  | _, PInf => true
  | Fin a, Fin b => negb (Qle_bool b a)
  end.

Definition leb (x y : number) : bool :=
  match x, y with
  | NaN, _ | _, NaN => false
  | NInf, _ => true
  | _, PInf => true
  | _, NInf => false
  | PInf, _ => false
  | Fin a, Fin b => Qle_bool a b
  end.

Definition gtb (x y : number) : bool := ltb y x.
Definition geb (x y : number) : bool := leb y x.

(** [x === y] on numbers. *)
Definition eqb (x y : number) : bool :=
  match x, y with
  | PInf, PInf | NInf, NInf => true
  | Fin a, Fin b => Qeq_bool a b
  | _, _ => false
  end.

(** Truthiness of a number: [0] and [NaN] are falsy. *)
Definition truthy (x : number) : bool :=
  match x with
  | NaN => false
  | Fin q => negb (Qeq_bool q 0)
  | _ => true
  end.

(** [x || d] on numbers. *)
Definition or_else (x d : number) : number := if truthy x then x else d.

Definition Math_abs (x : number) : number :=
  match x with
  | NaN => NaN
  | PInf | NInf => PInf
  | Fin q => Fin (Qabs q)
  end.

Definition max2 (x y : number) : number :=
  match x, y with
  | NaN, _ | _, NaN => NaN
  | _, _ => if ltb x y then y else x
  end.

Definition min2 (x y : number) : number :=
  match x, y with
  | NaN, _ | _, NaN => NaN
  | _, _ => if ltb y x then y else x
  end.

(** [Math.max(...xs)] and [Math.min(...xs)]; on no argument they are
    [-Infinity] and [+Infinity]. *)
Definition Math_max (xs : list number) : number := fold_left max2 xs NInf.
Definition Math_min (xs : list number) : number := fold_left min2 xs PInf.

(** [xs.reduce((a, b) => a + b, 0)]. *)
Definition sum (xs : list number) : number := fold_left add xs (Fin 0).

(** Rounding of a rational to two decimals, ties away from zero, as
    [Number.prototype.toFixed(2)] does on the exact value of its receiver. *)
Definition round2 (q : Q) : Q :=
  if Qle_bool 0 q
  then Qfloor (q * 100 + (1 # 2)) # 100
  else - (Qfloor ((- q) * 100 + (1 # 2)) # 100).

(** [Number(x.toFixed(2))]: [NaN] and the infinities print as themselves
    and read back unchanged. *)
Definition toFixed2 (x : number) : number :=
  match x with
  | Fin q => Fin (round2 q)
  | _ => x
  end.

(** [xs[i]] for an integer index; a read out of range is [undefined]. *)
Definition get (xs : list number) (i : Z) : number :=
  if (i <? 0)%Z then NaN else nth (Z.to_nat i) xs NaN.

(** [xs[xs.length - 1]]. *)
Definition last_of (xs : list number) : number :=
  get xs (Z.of_nat (length xs) - 1).

(** [xs.slice(-n)]: the last [n] elements, all of them when there are fewer;
    [xs.slice(-0)] is [xs.slice(0)], the whole array. *)
Definition slice_last {A : Type} (n : nat) (xs : list A) : list A :=
  match n with
  | O => xs
  | S _ => skipn (length xs - n) xs
  end.

(** [xs.slice(a, b)] for [0 <= a]. *)
Definition slice {A : Type} (a b : nat) (xs : list A) : list A :=
  firstn (b - a) (skipn a xs).

Definition of_nat (n : nat) : number := Fin (inject_Z (Z.of_nat n)).

End JS.

Import JS.

Declare Scope js_scope.
Delimit Scope js_scope with js.
Infix "+" := add : js_scope.
Infix "-" := sub : js_scope.
Infix "*" := mul : js_scope.
Infix "/" := div : js_scope.
Infix "<?" := ltb : js_scope.
Infix "<=?" := leb : js_scope.
Infix ">?" := gtb : js_scope.
Infix ">=?" := geb : js_scope.
Infix "===" := eqb (at level 70) : js_scope.
Coercion Fin : Q >-> number.

Open Scope js_scope.

(** [xs[i]] for a loop index that is never negative. *)
Definition at_ (xs : list number) (i : nat) : number := nth i xs NaN.

(** ** Moving averages *)

(** [calculateSMA] (lines 1374-1395): the rolling series.  Positions before
    [period - 1] hold the fill value [0].  The averages are the exact ones:
    binary64 returns them with a rounding error of a few units in the last
    place. *)
Definition calculateSMA (prices : list number) (period : nat) : list number :=
  match prices with
  | [] => [Fin 0]
  | _ =>
      map (fun i : nat =>
             if (i <? period - 1)%nat then Fin 0
             else sum (slice (i + 1 - period) (i + 1) prices) / of_nat period)
          (seq 0 (length prices))
  end.

(** The loop of [calculateEMA] after the seed. *)
Fixpoint ema_from (k prev : number) (rest : list number) : list number :=
  match rest with
  | [] => []
  | p :: rest' =>
      let e := p * k + prev * (Fin 1 - k) in
      e :: ema_from k e rest'
  end.

(** [calculateEMA] (lines 993-1002): seeded with [prices[0]], which is
    [undefined] on an empty array.  The weights [k] and [1 - k] and the
    combinations are the exact ones: in binary64 each step is rounded, so
    the average of a constant series can differ from the constant in the
    last place. *)
Definition calculateEMA (prices : list number) (period : nat) : list number :=
  let k := Fin 2 / (of_nat period + Fin 1) in
  match prices with
  | [] => [NaN]
  | p0 :: rest => p0 :: ema_from k p0 rest
  end.

(** ** Relative strength index *)

(** First loop of [calculateRSI] and [calculateRSIArray]: the gains and
    losses of steps [1..period]. *)
Definition rsi_seed (prices : list number) (period : nat) : number * number :=
  fold_left
    (fun (gl : number * number) (i : nat) =>
       let difference := at_ prices i - at_ prices (i - 1) in
       if difference >=? Fin 0
       then (fst gl + difference, snd gl)
       else (fst gl, snd gl - difference))
    (seq 1 period) (Fin 0, Fin 0).

(** One step of Wilder's smoothing. *)
Definition wilder_step (prices : list number) (period : nat)
    (avg : number * number) (i : nat) : number * number :=
  let difference := at_ prices i - at_ prices (i - 1) in
  let p := of_nat period in
  ((fst avg * (p - Fin 1) + max2 (Fin 0) difference) / p,
   (snd avg * (p - Fin 1) + max2 (Fin 0) (neg difference)) / p).

(** The averages [(avgGain, avgLoss)] when the second loop of [calculateRSI]
    ends. *)
Definition rsi_averages (prices : list number) (period : nat) : number * number :=
  let seed := rsi_seed prices period in
  let p := of_nat period in
  fold_left (wilder_step prices period)
    (seq (period + 1) (length prices - (period + 1)))
    (fst seed / p, snd seed / p).

(** [calculateRSI] (lines 718-755). *)
Definition calculateRSI (prices : list number) (period : nat) : number :=
  if (length prices <? period + 1)%nat then Fin 50
  else
    let avg := rsi_averages prices period in
    let rs := if snd avg === Fin 0 then Fin 100 else fst avg / snd avg in
    let rsi := Fin 100 - Fin 100 / (Fin 1 + rs) in
    if isNaN rsi then Fin 50 else rsi.

(** Second loop of [calculateRSIArray]: one RSI value per step, no guard on
    the quotient. *)
Fixpoint rsi_values (prices : list number) (period : nat)
    (avg : number * number) (idxs : list nat) : list number :=
  match idxs with
  | [] => []
  | i :: idxs' =>
      let avg' := wilder_step prices period avg i in
      let rs := fst avg' / snd avg' in
      (Fin 100 - Fin 100 / (Fin 1 + rs)) :: rsi_values prices period avg' idxs'
  end.

(** [calculateRSIArray] (lines 1014-1043). *)
Definition calculateRSIArray (prices : list number) (period : nat) : list number :=
  let seed := rsi_seed prices period in
  let p := of_nat period in
  rsi_values prices period (fst seed / p, snd seed / p)
    (seq (period + 1) (length prices - (period + 1))).

(** [calculateStochRSI] (lines 1005-1012). *)
Definition calculateStochRSI (prices : list number) (period : nat) : number :=
  let rsiValues := calculateRSIArray prices period in
  let minRSI := Math_min rsiValues in
  let maxRSI := Math_max rsiValues in
  let currentRSI := last_of rsiValues in
  (currentRSI - minRSI) / (maxRSI - minRSI) * Fin 100.

(** ** Trend indicators *)

(** [calculateTrueRange] (lines 813-827): the price series stands for high,
    low and previous close alike. *)
Definition calculateTrueRange (prices : list number) : list number :=
  map (fun i : nat =>
         let high := at_ prices i in
         let low := at_ prices (i - 1) in
         let previousClose := at_ prices (i - 1) in
         Math_max [high - low; Math_abs (high - previousClose);
                   Math_abs (low - previousClose)])
      (seq 1 (length prices - 1)).

(** [calculateATR] (lines 542-545). *)
Definition calculateATR (prices : list number) (period : nat) : number :=
  let tr := calculateTrueRange prices in
  sum (slice_last period tr) / of_nat period.

(** [calculateADX] (lines 829-846). *)
Definition calculateADX (prices : list number) (period : nat) : number :=
  let tr := calculateTrueRange prices in
  let atr := sum (slice_last period tr) / of_nat period in
  let steps := seq 1 (length prices - 1) in
  let dmPlus :=
    map (fun i : nat =>
           let high := at_ prices i in
           max2 (Fin 0) (high - at_ prices (i - 1))) steps in
  let dmMinus :=
    map (fun i : nat =>
           let low := at_ prices (i - 1) in
           max2 (Fin 0) (at_ prices (i - 1) - low)) steps in
  let diPlus := sum dmPlus / of_nat period / atr * Fin 100 in
  let diMinus := sum dmMinus / of_nat period / atr * Fin 100 in
  Math_abs (diPlus - diMinus) / (diPlus + diMinus) * Fin 100.

(** [prices.slice(1).map((price, i) => f(price, prices[i]))]. *)
Definition steps_of (f : number -> number -> number) (prices : list number)
  : list number :=
  map (fun i : nat => f (at_ prices (i + 1)) (at_ prices i))
      (seq 0 (length prices - 1)).

(** [calculateTrendIntensity] (lines 848-857). *)
Definition calculateTrendIntensity (prices : list number) : number :=
  let returns := steps_of (fun price prev => (price - prev) / prev) prices in
  let positiveReturns := length (filter (fun r => r >? Fin 0) returns) in
  let negativeReturns := length (filter (fun r => r <? Fin 0) returns) in
  (of_nat positiveReturns - of_nat negativeReturns) / of_nat (length returns).

(** [calculatePriceROC] (lines 859-867). *)
Definition calculatePriceROC (prices : list number) : number :=
  let period := 14%nat in
  if (length prices <? period)%nat then Fin 0
  else
    let currentPrice := last_of prices in
    let oldPrice := at_ prices (length prices - period) in
    (currentPrice - oldPrice) / oldPrice * Fin 100.

(** [calculateVolumeTrend] (lines 804-811). *)
Definition calculateVolumeTrend (volumes : list number) : number :=
  if (length volumes <? 20)%nat then Fin 0
  else
    let recentAvg := sum (slice_last 5 volumes) / Fin 5 in
    let historicalAvg := sum (slice_last 20 volumes) / Fin 20 in
    (recentAvg - historicalAvg) / historicalAvg.

(** [calculateVolumeRatio] (lines 1046-1061). *)
Definition calculateVolumeRatio (volumes : list number) : number :=
  if (length volumes <? 20)%nat then Fin 1
  else
    let recentVolume := sum (slice_last 5 volumes) / Fin 5 in
    let averageVolume := sum (slice_last 20 volumes) / Fin 20 in
    let ratio := recentVolume / averageVolume in
    if isNaN ratio then Fin 1 else max2 (Fin 0) ratio.

(** ** Market condition *)

Record KeyLevels : Type := mkKeyLevels {
  strongSupport : number;
  support : number;
  pivot : number;
  resistance : number;
  strongResistance : number
}.

(** The [marketCondition] object of the report. *)
Record MarketCondition : Type := mkMarketCondition {
  phase : string;
  strength : number;
  confidence : number;
  keyLevels : KeyLevels
}.

(** [calculateConfidence] (lines 615-618). *)
Definition calculateConfidence (indicators : list number) : number :=
  let avgStrength := sum indicators / of_nat (length indicators) in
  Math_min [Fin 95; Math_max [Fin 30; avgStrength]].

(** [String.prototype.toLowerCase] on the ASCII letters. *)
Definition lower_ascii (c : Ascii.ascii) : Ascii.ascii :=
  let n := Ascii.nat_of_ascii c in
  if ((65 <=? n) && (n <=? 90))%nat then Ascii.ascii_of_nat (n + 32) else c.

Fixpoint toLowerCase (s : string) : string :=
  match s with
  | EmptyString => EmptyString
  | String c s' => String (lower_ascii c) (toLowerCase s')
  end.

(** The table [defaultRanges] of [getDefaultMarketPhase]. *)
Definition defaultRanges (key : string) : option (number * number) :=
  if String.eqb key "bitcoin" then Some (Fin 65000, Fin 70000)
  else if String.eqb key "ethereum" then Some (Fin 2300, Fin 2500)
  else if String.eqb key "binancecoin" then Some (Fin 280, Fin 320)
  else if String.eqb key "cardano" then Some (Fin 0.45, Fin 0.55)
  else if String.eqb key "solana" then Some (Fin 90, Fin 110)
  else None.

(** The table is an object literal: indexing it by a name that
    [Object.prototype] defines finds the inherited property, an object or a
    function that has no [support] and no [resistance].  After [toLowerCase]
    the only such names are ["constructor"] and ["__proto__"]. *)
Definition inherited_key (key : string) : bool :=
  String.eqb key "constructor" || String.eqb key "__proto__".

(** On such a symbol [range.support] is [undefined] and
    [range.support.toFixed] throws a [TypeError]. *)
Definition default_throws (crypto : string) : bool :=
  inherited_key (toLowerCase crypto).

(** [getDefaultMarketPhase] (lines 1091-1118): its answer on every symbol on
    which it does not throw ([default_throws]). *)
Definition getDefaultMarketPhase (currentPrice : number) (crypto : string)
  : MarketCondition :=
  let range :=
    match defaultRanges (toLowerCase crypto) with
    | Some r => r
    | None => (currentPrice * Fin 0.95, currentPrice * Fin 1.05)
    end in
  {| phase := "Analyzing";
     strength := Fin 0.5;
     confidence := Fin 50;
     keyLevels :=
       {| strongSupport := toFixed2 (fst range * Fin 0.98);
          support := toFixed2 (fst range);
          pivot := toFixed2 currentPrice;
          resistance := toFixed2 (snd range);
          strongResistance := toFixed2 (snd range * Fin 1.02) |} |}.

(** The moving averages as [calculateMarketPhase] reads them
    (lines 127-129): element [0] of each rolling series. *)
Definition ma_read (prices : list number) (period : nat) : number :=
  at_ (calculateSMA prices period) 0.

(** Lines 146-150. *)
Definition phase_support (prices : list number) : number :=
  let currentPrice := last_of prices in
  let ma20 := ma_read prices 20 in
  let ma50 := ma_read prices 50 in
  let lowPrice := Math_min (slice_last 20 prices) in
  Math_max [lowPrice; Math_min [ma20; ma50] * Fin 0.995; currentPrice * Fin 0.95].

(** Lines 152-159. *)
Definition phase_resistance (prices : list number) : number :=
  let currentPrice := last_of prices in
  let ma20 := ma_read prices 20 in
  let ma50 := ma_read prices 50 in
  let highPrice := Math_max (slice_last 20 prices) in
  Math_max
    [Math_min [highPrice; Math_max [ma20; ma50] * Fin 1.005; currentPrice * Fin 1.05];
     phase_support prices * Fin 1.01].

(** Lines 161-171. *)
Definition phase_label (prices : list number) : string :=
  let currentPrice := last_of prices in
  let ma20 := ma_read prices 20 in
  let ma50 := ma_read prices 50 in
  let ma200 := ma_read prices 200 in
  let aboveMA50 := currentPrice >? ma50 in
  let aboveMA200 := currentPrice >? ma200 in
  let ma50AboveMA200 := ma50 >? ma200 in
  let ma20AboveMA50 := ma20 >? ma50 in
  if aboveMA50 && ma50AboveMA200 && ma20AboveMA50 then "bullish"
  else if negb aboveMA50 && negb ma50AboveMA200 && negb ma20AboveMA50 then "bearish"
  else if aboveMA200 && negb aboveMA50 then "correction"
  else if negb aboveMA200 && aboveMA50 then "recovery"
  else "sideways".

(** Lines 186-200: the rounded levels and their validation. *)
Definition phase_keyLevels (prices : list number) : KeyLevels :=
  let currentPrice := last_of prices in
  let support := phase_support prices in
  let resistance := phase_resistance prices in
  let resistance0 := toFixed2 resistance in
  let resistance1 :=
    if isNaN resistance0 || (resistance0 === Fin 0)
    then toFixed2 (currentPrice * Fin 1.05) else resistance0 in
  let strongResistance0 := toFixed2 (resistance * Fin 1.01) in
  let strongResistance1 :=
    if isNaN strongResistance0 || (strongResistance0 === Fin 0)
    then toFixed2 (resistance1 * Fin 1.01) else strongResistance0 in
  {| strongSupport := toFixed2 (support * Fin 0.99);
     support := toFixed2 support;
     pivot := toFixed2 currentPrice;
     resistance := resistance1;
     strongResistance := strongResistance1 |}.

Section TrendModel.

(** The external trend-strength model behind [getTrendModel] and
    [model.predict]: from the feature vector
    [[adx, trendIntensity, priceROC, volumeTrend]] to its scalar, [None]
    when loading the model or the inference throws. *)
Variable trendModel : number -> number -> number -> number -> option number.

(** [analyzeTrendStrength] (lines 269-283). *)
Definition analyzeTrendStrength (prices volumes : list number) : option number :=
  trendModel (calculateADX prices 14) (calculateTrendIntensity prices)
             (calculatePriceROC prices) (calculateVolumeTrend volumes).

(** [calculateMarketPhase] (lines 118-222).  The [catch] branch is taken when
    the model throws, and on an empty series, where [currentPrice] is
    [undefined] and [currentPrice.toFixed] throws.  This is its answer when
    it does not end by a throw ([calculateMarketPhase_throws]). *)
Definition calculateMarketPhase (prices volumeData : list number) (crypto : string)
  : MarketCondition :=
  match analyzeTrendStrength prices volumeData, prices with
  | Some trendStrength, _ :: _ =>
      let currentPrice := last_of prices in
      let support := phase_support prices in
      let resistance := phase_resistance prices in
      let aboveMA50 := currentPrice >? ma_read prices 50 in
      let aboveMA200 := currentPrice >? ma_read prices 200 in
      let phaseStrength := Math_abs trendStrength in
      let confidence :=
        calculateConfidence
          [phaseStrength * Fin 100;
           if aboveMA50 then Fin 60 else Fin 40;
           if aboveMA200 then Fin 60 else Fin 40;
           (currentPrice - support) / (resistance - support) * Fin 100] in
      {| phase := phase_label prices;
         strength := toFixed2 phaseStrength;
         confidence := toFixed2 confidence;
         keyLevels := phase_keyLevels prices |}
  | _, _ => getDefaultMarketPhase (or_else (last_of prices) (Fin 0)) crypto
  end.

(** [calculateMarketPhase] ends by a throw when its [catch] branch is taken
    and [getDefaultMarketPhase] throws there. *)
Definition calculateMarketPhase_throws (prices volumeData : list number)
    (crypto : string) : bool :=
  match analyzeTrendStrength prices volumeData, prices with
  | Some _, _ :: _ => false
  | _, _ => default_throws crypto
  end.

End TrendModel.

(** ** Price predictions *)

Record PriceRange : Type := mkPriceRange {
  low : number;
  high : number
}.

(** One horizon of the [predictions] object. *)
Record Prediction : Type := mkPrediction {
  price : PriceRange;
  prediction_confidence : number;
  signals : list string
}.

Record PredictionSet : Type := mkPredictionSet {
  shortTerm : Prediction;
  midTerm : Prediction;
  longTerm : Prediction
}.

(** The argument object of [predictPriceTargets]. *)
Record PredictionData : Type := mkPredictionData {
  prices : list number;
  volumes : list number;
  currentPrice : number;
  volatility : number;
  sentiment : number
}.

(** [generatePredictionSignals] (lines 374-395).  The second test of the
    first chain can never succeed once the first has failed. *)
Definition generatePredictionSignals (low high volatility : number) : list string :=
  let range := (high - low) / low in
  let movement :=
    if range >? Fin 0.05 then "Moderate price movement expected"%string
    else if range >? Fin 0.10 then "Significant price movement expected"%string
    else "Stable price action expected"%string in
  let vol :=
    if volatility >? Fin 0.03 then ["Higher than average volatility"%string]
    else if volatility <? Fin 0.01 then ["Lower than average volatility"%string]
    else [] in
  movement :: vol.

(** [getDefaultPredictions] (lines 1352-1370). *)
Definition getDefaultPredictions (currentPrice : number) : PredictionSet :=
  {| shortTerm :=
       {| price := {| low := currentPrice * Fin 0.95; high := currentPrice * Fin 1.05 |};
          prediction_confidence := Fin 50;
          signals := ["Default prediction"%string] |};
     midTerm :=
       {| price := {| low := currentPrice * Fin 0.90; high := currentPrice * Fin 1.10 |};
          prediction_confidence := Fin 40;
          signals := ["Default prediction"%string] |};
     longTerm :=
       {| price := {| low := currentPrice * Fin 0.85; high := currentPrice * Fin 1.15 |};
          prediction_confidence := Fin 30;
          signals := ["Default prediction"%string] |} |}.

(** Line 294. *)
Definition volatilityFactor (data : PredictionData) : number :=
  Math_min [Fin 0.05; volatility data / Fin 1000].

(** Line 297. *)
Definition sentimentFactor (data : PredictionData) : number :=
  (sentiment data - Fin 50) / Fin 100 * Fin 0.02.

(** Lines 300-303. *)
Definition trendFactor (data : PredictionData) : number :=
  let recentPrices := slice_last 20 (prices data) in
  Math_min [Fin 0.03;
            Math_max [neg (Fin 0.03);
                      (last_of recentPrices - at_ recentPrices 0) / at_ recentPrices 0]].

(** Lines 306-309. *)
Definition shortTermRange (data : PredictionData) : PriceRange :=
  {| low := currentPrice data * (Fin 1 - (volatilityFactor data + Fin 0.01));
     high := currentPrice data * (Fin 1 + (volatilityFactor data + Fin 0.01)) |}.

(** Lines 311-314. *)
Definition midTermRange (data : PredictionData) : PriceRange :=
  {| low := currentPrice data * (Fin 1 - (volatilityFactor data * Fin 2 + Fin 0.02));
     high := currentPrice data * (Fin 1 + (volatilityFactor data * Fin 2 + Fin 0.02)) |}.

(** Lines 316-319. *)
Definition longTermRange (data : PredictionData) : PriceRange :=
  {| low := currentPrice data * (Fin 1 - (volatilityFactor data * Fin 3 + Fin 0.03));
     high := currentPrice data * (Fin 1 + (volatilityFactor data * Fin 3 + Fin 0.03)) |}.

(** [adjustRanges] (lines 322-332). *)
Definition adjustRanges (data : PredictionData) (range : PriceRange) : PriceRange :=
  let sentimentAdjustment := currentPrice data * sentimentFactor data in
  let trendAdjustment := currentPrice data * trendFactor data in
  {| low := Math_max [low range + sentimentAdjustment + trendAdjustment;
                      currentPrice data * Fin 0.85];
     high := Math_min [high range + sentimentAdjustment + trendAdjustment;
                       currentPrice data * Fin 1.15] |}.

(** Lines 335-337. *)
Definition baseConfidence (data : PredictionData) : number :=
  Math_min [Fin 90;
            Math_max [Fin 50;
                      Fin 70 - volatilityFactor data * Fin 100
                      + Math_abs (sentimentFactor data) * Fin 100]].

(** [predictPriceTargets] (lines 285-372).  Nothing in the [try] block throws
    on an argument of this type, so the [catch] branch is not modelled. *)
Definition predictPriceTargets (data : PredictionData) : PredictionSet :=
  let vf := volatilityFactor data in
  let shortTermRange := shortTermRange data in
  let midTermRange := midTermRange data in
  let longTermRange := longTermRange data in
  {| shortTerm :=
       {| price := adjustRanges data shortTermRange;
          prediction_confidence := baseConfidence data;
          signals := generatePredictionSignals (low shortTermRange) (high shortTermRange) vf |};
     midTerm :=
       {| price := adjustRanges data midTermRange;
          prediction_confidence := Math_max [Fin 40; baseConfidence data * Fin 0.9];
          signals := generatePredictionSignals (low midTermRange) (high midTermRange)
                       (vf * Fin 2) |};
     longTerm :=
       {| price := adjustRanges data longTermRange;
          prediction_confidence := Math_max [Fin 30; baseConfidence data * Fin 0.8];
          signals := generatePredictionSignals (low longTermRange) (high longTermRange)
                       (vf * Fin 3) |} |}.

(** ** Risk warnings *)

(** [generateRiskWarnings] (lines 1120-1128). *)
Definition generateRiskWarnings (volatility trendStrength volumeRatio : number)
  : list string :=
  let warnings :=
    (if volatility >? Fin 50 then ["High market volatility"%string] else [])
    ++ (if trendStrength <? Fin 0.3 then ["Weak market trend"%string] else [])
    ++ (if volumeRatio >? Fin 2 then ["Unusual trading volume"%string] else []) in
  match warnings with
  | [] => ["No significant risks detected"%string]
  | _ => warnings
  end.

(** ** Qualitative interpreters *)

(** [categorizeVolatilityRisk] (lines 972-976). *)
Definition categorizeVolatilityRisk (volatility : number) : string :=
  if volatility >? Fin 80 then "high"%string
  else if volatility >? Fin 40 then "medium"%string
  else "low"%string.

(** [interpretRSI] (lines 978-982). *)
Definition interpretRSI (rsi : number) : string :=
  if rsi >? Fin 70 then "overbought"%string
  else if rsi <? Fin 30 then "oversold"%string
  else "neutral"%string.

(** [interpretStochRSI] (lines 984-990). *)
Definition interpretStochRSI (stochRSI : number) : string :=
  if stochRSI >? Fin 80 then "extremely overbought"%string
  else if stochRSI >? Fin 60 then "overbought"%string
  else if stochRSI <? Fin 20 then "extremely oversold"%string
  else if stochRSI <? Fin 40 then "oversold"%string
  else "neutral"%string.

(** [interpretMACD] (lines 1064-1088). *)
Definition interpretMACD (value signal histogram : number) : string :=
  let momentum :=
    if histogram >? Fin 0
    then (if histogram >? histogram * Fin 0.1
          then "Strong bullish momentum"%string else "Bullish momentum"%string)
    else (if histogram <? neg histogram * Fin 0.1
          then "Strong bearish momentum"%string else "Bearish momentum"%string) in
  let direction :=
    if (value >? Fin 0) && (signal >? Fin 0) then ", upward trend"%string
    else if (value <? Fin 0) && (signal <? Fin 0) then ", downward trend"%string
    else ""%string in
  let reversal :=
    if Math_abs (value - signal) <? Fin 0.1
    then ", potential trend reversal"%string else ""%string in
  (momentum ++ direction ++ reversal)%string.

(** [determineVolumeTrend] (lines 1341-1350). *)
Definition determineVolumeTrend (volumes : list number) : string :=
  if (length volumes <? 100)%nat then "neutral"%string
  else
    let n := length volumes in
    let recentAvg := sum (slice_last 50 volumes) / Fin 50 in
    let previousAvg := sum (slice (n - 100) (n - 50) volumes) / Fin 50 in
    if recentAvg >? previousAvg * Fin 1.1 then "increasing"%string
    else if recentAvg <? previousAvg * Fin 0.9 then "decreasing"%string
    else "neutral"%string.

(** [determineSecondaryTrend] (lines 949-959). *)
Definition determineSecondaryTrend (prices : list number) : string :=
  let shortMA := last_of (calculateEMA (slice_last 20 prices) 5) in
  let mediumMA := last_of (calculateEMA (slice_last 20 prices) 10) in
  if shortMA >? mediumMA then "bullish"%string
  else if shortMA <? mediumMA then "bearish"%string
  else "neutral"%string.

(** ** MACD *)

(** [calculateMACD] (lines 757-761). *)
Definition calculateMACD (prices : list number) : number :=
  last_of (calculateEMA prices 12) - last_of (calculateEMA prices 26).

(** [calculateMACDSignal] (lines 763-774). *)
Definition calculateMACDSignal (prices : list number) : number :=
  let ema12 := calculateEMA prices 12 in
  let ema26 := calculateEMA prices 26 in
  let macdLine :=
    map (fun i : nat => at_ ema12 i - at_ ema26 i) (seq 0 (length ema12)) in
  last_of (calculateEMA macdLine 9).

(** [calculateMACDHistogram] (lines 776-780). *)
Definition calculateMACDHistogram (prices : list number) : number :=
  calculateMACD prices - calculateMACDSignal prices.

(** ** Sentiment *)

(** One record of [api.getSentiment]; a missing field reads as a falsy
    value ([NaN], the empty string). *)
Record SentimentEntry : Type := mkSentimentEntry {
  entry_volume : number;
  entry_sentiment : string
}.

(** One record of the [news] array of [api.getNews]. *)
Record NewsItem : Type := mkNewsItem {
  title : string;
  news_sentiment : string
}.

(** [sentiment[0]?.volume || 50]. *)
Definition social_score (sentiment : list SentimentEntry) : number :=
  match sentiment with
  | [] => Fin 50
  | e :: _ => or_else (entry_volume e) (Fin 50)
  end.

Definition count_sentiment (label : string) (news : list NewsItem) : nat :=
  length (filter (fun n => String.eqb (news_sentiment n) label) news).

(** [calculateNewsScore] (lines 465-470). *)
Definition calculateNewsScore (news : list NewsItem) : number :=
  match news with
  | [] => Fin 50
  | _ =>
      let positiveCount := count_sentiment "positive" news in
      let negativeCount := count_sentiment "negative" news in
      ((of_nat positiveCount - of_nat negativeCount) / of_nat (length news) + Fin 1)
      * Fin 50
  end.

(** [calculateSentimentScore] (lines 458-463). *)
Definition calculateSentimentScore (news : list NewsItem)
    (sentiment : list SentimentEntry) : number :=
  match news with
  | [] => Fin 50
  | _ => (calculateNewsScore news + social_score sentiment) / Fin 2
  end.

(** [calculateNewsTrend] (lines 472-480). *)
Definition calculateNewsTrend (news : list NewsItem) : string :=
  match news with
  | [] => "neutral"%string
  | _ =>
      let recentNews := firstn 5 news in
      let positiveCount := of_nat (count_sentiment "positive" recentNews) in
      let negativeCount := of_nat (count_sentiment "negative" recentNews) in
      if positiveCount >? negativeCount * Fin 1.5 then "bullish"%string
      else if negativeCount >? positiveCount * Fin 1.5 then "bearish"%string
      else "neutral"%string
  end.

(** [determineSentimentSignal] (lines 1261-1266). *)
Definition determineSentimentSignal (sentiment : list SentimentEntry) : string :=
  let score := social_score sentiment in
  if score >? Fin 60 then "bullish"%string
  else if score <? Fin 40 then "bearish"%string
  else "neutral"%string.

(** ** Volume profile *)

(** [Math.round]: to the nearest integer, ties towards [+Infinity]. *)
Definition Math_round (x : number) : number :=
  match x with
  | Fin q => Fin (inject_Z (Qfloor (q + (1 # 2))))
  | _ => x
  end.

(** Key equality of a [Map] (SameValueZero): [NaN] is equal to itself. *)
Definition same_key (x y : number) : bool :=
  match x, y with
  | NaN, NaN => true
  | _, _ => x === y
  end.

(** A [Map<number, number>] in insertion order. *)
Definition NumMap : Type := list (number * number).

Fixpoint map_get (m : NumMap) (k : number) : option number :=
  match m with
  | [] => None
  | (k', v) :: m' => if same_key k' k then Some v else map_get m' k
  end.

Fixpoint map_set (m : NumMap) (k v : number) : NumMap :=
  match m with
  | [] => [(k, v)]
  | (k', v') :: m' =>
      if same_key k' k then (k', v) :: m' else (k', v') :: map_set m' k v
  end.

(** [m.get(k) || 0]. *)
Definition map_get_or0 (m : NumMap) (k : number) : number :=
  match map_get m k with
  | Some v => or_else v (Fin 0)
  | None => Fin 0
  end.

(** Insertion into an ascending list, for [sort((a, b) => a - b)]. *)
Fixpoint insert_sorted (x : number) (xs : list number) : list number :=
  match xs with
  | [] => [x]
  | y :: ys => if x <=? y then x :: y :: ys else y :: insert_sorted x ys
  end.

Definition sort_ascending (xs : list number) : list number :=
  fold_right insert_sorted [] xs.

(** [xs.indexOf(x)], [-1] when [x] is absent; the search is by [===]. *)
Fixpoint indexOf_from (xs : list number) (x : number) (i : Z) : Z :=
  match xs with
  | [] => (-1)%Z
  | y :: ys => if y === x then i else indexOf_from ys x (i + 1)%Z
  end.

Definition indexOf (xs : list number) (x : number) : Z := indexOf_from xs x 0%Z.

(** [xs[i]] keeping [undefined] apart from a number. *)
Definition get_opt (xs : list number) (i : Z) : option number :=
  if (i <? 0)%Z then None else nth_error xs (Z.to_nat i).

Definition truthy_opt (x : option number) : bool :=
  match x with
  | Some v => truthy v
  | None => false
  end.

(** The result of [calculateVolumeProfile]. *)
Record VolumeProfile : Type := mkVolumeProfile {
  poc : number;
  valueArea_high : number;
  valueArea_low : number;
  buyingPressure : number;
  sellingPressure : number;
  profile_strength : number
}.

(** Lines 886-892: the volume accumulated at each price rounded to a
    multiple of ten. *)
Definition price_volume (prices volumes : list number) : NumMap :=
  fold_left
    (fun (m : NumMap) (i : nat) =>
       let roundedPrice := Math_round (at_ prices i / Fin 10) * Fin 10 in
       map_set m roundedPrice (map_get_or0 m roundedPrice + at_ volumes i))
    (seq 0 (length prices)) [].

(** Lines 895-902: [(maxVolume, poc)]. *)
Definition point_of_control (priceVolume : NumMap) (currentPrice : number)
  : number * number :=
  fold_left
    (fun (acc : number * number) (kv : number * number) =>
       if snd kv >? fst acc then (snd kv, fst kv) else acc)
    priceVolume (Fin 0, currentPrice).

(** State of the value-area loop: [(volumeSum, low, high)]. *)
Definition AreaState : Type := (number * number * number)%type.

(** Loop test of lines 912. *)
Definition area_continue (valueAreaVolume : number) (pricesSorted : list number)
    (st : AreaState) : bool :=
  let '(volumeSum, low, high) := st in
  (volumeSum <? valueAreaVolume)
  && ((low >? at_ pricesSorted 0) || (high <? last_of pricesSorted)).

(** Loop body of lines 913-925. *)
Definition area_step (priceVolume : NumMap) (pricesSorted : list number)
    (st : AreaState) : AreaState :=
  let '(volumeSum, low, high) := st in
  let nextLow := get_opt pricesSorted (indexOf pricesSorted low - 1) in
  let nextHigh := get_opt pricesSorted (indexOf pricesSorted high + 1) in
  let lowVolume :=
    match nextLow with
    | Some k => if truthy k then map_get_or0 priceVolume k else Fin 0
    | None => Fin 0
    end in
  let highVolume :=
    match nextHigh with
    | Some k => if truthy k then map_get_or0 priceVolume k else Fin 0
    | None => Fin 0
    end in
  if lowVolume >? highVolume
  then (volumeSum + lowVolume,
        match nextLow with Some k => if truthy k then k else low | None => low end,
        high)
  else (volumeSum + highVolume,
        low,
        match nextHigh with Some k => if truthy k then k else high | None => high end).

(** The [while] loop of lines 912-926 run for at most [fuel] iterations;
    [None] when the test still holds after them. *)
Fixpoint area_loop (fuel : nat) (valueAreaVolume : number) (priceVolume : NumMap)
    (pricesSorted : list number) (st : AreaState) : option AreaState :=
  if area_continue valueAreaVolume pricesSorted st
  then match fuel with
       | O => None
       | S fuel' =>
           area_loop fuel' valueAreaVolume priceVolume pricesSorted
             (area_step priceVolume pricesSorted st)
       end
  else Some st.

(** [calculateVolumeProfile] (lines 869-937).  An iteration of the loop
    either moves [low] or [high] to a neighbouring bucket or leaves the
    state as it was, in which case the loop never ends: one iteration more
    than there are buckets, plus one for a point of control that is no
    bucket, decides it.  [None] is a call that does not return. *)
Definition calculateVolumeProfile (prices volumes : list number)
  : option VolumeProfile :=
  match prices, volumes with
  | [], _ | _, [] =>
      Some {| poc := Fin 0; valueArea_high := Fin 0; valueArea_low := Fin 0;
              buyingPressure := Fin 0.5; sellingPressure := Fin 0.5;
              profile_strength := Fin 0.5 |}
  | _, _ =>
      let currentPrice := last_of prices in
      let priceVolume := price_volume prices volumes in
      let mp := point_of_control priceVolume currentPrice in
      let maxVolume := fst mp in
      let poc := snd mp in
      let totalVolume := sum (map snd priceVolume) in
      let valueAreaVolume := totalVolume * Fin 0.68 in
      let pricesSorted := sort_ascending (map fst priceVolume) in
      match area_loop (length pricesSorted + 2) valueAreaVolume priceVolume
                      pricesSorted (Fin 0, poc, poc) with
      | None => None
      | Some (volumeSum, low, high) =>
          Some {| poc := poc; valueArea_high := high; valueArea_low := low;
                  buyingPressure := volumeSum / totalVolume;
                  sellingPressure := Fin 1 - volumeSum / totalVolume;
                  profile_strength := maxVolume / totalVolume |}
      end
  end.

(** ** The report *)

(** [technicalSignals]; the nested objects of the interface are flattened
    with the path as a prefix ([trend.primary] is [trend_primary]). *)
Record TechnicalSignals : Type := mkTechnicalSignals {
  trend_primary : string;
  trend_secondary : string;
  trend_strength : number;
  rsi_value : number;
  rsi_signal : string;
  macd_value : number;
  macd_signal : string;
  stochRSI_value : number;
  stochRSI_signal : string;
  volatility_current : number;
  volatility_trend : string;
  volatility_risk : string;
  volume_change : number;
  volume_trend : string;
  volume_significance : string
}.

(** [sentimentAnalysis]. *)
Record SentimentAnalysis : Type := mkSentimentAnalysis {
  overall_score : number;
  overall_signal : string;
  overall_confidence : number;
  news_score : number;
  news_recent : list string;
  news_trend : string;
  social_score_ : number;
  social_trend : string;
  social_volume : number;
  market_score : number;
  market_dominance : number;
  market_flow : string
}.

(** [riskAnalysis]. *)
Record RiskAnalysis : Type := mkRiskAnalysis {
  risk_overall : number;
  risk_technical : number;
  risk_fundamental : number;
  risk_sentiment : number;
  risk_market : number;
  warnings : list string
}.

(** [tradingStrategy]. *)
Record TradingStrategy : Type := mkTradingStrategy {
  recommendation : string;
  strategy_confidence : number;
  entries_conservative : number;
  entries_moderate : number;
  entries_aggressive : number;
  stopLoss_tight : number;
  stopLoss_normal : number;
  stopLoss_wide : number;
  targets_primary : number;
  targets_secondary : number;
  targets_final : number;
  timeframe : string;
  rationale : list string
}.

(** The interface [AdvancedAnalysis] (lines 8-115). *)
Record AdvancedAnalysis : Type := mkAdvancedAnalysis {
  marketCondition : MarketCondition;
  technicalSignals : TechnicalSignals;
  sentimentAnalysis : SentimentAnalysis;
  predictions : PredictionSet;
  riskAnalysis : RiskAnalysis;
  tradingStrategy : TradingStrategy
}.

(** The answer of [api.getHistoricalData]; a missing optional field is
    [None], a missing [prices] array is the empty list (both are refused by
    the same test). *)
Record HistoricalData : Type := mkHistoricalData {
  hd_prices : list number;
  hd_volumes : option (list number);
  hd_current_price : option number
}.

(** [getDefaultAnalysis] (lines 1268-1306): its answer when
    [getDefaultMarketPhase] does not throw. *)
Definition getDefaultAnalysis (crypto : string) : AdvancedAnalysis :=
  let defaultPrice := Fin 76000 in
  {| marketCondition := getDefaultMarketPhase defaultPrice crypto;
     technicalSignals :=
       {| trend_primary := "neutral"; trend_secondary := "neutral";
          trend_strength := Fin 0.5;
          rsi_value := Fin 50; rsi_signal := "neutral";
          macd_value := Fin 0; macd_signal := "neutral";
          stochRSI_value := Fin 50; stochRSI_signal := "neutral";
          volatility_current := Fin 30; volatility_trend := "stable";
          volatility_risk := "low";
          volume_change := Fin 1; volume_trend := "neutral";
          volume_significance := "moderate" |};
     sentimentAnalysis :=
       {| overall_score := Fin 50; overall_signal := "neutral";
          overall_confidence := Fin 50;
          news_score := Fin 50; news_recent := []; news_trend := "neutral";
          social_score_ := Fin 50; social_trend := "neutral"; social_volume := Fin 1;
          market_score := Fin 50; market_dominance := Fin 50; market_flow := "stable" |};
     predictions := getDefaultPredictions defaultPrice;
     riskAnalysis :=
       {| risk_overall := Fin 50;
          risk_technical := Fin 50; risk_fundamental := Fin 50;
          risk_sentiment := Fin 50; risk_market := Fin 50;
          warnings := ["Using default analysis due to data unavailability"%string] |};
     tradingStrategy :=
       {| recommendation := "Hold";
          strategy_confidence := Fin 50;
          entries_conservative := defaultPrice * Fin 0.98;
          entries_moderate := defaultPrice;
          entries_aggressive := defaultPrice * Fin 1.02;
          stopLoss_tight := defaultPrice * Fin 0.95;
          stopLoss_normal := defaultPrice * Fin 0.93;
          stopLoss_wide := defaultPrice * Fin 0.90;
          targets_primary := defaultPrice * Fin 1.05;
          targets_secondary := defaultPrice * Fin 1.10;
          targets_final := defaultPrice * Fin 1.15;
          timeframe := "Medium-term";
          rationale := ["Using default analysis due to data unavailability"%string] |} |}.

(** How a call that may throw or loop ends. *)
Inductive outcome (A : Type) : Type :=
  | Returns (a : A)
  | Throws
  | Diverges.
Arguments Returns {A} a.
Arguments Throws {A}.
Arguments Diverges {A}.

(** The test of line 632 on one element: a price passes when it is a number,
    not [NaN] and not [<= 0]. *)
Definition invalid_price (p : number) : bool := isNaN p || (p <=? Fin 0).

(** A price the data model calls valid: finite and positive. *)
Definition valid_price (p : number) : bool := isFinite p && (p >? Fin 0).

Definition valid_series (prices : list number) : bool := forallb valid_price prices.

(** [xs.slice(-100, -50)]. *)
Definition slice_100_50 (xs : list number) : list number :=
  slice (length xs - 100) (length xs - 50) xs.

(** Lexicographic order on strings by character code, as [<] compares two
    strings. *)
Fixpoint string_ltb (s t : string) : bool :=
  match s, t with
  | _, EmptyString => false
  | EmptyString, String _ _ => true
  | String a s', String b t' =>
      let x := Ascii.nat_of_ascii a in
      let y := Ascii.nat_of_ascii b in
      if (x <? y)%nat then true
      else if (y <? x)%nat then false
      else string_ltb s' t'
  end.

Section Host.

(** What the service takes from its host and its collaborators.  [Math.log]
    and [Math.sqrt] have no exact rational value in general and
    [Number.prototype.toString] prints the shortest decimal that reads back
    as the same binary64: the three are left to the host.  A collaborator
    that throws, or answers [undefined] where the code cannot go on without a
    value, is [None]. *)
Variable Math_log : number -> number.
Variable Math_sqrt : number -> number.
Variable Number_toString : number -> string.
Variable trendModel : number -> number -> number -> number -> option number.
Variable getHistoricalData : string -> option HistoricalData.
Variable getSentiment : string -> option (list SentimentEntry).
Variable getNews : string -> option (list NewsItem).
Variable generateStrategy :
  number -> MarketCondition -> TechnicalSignals -> number -> RiskAnalysis ->
  PredictionSet -> option TradingStrategy.

(** [calculateVolatility] (lines 782-802). *)
Definition calculateVolatility (prices : list number) : number :=
  if (length prices <? 2)%nat then Fin 30
  else
    let returns := steps_of (fun price prev => Math_log (price / prev)) prices in
    let avgReturn := sum returns / of_nat (length returns) in
    let squaredDiffs := map (fun ret => (ret - avgReturn) * (ret - avgReturn)) returns in
    let variance := sum squaredDiffs / of_nat (length returns) in
    let volatility := Math_sqrt variance * Math_sqrt (Fin 365) * Fin 100 in
    if isNaN volatility then Fin 30
    else Math_min [Fin 100; Math_max [Fin 0; volatility]].

(** [determineVolatilityTrend] (lines 961-970). *)
Definition determineVolatilityTrend (prices : list number) : string :=
  if (length prices <? 100)%nat then "stable"%string
  else
    let currentVol := calculateVolatility (slice_last 50 prices) in
    let previousVol := calculateVolatility (slice_100_50 prices) in
    if currentVol >? previousVol * Fin 1.2 then "increasing"%string
    else if currentVol <? previousVol * Fin 0.8 then "decreasing"%string
    else "stable"%string.

(** [String(xs)] of an array: the elements joined by commas. *)
Definition Array_toString (xs : list number) : string :=
  String.concat "," (map Number_toString xs).

(** [xs > ys] on two arrays: both operands are converted to strings and the
    strings are compared. *)
Definition array_gtb (xs ys : list number) : bool :=
  string_ltb (Array_toString ys) (Array_toString xs).

Definition array_ltb (xs ys : list number) : bool :=
  string_ltb (Array_toString xs) (Array_toString ys).

(** [determineTrendDirection] (lines 939-947): the three rolling series are
    compared as arrays. *)
Definition determineTrendDirection (prices : list number) : string :=
  let ma20 := calculateSMA prices 20 in
  let ma50 := calculateSMA prices 50 in
  let ma200 := calculateSMA prices 200 in
  if array_gtb ma20 ma50 && array_gtb ma50 ma200 then "bullish"%string
  else if array_ltb ma20 ma50 && array_ltb ma50 ma200 then "bearish"%string
  else "neutral"%string.

(** [calculateTechnicalSignals] (lines 620-716). *)
Definition calculateTechnicalSignals (prices volumes : list number)
  : outcome TechnicalSignals :=
  if (length prices <? 200)%nat then Throws
  else if existsb invalid_price prices then Throws
  else
    let rsi := calculateRSI prices 14 in
    let macd_v := calculateMACD prices in
    let macd_s := calculateMACDSignal prices in
    let macd_h := calculateMACDHistogram prices in
    let stochRSI := calculateStochRSI prices 14 in
    let volumeChange :=
      if (0 <? length volumes)%nat
      then calculateVolumeRatio (slice_last 100 volumes) else Fin 1 in
    let volatility := calculateVolatility (slice_last 100 prices) in
    let primaryTrend := determineTrendDirection prices in
    let secondaryTrend := determineSecondaryTrend prices in
    match calculateVolumeProfile (slice_last 200 prices) (slice_last 200 volumes) with
    | None => Diverges
    | Some volumeProfile =>
        let trendStrength := or_else (profile_strength volumeProfile) (Fin 0.5) in
        Returns
          {| trend_primary := primaryTrend;
             trend_secondary := secondaryTrend;
             trend_strength := toFixed2 trendStrength;
             rsi_value := toFixed2 rsi;
             rsi_signal := interpretRSI rsi;
             macd_value := toFixed2 macd_v;
             macd_signal := interpretMACD macd_v macd_s macd_h;
             stochRSI_value := toFixed2 stochRSI;
             stochRSI_signal := interpretStochRSI stochRSI;
             volatility_current := toFixed2 volatility;
             volatility_trend := determineVolatilityTrend (slice_last 100 prices);
             volatility_risk := categorizeVolatilityRisk volatility;
             volume_change := toFixed2 volumeChange;
             volume_trend := determineVolumeTrend (slice_last 100 volumes);
             volume_significance :=
               if profile_strength volumeProfile >? Fin 0.7 then "strong"%string
               else if profile_strength volumeProfile >? Fin 0.4 then "moderate"%string
               else "weak"%string |}
    end.

(** [calculateFundamentalRisk] (lines 425-438). *)
Definition calculateFundamentalRisk (prices volumes : list number) : number :=
  let np := Z.of_nat (length prices) in
  let nv := Z.of_nat (length volumes) in
  let volatility := calculateVolatility prices in
  let volumeChange := get volumes (nv - 1) / get volumes (nv - 2) in
  let priceChange :=
    (get prices (np - 1) - get prices (np - 2)) / get prices (np - 2) in
  let riskScore :=
    volatility * Fin 0.4
    + Math_abs (volumeChange - Fin 1) * Fin 30
    + Math_abs priceChange * Fin 30 in
  Math_min [Fin 100; Math_max [Fin 0; riskScore]].

(** [calculateMarketRisk] (lines 440-454). *)
Definition calculateMarketRisk (prices volumes : list number) : number :=
  let np := Z.of_nat (length prices) in
  let nv := Z.of_nat (length volumes) in
  let trendStrength :=
    Math_abs ((get prices (np - 1) - get prices (np - 20)) / get prices (np - 20)) in
  let volumeTrend := get volumes (nv - 1) / (sum (slice_last 20 volumes) / Fin 20) in
  let riskScore :=
    (Fin 50 - trendStrength * Fin 100) * Fin 0.6
    + Math_abs (volumeTrend - Fin 1) * Fin 40 in
  Math_min [Fin 100; Math_max [Fin 0; riskScore]].

(** [analyzeRisk] (lines 397-423). *)
Definition analyzeRisk (prices volumes : list number) (volatility trendStrength : number)
    (news : list NewsItem) (sentiment : list SentimentEntry) : RiskAnalysis :=
  let nv := Z.of_nat (length volumes) in
  let technicalRisk :=
    volatility * Fin 0.7 + (Fin 1 - Math_abs trendStrength) * Fin 30 in
  let sentimentRisk := Fin 100 - calculateSentimentScore news sentiment in
  let fundamentalRisk := calculateFundamentalRisk prices volumes in
  let marketRisk := calculateMarketRisk prices volumes in
  {| risk_overall :=
       (technicalRisk + sentimentRisk + fundamentalRisk + marketRisk) / Fin 4;
     risk_technical := technicalRisk;
     risk_fundamental := fundamentalRisk;
     risk_sentiment := sentimentRisk;
     risk_market := marketRisk;
     warnings :=
       generateRiskWarnings volatility trendStrength
         (get volumes (nv - 1) / get volumes (nv - 2)) |}.

(** [getFullAnalysis] (lines 1130-1259).  Every throw inside the [try] block
    ends in the [catch], which answers [getDefaultAnalysis]; where that
    throws too ([default_throws]) the call rejects. *)
Definition getFullAnalysis (crypto : string) : outcome AdvancedAnalysis :=
  let default :=
    if default_throws crypto then Throws else Returns (getDefaultAnalysis crypto) in
  match getHistoricalData crypto with
  | None => default
  | Some historicalData =>
      let prices := hd_prices historicalData in
      if (length prices <? 20)%nat then default
      else
        let volumes :=
          match hd_volumes historicalData with
          | Some v => v
          | None => repeat (Fin 0) (length prices)
          end in
        let current_price :=
          match hd_current_price historicalData with
          | Some p => or_else p (last_of prices)
          | None => last_of prices
          end in
        if negb (truthy current_price) then default
        else
          match calculateTechnicalSignals prices volumes with
          | Diverges => Diverges
          | Throws => default
          | Returns technicalSignals =>
              if calculateMarketPhase_throws trendModel prices volumes crypto then default
              else
              let marketCondition := calculateMarketPhase trendModel prices volumes crypto in
              match getSentiment crypto, getNews crypto with
              | Some sentiment, Some news =>
                  let predictions :=
                    predictPriceTargets
                      {| prices := prices; volumes := volumes;
                         currentPrice := current_price;
                         volatility := volatility_current technicalSignals;
                         sentiment := social_score sentiment |} in
                  let riskAnalysis :=
                    analyzeRisk prices volumes
                      (volatility_current technicalSignals)
                      (trend_strength technicalSignals) news sentiment in
                  let sentimentScore := calculateSentimentScore news sentiment in
                  match generateStrategy current_price marketCondition technicalSignals
                          sentimentScore riskAnalysis predictions with
                  | None => default
                  | Some strategy =>
                      Returns
                        {| marketCondition := marketCondition;
                           technicalSignals := technicalSignals;
                           sentimentAnalysis :=
                             {| overall_score := sentimentScore;
                                overall_signal := determineSentimentSignal sentiment;
                                overall_confidence :=
                                  calculateConfidence
                                    [trend_strength technicalSignals * Fin 100;
                                     calculateNewsScore news];
                                news_score := calculateNewsScore news;
                                news_recent := map title (firstn 3 news);
                                news_trend := calculateNewsTrend news;
                                social_score_ := social_score sentiment;
                                social_trend :=
                                  match sentiment with
                                  | e :: _ =>
                                      if String.eqb (entry_sentiment e) ""
                                      then "neutral"%string else entry_sentiment e
                                  | [] => "neutral"%string
                                  end;
                                social_volume := volume_change technicalSignals;
                                market_score :=
                                  (rsi_value technicalSignals
                                   + (if macd_value technicalSignals >? Fin 0
                                      then Fin 60 else Fin 40)) / Fin 2;
                                market_dominance := trend_strength technicalSignals * Fin 100;
                                market_flow :=
                                  if volume_change technicalSignals >? Fin 1
                                  then "inflow"%string else "outflow"%string |};
                           predictions := predictions;
                           riskAnalysis := riskAnalysis;
                           tradingStrategy := strategy |}
                  end
              | _, _ => default
              end
          end
  end.

End Host.

(** ** Functions beside the orchestrated path *)

(** [determineMarketPhase] (lines 224-252).  The MACD it computes is not
    used; nothing in its [try] block throws. *)
Definition determineMarketPhase (prices volumeData : list number)
    (trendStrength : number) : string :=
  let currentPrice := last_of prices in
  let ma50 := ma_read prices 50 in
  let ma200 := ma_read prices 200 in
  let rsi := calculateRSI prices 14 in
  if (currentPrice >? ma50) && (ma50 >? ma200) && (trendStrength >? Fin 0.5)
     && (rsi >? Fin 50)
  then "bullish"%string
  else if (currentPrice <? ma50) && (ma50 <? ma200) && (trendStrength <? Fin (-0.5))
          && (rsi <? Fin 50)
  then "bearish"%string
  else if (currentPrice >? ma200) && (currentPrice <? ma50) then "correction"%string
  else if (currentPrice <? ma200) && (currentPrice >? ma50) then "recovery"%string
  else if Math_abs trendStrength <? Fin 0.3 then "sideways"%string
  else "neutral"%string.

(** [calculatePhaseStrength] (lines 254-267). *)
Definition calculatePhaseStrength (phase : string) (trendStrength : number)
    (volumeProfile : VolumeProfile) : number :=
  if String.eqb phase "markup" then Math_min [Fin 1; trendStrength * Fin 1.2]
  else if String.eqb phase "markdown"
  then Math_min [Fin 1; Math_abs trendStrength * Fin 1.2]
  else if String.eqb phase "accumulation"
  then Math_min [Fin 1; buyingPressure volumeProfile * Fin 1.5]
  else if String.eqb phase "distribution"
  then Math_min [Fin 1; sellingPressure volumeProfile * Fin 1.5]
  else Fin 0.5.

(** The result of [calculatePriceTargets]. *)
Record PriceTargets : Type := mkPriceTargets {
  shortTerm_range : PriceRange;
  midTerm_range : PriceRange;
  longTerm_range : PriceRange
}.

(** [calculatePriceTargets] (lines 1308-1339): ranges from the Fibonacci
    levels of the band [support, resistance]. *)
Definition calculatePriceTargets (currentPrice : number) (prices : list number)
    (volatility support resistance : number) : PriceTargets :=
  let range := resistance - support in
  let fib236 := support + range * Fin 0.236 in
  let fib382 := support + range * Fin 0.382 in
  let fib618 := support + range * Fin 0.618 in
  {| shortTerm_range :=
       {| low := Math_max [fib236; currentPrice * (Fin 1 - volatility * Fin 0.1)];
          high := Math_min [resistance; currentPrice * (Fin 1 + volatility * Fin 0.1)] |};
     midTerm_range :=
       {| low := Math_min [currentPrice; fib382];
          high := Math_max [currentPrice; fib618] |};
     longTerm_range := {| low := support; high := resistance |} |}.

(** The result of [calculateBollingerBands]. *)
Record BollingerBands : Type := mkBollingerBands {
  upper : number;
  middle : number;
  lower : number
}.

Section HostSqrt.

(** [Math.sqrt], left to the host as in the section [Host]. *)
Variable Math_sqrt : number -> number.

(** [calculateStandardDeviation] (lines 547-554). *)
Definition calculateStandardDeviation (prices : list number) (period : nat) : number :=
  match prices with
  | [] => Fin 0
  | _ =>
      let slice := slice_last period prices in
      let mean := sum slice / of_nat (length slice) in
      let squaredDiffs := map (fun price => (price - mean) * (price - mean)) slice in
      let variance := sum squaredDiffs / of_nat (length slice) in
      Math_sqrt variance
  end.

(** [calculateBollingerBands] (lines 528-540): the middle band is the last
    element of the rolling series of [calculateSMA]. *)
Definition calculateBollingerBands (prices : list number) (period : nat)
    (multiplier : number) : BollingerBands :=
  let smaValues := calculateSMA prices period in
  let stdDev := calculateStandardDeviation prices period in
  let lastSMA := last_of smaValues in
  {| upper := lastSMA + multiplier * stdDev;
     middle := lastSMA;
     lower := lastSMA - multiplier * stdDev |}.

End HostSqrt.

(** ** The second version of the class

    The functions of the second version (lines 1398-2673) that differ from
    the first and do not go through the tensor library. *)
Module Alternate.

(** [calculateSMA] (lines 1921-1925): one element, the average of the
    trailing window. *)
Definition calculateSMA (prices : list number) (period : nat) : list number :=
  match prices with
  | [] => [Fin 0]
  | _ =>
      let slice := slice_last period prices in
      [sum slice / of_nat (length slice)]
  end.

(** The average as the second version reads it: element [0]. *)
Definition ma_read (prices : list number) (period : nat) : number :=
  at_ (calculateSMA prices period) 0.

(** [determineMarketPhase] (lines 1607-1631): an empty price or volume
    series throws inside the [try] block, and the [catch] answers
    ["sideways"]. *)
Definition determineMarketPhase (prices volumeData : list number)
    (trendStrength : number) : string :=
  match prices, volumeData with
  | [], _ | _, [] => "sideways"%string
  | _, _ =>
      let currentPrice := last_of prices in
      let ma50 := ma_read prices 50 in
      let ma200 := ma_read prices 200 in
      if (currentPrice >? ma50) && (ma50 >? ma200) && (trendStrength >? Fin 0.7)
      then "markup"%string
      else if (currentPrice <? ma50) && (ma50 <? ma200)
              && (trendStrength <? Fin (-0.7))
      then "markdown"%string
      else if trendStrength >? Fin 0.3 then "accumulation"%string
      else if trendStrength <? Fin (-0.3) then "distribution"%string
      else "sideways"%string
  end.

(** The support of [calculateMarketPhase] (lines 1567-1570). *)
Definition phase_support (prices : list number) : number :=
  let lowPrice := Math_min (slice_last 20 prices) in
  let ma20 := ma_read prices 20 in
  let ma50 := ma_read prices 50 in
  let ma200 := ma_read prices 200 in
  Math_max [lowPrice; Math_min [ma20; ma50; ma200] * Fin 0.99].

(** The resistance of [calculateMarketPhase] (lines 1571-1574). *)
Definition phase_resistance (prices : list number) : number :=
  let highPrice := Math_max (slice_last 20 prices) in
  let ma20 := ma_read prices 20 in
  let ma50 := ma_read prices 50 in
  let ma200 := ma_read prices 200 in
  Math_min [highPrice; Math_max [ma20; ma50; ma200] * Fin 1.01].

(** [generatePredictionSignals] (lines 1892-1918).  The products
    [midpoint * 1.1] and [midpoint * 0.9] are the exact ones: binary64
    rounds them, which decides the first two tests when [high] or [low]
    sits on its threshold. *)
Definition generatePredictionSignals (low high spread : number) : list string :=
  let midpoint := (high + low) / Fin 2 in
  (if high >? midpoint * Fin 1.1 then ["Strong upward potential"%string]
   else if low <? midpoint * Fin 0.9 then ["Significant downside risk"%string]
   else [])
  ++ (if spread >? Fin 0.2 then ["High volatility expected"%string]
      else if spread <? Fin 0.05 then ["Low volatility expected"%string]
      else [])
  ++ (if spread <? Fin 0.1 then ["High prediction confidence"%string]
      else if spread >? Fin 0.3 then ["Low prediction confidence"%string]
      else []).

End Alternate.

(** ** Auxiliary definitions *)

(** The last element of a non-empty list of rationals. *)
Definition qlast (qs : list Q) : Q := nth (length qs - 1) qs 0.

(** [Math.min] and [Math.max] of two finite numbers, on their values. *)
Definition qmin (a b : Q) : Q := if negb (Qle_bool a b) then b else a.
Definition qmax (a b : Q) : Q := if negb (Qle_bool b a) then b else a.

(** The series [1, 2, ..., n]. *)
Definition rising (n : nat) : list number :=
  map (fun i : nat => of_nat (i + 1)) (seq 0 n).

(** A series in which no price is below the one before it. *)
Definition nondecreasing (prices : list number) : bool :=
  forallb (fun i : nat => at_ prices i <=? at_ prices (S i))
          (seq 0 (length prices - 1)).

(** The series [n, n - 1, ..., 1]. *)
Definition falling (n : nat) : list number :=
  map (fun i : nat => of_nat (n - i)) (seq 0 n).

(** The series that holds [q] at each of its [n] points. *)
Definition flat (q : Q) (n : nat) : list number := repeat (Fin q) n.

(** A trend model that answers [ts] whatever the features. *)
Definition steadyModel (ts : number)
  : number -> number -> number -> number -> option number :=
  fun _ _ _ _ => Some ts.


(** A trend model that cannot be loaded. *)
Definition failingModel : number -> number -> number -> number -> option number :=
  fun _ _ _ _ => None.

(** The width of the price range of one horizon. *)
Definition width (h : Prediction) : number := high (price h) - low (price h).

(** The interval the specification gives every confidence. *)
Definition confidence_in_range (x : number) : bool := (Fin 30 <=? x) && (x <=? Fin 95).

(** A number that is finite or [+Infinity]. *)
Definition above_NInf (x : number) : bool :=
  match x with Fin _ | PInf => true | _ => false end.

(** A volume series without any volume. *)
Definition all_zero (volumes : list number) : bool :=
  forallb (fun v => v === Fin 0) volumes.

(** A number that is a finite zero. *)
Definition is_zero (v : number) : Prop := exists z, v = Fin z /\ z == 0.

(** The digits after the decimal point of [num / den], at most [fuel] of
    them. *)
Fixpoint frac_digits (fuel : nat) (num den : Z) : string :=
  match fuel with
  | O => EmptyString
  | S fuel' =>
      if (num =? 0)%Z then EmptyString
      else String (Ascii.ascii_of_nat (48 + Z.to_nat (num * 10 / den)))
                  (frac_digits fuel' ((num * 10) mod den)%Z den)
  end.

(** A host for the closed examples.  [hostToString] prints a number in
    decimal; it is [Number.prototype.toString] on the integers and on the
    short terminating decimals, which is all the examples give it.
    [hostLog] and [hostSqrt] are [Math.log] at 1 and [Math.sqrt] at 0, the
    arguments a series of equal prices gives them. *)
Definition hostToString (x : number) : string :=
  match x with
  | NaN => "NaN"
  | PInf => "Infinity"
  | NInf => "-Infinity"
  | Fin q =>
      let r := Qred q in
      let n := Z.abs (Qnum r) in
      let d := Zpos (Qden r) in
      ((if (Qnum r <? 0)%Z then "-" else "")
       ++ NilZero.string_of_uint (N.to_uint (Z.to_N (n / d)))
       ++ (if (n mod d =? 0)%Z then "" else "." ++ frac_digits 20 (n mod d) d))%string
  end.

Definition hostLog (x : number) : number :=
  if x === Fin 1 then Fin 0 else NaN.

Definition hostSqrt (x : number) : number :=
  if x === Fin 0 then Fin 0 else NaN.

(** An argument of [predictPriceTargets]. *)
Definition sampleData : PredictionData :=
  {| prices := [Fin 100; Fin 104; Fin 102];
     volumes := [Fin 7; Fin 7; Fin 7];
     currentPrice := Fin 102;
     volatility := Fin 30;
     sentiment := Fin 60 |}.

(** An answer of the strategy generator. *)
Definition sampleStrategy : TradingStrategy :=
  {| recommendation := "Buy";
     strategy_confidence := Fin 70;
     entries_conservative := Fin 98; entries_moderate := Fin 100;
     entries_aggressive := Fin 102;
     stopLoss_tight := Fin 95; stopLoss_normal := Fin 93; stopLoss_wide := Fin 90;
     targets_primary := Fin 105; targets_secondary := Fin 110; targets_final := Fin 115;
     timeframe := "Short-term";
     rationale := ["Momentum"%string] |}.

(** A data provider that answers 200 prices of 100 with volumes of 0 and
    nothing else. *)
Definition flatHistory (crypto : string) : option HistoricalData :=
  Some {| hd_prices := flat 100 200;
          hd_volumes := Some (flat 0 200);
          hd_current_price := None |}.

(** A data provider that answers one price. *)
Definition singlePointHistory (crypto : string) : option HistoricalData :=
  Some {| hd_prices := [Fin 100]; hd_volumes := Some [Fin 5];
          hd_current_price := None |}.

(** A data provider that answers 20 valid prices with volumes of 0. *)
Definition shortHistory (crypto : string) : option HistoricalData :=
  Some {| hd_prices := flat 100 20; hd_volumes := Some (flat 0 20);
          hd_current_price := None |}.

(** The message of the default report. *)
Definition defaultMessage : string :=
  "Using default analysis due to data unavailability".

(** ** Predicates of the further properties *)

(** A number that is finite, with its value in [lo, hi]. *)
Definition fin_in (lo hi : Q) (x : number) : Prop :=
  exists q, x = Fin q /\ lo <= q /\ q <= hi.

(** A number that is finite and not negative. *)
Definition fin_nonneg (x : number) : Prop := exists q, x = Fin q /\ 0 <= q.

(** The length of a list of rationals, as a rational. *)
Definition qlen (qs : list Q) : Q := inject_Z (Z.of_nat (length qs)).

(** A number that is [NaN], [+Infinity], or finite and not negative: what a
    sum of gains or of losses can be. *)
Definition nonneg_or_NaN (x : number) : Prop :=
  match x with
  | NaN | PInf => True
  | NInf => False
  | Fin q => 0 <= q
  end.

(** A number that is [NaN] or a finite percentage. *)
Definition percent_or_NaN (x : number) : Prop :=
  x = NaN \/ fin_in 0 100 x.

(** A data provider that answers 200 prices of 100 and no volumes. *)
Definition noVolumeHistory (crypto : string) : option HistoricalData :=
  Some {| hd_prices := flat 100 200; hd_volumes := None; hd_current_price := None |}.

(** A price range with finite bounds, the lower one strictly below the
    upper one, both within 15% of the price [c]. *)
Definition bracketed (c : Q) (r : PriceRange) : Prop :=
  exists l u, low r = Fin l /\ high r = Fin u
              /\ c * 0.85 <= l /\ l < u /\ u <= c * 1.15.

(** * Properties *)

(** ** Rationals and rounding *)

Lemma Qle_bool_false (a b : Q) : Qle_bool a b = false -> b < a.
Proof.
  intros H. apply Qnot_le_lt. intros Hle. apply Qle_bool_iff in Hle. congruence.
Qed.

Lemma Qle_bool_true (a b : Q) : a <= b -> Qle_bool a b = true.
Proof. apply Qle_bool_iff. Qed.

Lemma Qle_bool_lt_false (a b : Q) : b < a -> Qle_bool a b = false.
Proof.
  intros H. destruct (Qle_bool a b) eqn:E; [|reflexivity].
  apply Qle_bool_iff in E. lra.
Qed.

Lemma Qeq_bool_false (a b : Q) : ~ a == b -> Qeq_bool a b = false.
Proof.
  intros H. destruct (Qeq_bool a b) eqn:E; [|reflexivity].
  apply Qeq_bool_iff in E. contradiction.
Qed.


Lemma Qsign_neg (q : Q) : q < 0 -> Qsign q = Lt.
Proof. intros H. unfold Qsign. now apply Qlt_alt. Qed.

Lemma Qsign_zero (q : Q) : q == 0 -> Qsign q = Eq.
Proof. intros H. unfold Qsign. now apply Qeq_alt. Qed.

(** Splits the goal on a rational test that occurs in it, leaving the fact
    the branch has established as a hypothesis. *)
Ltac qtest :=
  match goal with
  | |- context [Qle_bool ?a ?b] =>
      let E := fresh "E" in
      destruct (Qle_bool a b) eqn:E;
      [apply Qle_bool_iff in E | apply Qle_bool_false in E]
  | |- context [Qeq_bool ?a ?b] =>
      let E := fresh "E" in
      destruct (Qeq_bool a b) eqn:E;
      [apply Qeq_bool_iff in E | apply Qeq_bool_neq in E]
  | |- context [Qsign ?a] =>
      let E := fresh "E" in
      unfold Qsign; destruct (Qcompare_spec a 0) as [E|E|E]
  end.

Ltac qtests := repeat (qtest; cbn [negb andb orb]).

Lemma round2_nonneg (q : Q) :
  0 <= q -> round2 q = Qfloor (q * 100 + (1 # 2)) # 100.
Proof.
  intros H. unfold round2. now rewrite (Qle_bool_true _ _ H).
Qed.

Lemma Qmake_100_le (a b : Z) : (a <= b)%Z -> a # 100 <= b # 100.
Proof. intros H. unfold Qle; simpl. lia. Qed.

Lemma Qmake_100_eq0 (a : Z) : a # 100 == 0 -> a = 0%Z.
Proof. unfold Qeq; simpl. lia. Qed.

(** Rounding to two decimals is monotone. *)
Lemma round2_mono (x y : Q) : 0 <= x -> x <= y -> round2 x <= round2 y.
Proof.
  intros Hx Hxy. rewrite !round2_nonneg by lra.
  apply Qmake_100_le, Qfloor_resp_le. lra.
Qed.

Lemma round2_pos (x : Q) : 0 <= x -> 0 <= round2 x.
Proof.
  intros Hx. rewrite round2_nonneg by lra.
  assert (0 <= Qfloor (x * 100 + (1 # 2)))%Z as Hn.
  { change 0%Z with (Qfloor 0). apply Qfloor_resp_le. lra. }
  apply Qle_trans with (0 # 100); [discriminate|].
  now apply Qmake_100_le.
Qed.

(** A non-negative number that rounds to zero is below half a cent. *)
Lemma round2_zero_small (x : Q) : 0 <= x -> round2 x == 0 -> x < 0.005.
Proof.
  intros Hx H. rewrite round2_nonneg in H by lra.
  apply Qmake_100_eq0 in H.
  pose proof (Qlt_floor (x * 100 + (1 # 2))) as Hlt.
  rewrite H in Hlt. change (inject_Z (0 + 1)) with 1 in Hlt. lra.
Qed.

(** A rounded value that is not zero is at least one cent. *)
Lemma round2_nonzero_cent (x : Q) : 0 <= x -> ~ round2 x == 0 -> 0.01 <= round2 x.
Proof.
  intros Hx H. pose proof (round2_pos x Hx) as Hp.
  rewrite round2_nonneg in * by lra.
  set (n := Qfloor (x * 100 + (1 # 2))) in *.
  assert (1 <= n)%Z as Hn.
  { destruct (Z_lt_le_dec n 1) as [Hlt|]; [|assumption].
    exfalso. apply H. unfold Qle in Hp; simpl in Hp.
    assert (n = 0%Z) as -> by lia. reflexivity. }
  unfold Qle; simpl. lia.
Qed.

(** Below a cent and a half the rounded value is at most one cent. *)
Lemma round2_small_cent (x : Q) : 0 <= x -> x < 0.015 -> round2 x <= 0.01.
Proof.
  intros Hx H. rewrite round2_nonneg by lra.
  assert (Qfloor (x * 100 + (1 # 2)) < 2)%Z as Hn.
  { apply Z.lt_nge. intros Hge.
    pose proof (Qfloor_le (x * 100 + (1 # 2))) as Hle.
    assert (inject_Z 2 <= inject_Z (Qfloor (x * 100 + (1 # 2)))) as Hi
        by (rewrite <- Zle_Qle; assumption).
    change (inject_Z 2) with 2 in Hi.
    lra. }
  set (n := Qfloor _) in *. clearbody n. unfold Qle; simpl. lia.
Qed.

(** Rounding a value that has two decimals already changes nothing. *)
Lemma round2_idem (x : Q) : 0 <= x -> round2 (round2 x) == round2 x.
Proof.
  intros Hx. pose proof (round2_pos x Hx) as Hp.
  rewrite (round2_nonneg (round2 x)) by assumption.
  rewrite (round2_nonneg x) in * by assumption.
  set (n := Qfloor (x * 100 + (1 # 2))) in *.
  assert ((n # 100) * 100 + (1 # 2) == inject_Z n + (1 # 2)) as ->.
  { unfold Qeq, Qmult, Qplus, inject_Z; simpl. lia. }
  assert (Qfloor (inject_Z n + (1 # 2)) = n) as ->; [|reflexivity].
  apply Z.le_antisymm.
  - apply Z.lt_succ_r. rewrite Zlt_Qlt.
    eapply Qle_lt_trans; [apply Qfloor_le|].
    unfold Z.succ. rewrite inject_Z_plus. change (inject_Z 1) with 1.
    set (f := inject_Z n). clearbody f. lra.
  - rewrite <- (Qfloor_Z n) at 1. apply Qfloor_resp_le.
    set (f := inject_Z n). clearbody f. lra.
Qed.

(** ** Finite series *)

Lemma valid_price_inv (x : number) :
  valid_price x = true -> exists q, x = Fin q /\ 0 < q.
Proof.
  destruct x as [| | |q]; try discriminate.
  cbn. intros H. exists q. split; [reflexivity|].
  apply Qle_bool_false. now destruct (Qle_bool q 0).
Qed.

(** A valid series is a list of positive rationals. *)
Lemma valid_series_inv (prices : list number) :
  valid_series prices = true ->
  exists qs, prices = map Fin qs /\ Forall (fun q => 0 < q) qs.
Proof.
  induction prices as [|x xs IH]; intros H.
  - exists []. split; [reflexivity|constructor].
  - cbn in H. apply andb_prop in H as [Hx Hxs].
    destruct (valid_price_inv x Hx) as (q & -> & Hq).
    destruct (IH Hxs) as (qs & -> & Hqs).
    exists (q :: qs). split; [reflexivity|now constructor].
Qed.

Lemma at_map_Fin (qs : list Q) (i : nat) :
  (i < length qs)%nat -> at_ (map Fin qs) i = Fin (nth i qs 0).
Proof.
  intros Hi. unfold at_.
  rewrite (nth_indep _ NaN (Fin 0)) by (now rewrite length_map).
  apply map_nth.
Qed.

Lemma last_of_map_Fin (qs : list Q) :
  qs <> [] -> last_of (map Fin qs) = Fin (qlast qs).
Proof.
  intros Hne. unfold last_of, get. rewrite length_map.
  destruct qs as [|q qs']; [contradiction|].
  cbn [length].
  replace (Z.of_nat (S (length qs')) - 1)%Z with (Z.of_nat (length qs')) by lia.
  destruct (Z.ltb_spec (Z.of_nat (length qs')) 0); [lia|].
  rewrite Nat2Z.id. fold (at_ (map Fin (q :: qs')) (length qs')).
  rewrite at_map_Fin by (cbn; lia).
  unfold qlast. cbn [length].
  now replace (S (length qs') - 1)%nat with (length qs') by lia.
Qed.

Lemma slice_last_map_Fin (n : nat) (qs : list Q) :
  slice_last n (map Fin qs) = map Fin (slice_last n qs).
Proof.
  destruct n; [reflexivity|]. unfold slice_last. now rewrite length_map, skipn_map.
Qed.

Lemma slice_last_In (n : nat) (qs : list Q) (q : Q) :
  In q (slice_last n qs) -> In q qs.
Proof.
  destruct n as [|n']; [trivial|]. unfold slice_last. intros H.
  set (n := S n') in *.
  rewrite <- (firstn_skipn (length qs - n) qs). apply in_or_app. now right.
Qed.

(** The current price is among the last [n] prices. *)
Lemma qlast_in_slice_last (n : nat) (qs : list Q) :
  qs <> [] -> (1 <= n)%nat -> In (qlast qs) (slice_last n qs).
Proof.
  intros Hne Hn. destruct n as [|n']; [lia|]. unfold slice_last, qlast.
  set (n := S n') in *.
  assert (0 < length qs)%nat as Hlen by (destruct qs; [contradiction|cbn; lia]).
  set (k := (length qs - n)%nat).
  replace (length qs - 1)%nat with (k + (length qs - 1 - k))%nat by lia.
  rewrite <- nth_skipn. apply nth_In. rewrite length_skipn. lia.
Qed.

Lemma min2_Fin (a b : Q) : min2 (Fin a) (Fin b) = Fin (qmin a b).
Proof. unfold min2, qmin; cbn. now destruct (Qle_bool a b). Qed.

Lemma max2_Fin (a b : Q) : max2 (Fin a) (Fin b) = Fin (qmax a b).
Proof. unfold max2, qmax; cbn. now destruct (Qle_bool b a). Qed.

Lemma qmin_spec (a b : Q) :
  qmin a b <= a /\ qmin a b <= b /\ (qmin a b = a \/ qmin a b = b).
Proof. unfold qmin. qtests; repeat split; auto; lra. Qed.

Lemma qmax_spec (a b : Q) :
  a <= qmax a b /\ b <= qmax a b /\ (qmax a b = a \/ qmax a b = b).
Proof. unfold qmax. qtests; repeat split; auto; lra. Qed.

Lemma fold_min_Fin (qs : list Q) (a : Q) :
  exists m, fold_left min2 (map Fin qs) (Fin a) = Fin m
            /\ m <= a /\ (forall q, In q qs -> m <= q) /\ (m = a \/ In m qs).
Proof.
  revert a. induction qs as [|q qs IH]; intros a; cbn [map fold_left].
  - exists a. repeat split; [lra|contradiction|now left].
  - rewrite min2_Fin. destruct (IH (qmin a q)) as (m & -> & Hle & Hall & Hin).
    destruct (qmin_spec a q) as (Ha & Hq & Hor).
    exists m. repeat split.
    + lra.
    + intros q' [<-|Hq']; [lra|now apply Hall].
    + destruct Hin as [->|Hin]; [|right; now right].
      destruct Hor as [->| ->]; [now left|right; now left].
Qed.

Lemma fold_max_Fin (qs : list Q) (a : Q) :
  exists m, fold_left max2 (map Fin qs) (Fin a) = Fin m
            /\ a <= m /\ (forall q, In q qs -> q <= m) /\ (m = a \/ In m qs).
Proof.
  revert a. induction qs as [|q qs IH]; intros a; cbn [map fold_left].
  - exists a. repeat split; [lra|contradiction|now left].
  - rewrite max2_Fin. destruct (IH (qmax a q)) as (m & -> & Hle & Hall & Hin).
    destruct (qmax_spec a q) as (Ha & Hq & Hor).
    exists m. repeat split.
    + lra.
    + intros q' [<-|Hq']; [lra|now apply Hall].
    + destruct Hin as [->|Hin]; [|right; now right].
      destruct Hor as [->| ->]; [now left|right; now left].
Qed.

(** [Math.min] of a non-empty finite series is its least element. *)
Lemma Math_min_Fin (qs : list Q) :
  qs <> [] ->
  exists m, Math_min (map Fin qs) = Fin m
            /\ (forall q, In q qs -> m <= q) /\ In m qs.
Proof.
  destruct qs as [|q qs]; [contradiction|]. intros _.
  unfold Math_min. cbn [map fold_left].
  change (min2 PInf (Fin q)) with (Fin q).
  destruct (fold_min_Fin qs q) as (m & -> & Hle & Hall & Hin).
  exists m. repeat split.
  - intros q' [<-|Hq']; [assumption|now apply Hall].
  - destruct Hin as [->|Hin]; [now left|now right].
Qed.

(** [Math.max] of a non-empty finite series is its greatest element. *)
Lemma Math_max_Fin (qs : list Q) :
  qs <> [] ->
  exists m, Math_max (map Fin qs) = Fin m
            /\ (forall q, In q qs -> q <= m) /\ In m qs.
Proof.
  destruct qs as [|q qs]; [contradiction|]. intros _.
  unfold Math_max. cbn [map fold_left].
  change (max2 NInf (Fin q)) with (Fin q).
  destruct (fold_max_Fin qs q) as (m & -> & Hle & Hall & Hin).
  exists m. repeat split.
  - intros q' [<-|Hq']; [assumption|now apply Hall].
  - destruct Hin as [->|Hin]; [now left|now right].
Qed.

Lemma slice_last_nonempty {A : Type} (n : nat) (xs : list A) :
  xs <> [] -> (1 <= n)%nat -> slice_last n xs <> [].
Proof.
  intros Hne Hn H. destruct n as [|n']; [lia|]. unfold slice_last in H.
  apply skipn_all_iff in H.
  assert (0 < length xs)%nat by (destruct xs; [contradiction|cbn; lia]). lia.
Qed.

(** ** Arithmetic on finite numbers *)

Lemma add_Fin (a b : Q) : Fin a + Fin b = Fin (a + b).
Proof. reflexivity. Qed.

Lemma sub_Fin (a b : Q) : Fin a - Fin b = Fin (a + - b).
Proof. reflexivity. Qed.

Lemma mul_Fin (a b : Q) : Fin a * Fin b = Fin (a * b).
Proof. reflexivity. Qed.

Lemma neg_Fin (a : Q) : neg (Fin a) = Fin (- a).
Proof. reflexivity. Qed.

Lemma abs_Fin (a : Q) : Math_abs (Fin a) = Fin (Qabs a).
Proof. reflexivity. Qed.

Lemma div_Fin (a b : Q) : ~ b == 0 -> Fin a / Fin b = Fin (a / b).
Proof.
  intros Hb. unfold div, Qsign.
  destruct (Qcompare_spec b 0); [contradiction|reflexivity|reflexivity].
Qed.

Lemma min2_PInf (a : Q) : min2 PInf (Fin a) = Fin a.
Proof. reflexivity. Qed.

Lemma max2_NInf (a : Q) : max2 NInf (Fin a) = Fin a.
Proof. reflexivity. Qed.

Lemma toFixed2_Fin (a : Q) : toFixed2 (Fin a) = Fin (round2 a).
Proof. reflexivity. Qed.

Lemma leb_Fin (a b : Q) : (Fin a <=? Fin b) = Qle_bool a b.
Proof. reflexivity. Qed.

Lemma ltb_Fin (a b : Q) : (Fin a <? Fin b) = negb (Qle_bool b a).
Proof. reflexivity. Qed.

Lemma gtb_Fin (a b : Q) : (Fin a >? Fin b) = negb (Qle_bool a b).
Proof. reflexivity. Qed.

Lemma geb_Fin (a b : Q) : (Fin a >=? Fin b) = Qle_bool b a.
Proof. reflexivity. Qed.

Lemma eqb_Fin (a b : Q) : (Fin a === Fin b) = Qeq_bool a b.
Proof. reflexivity. Qed.

Create Rewrite HintDb fin.

#[local] Hint Rewrite add_Fin sub_Fin mul_Fin neg_Fin abs_Fin min2_PInf max2_NInf
  min2_Fin max2_Fin toFixed2_Fin leb_Fin ltb_Fin gtb_Fin geb_Fin eqb_Fin : fin.

(** Unfolds the variadic [Math.max] and [Math.min] and computes on finite
    arguments. *)
Ltac fin_simpl :=
  unfold Math_max, Math_min, sum; cbn [fold_left]; autorewrite with fin.

(** ** The moving averages read by the phase classifier *)

Lemma calculateSMA_head (prices : list number) (period : nat) :
  prices <> [] -> (2 <= period)%nat -> at_ (calculateSMA prices period) 0 = Fin 0.
Proof.
  intros Hne Hp. destruct prices as [|p ps]; [contradiction|].
  unfold calculateSMA. cbn [length]. rewrite <- cons_seq. cbn [map].
  unfold at_; cbn [nth].
  destruct (Nat.ltb_spec 0 (period - 1)); [reflexivity|lia].
Qed.

Lemma ma_read_zero (prices : list number) (period : nat) :
  prices <> [] -> (2 <= period)%nat -> ma_read prices period = Fin 0.
Proof. apply calculateSMA_head. Qed.

(** What the classifier knows of a valid series: the current price [c] and
    the low and high of the last twenty prices. *)
Lemma recent_range (prices : list number) :
  valid_series prices = true -> prices <> [] ->
  exists c lo hi,
    last_of prices = Fin c /\ 0 < c
    /\ Math_min (slice_last 20 prices) = Fin lo /\ 0 < lo /\ lo <= c
    /\ Math_max (slice_last 20 prices) = Fin hi /\ c <= hi.
Proof.
  intros Hv Hne. destruct (valid_series_inv prices Hv) as (qs & -> & Hpos).
  assert (qs <> []) as Hq by (intros ->; now apply Hne).
  rewrite Forall_forall in Hpos.
  pose proof (qlast_in_slice_last 20 qs Hq ltac:(lia)) as Hin.
  pose proof (slice_last_nonempty 20 qs Hq ltac:(lia)) as Hsl.
  destruct (Math_min_Fin _ Hsl) as (lo & Hlo & Hlo_le & Hlo_in).
  destruct (Math_max_Fin _ Hsl) as (hi & Hhi & Hhi_le & Hhi_in).
  exists (qlast qs), lo, hi.
  rewrite last_of_map_Fin, slice_last_map_Fin by assumption.
  repeat split; auto.
  - apply Hpos. eapply slice_last_In; eassumption.
  - apply Hpos. eapply slice_last_In; eassumption.
Qed.

(** The support level of a valid series is the greater of the recent low and
    95% of the current price. *)
Lemma phase_support_value (prices : list number) (c lo : Q) :
  prices <> [] ->
  last_of prices = Fin c -> 0 < c ->
  Math_min (slice_last 20 prices) = Fin lo -> 0 < lo -> lo <= c ->
  exists s, phase_support prices = Fin s
            /\ 0 < s /\ s <= c /\ c * 0.95 <= s /\ lo <= s.
Proof.
  intros Hne Hc Hcpos Hlo Hlopos Hloc.
  unfold phase_support.
  rewrite !ma_read_zero, Hc, Hlo by (assumption || lia).
  fin_simpl.
  eexists; split; [reflexivity|].
  destruct (qmin_spec 0 0) as (_ & _ & Hz).
  destruct (qmax_spec lo (qmin 0 0 * 0.995)) as (H1 & H2 & H3).
  destruct (qmax_spec (qmax lo (qmin 0 0 * 0.995)) (c * 0.95)) as (H4 & H5 & H6).
  assert (qmin 0 0 == 0) as Hz' by (destruct Hz as [-> | ->]; reflexivity).
  assert (qmax lo (qmin 0 0 * 0.995) == lo) as Hm.
  { destruct H3 as [-> | H3]; [reflexivity|].
    rewrite H3 in H1. rewrite Hz' in H1. lra. }
  repeat split; try lra.
  destruct H6 as [-> | ->]; lra.
Qed.

(** With the moving averages read as zero, the cap on the resistance is
    zero and the floor [support * 1.01] decides. *)
Lemma phase_resistance_value (prices : list number) (c hi s : Q) :
  prices <> [] ->
  last_of prices = Fin c -> 0 < c ->
  Math_max (slice_last 20 prices) = Fin hi ->
  phase_support prices = Fin s -> 0 < s ->
  exists r, phase_resistance prices = Fin r /\ r == s * 1.01.
Proof.
  intros Hne Hc Hcpos Hhi Hs Hspos.
  unfold phase_resistance.
  rewrite !ma_read_zero, Hc, Hhi, Hs by (assumption || lia).
  fin_simpl.
  eexists; split; [reflexivity|].
  destruct (qmax_spec 0 0) as (_ & _ & Hz).
  assert (qmax 0 0 == 0) as Hz' by (destruct Hz as [-> | ->]; reflexivity).
  destruct (qmin_spec hi (qmax 0 0 * 1.005)) as (_ & H2 & _).
  destruct (qmin_spec (qmin hi (qmax 0 0 * 1.005)) (c * 1.05)) as (H4 & _ & _).
  match goal with |- qmax ?a ?b == _ =>
    destruct (qmax_spec a b) as (H7 & H8 & [H9 | H9]); rewrite H9 in *
  end; [|reflexivity].
  lra.
Qed.

(** ** Key levels *)

(** The rounded levels of a valid series, on the path that computes them. *)
Lemma phase_keyLevels_ordered (prices : list number) :
  valid_series prices = true -> prices <> [] ->
  let k := phase_keyLevels prices in
  (strongSupport k <=? support k) = true
  /\ (support k <=? pivot k) = true
  /\ (support k <=? resistance k) = true
  /\ (resistance k <=? strongResistance k) = true
  /\ pivot k = toFixed2 (last_of prices).
Proof.
  intros Hv Hne.
  destruct (recent_range prices Hv Hne)
    as (c & lo & hi & Hc & Hcpos & Hlo & Hlopos & Hloc & Hhi & Hchi).
  destruct (phase_support_value prices c lo Hne Hc Hcpos Hlo Hlopos Hloc)
    as (s & Hs & Hspos & Hsc & Hcs & _).
  destruct (phase_resistance_value prices c hi s Hne Hc Hcpos Hhi Hs Hspos)
    as (r & Hr & Hrs).
  unfold phase_keyLevels. cbn zeta. rewrite Hs, Hr, Hc.
  autorewrite with fin. cbn [isNaN orb].
  assert (round2 s <= round2 r) as Hsr by (apply round2_mono; lra).
  assert (round2 r <= round2 (r * 1.01)) as Hrr by (apply round2_mono; lra).
  assert (round2 s <= round2 (c * 1.05)) as Hsc105 by (apply round2_mono; lra).
  destruct (Qeq_bool (round2 r) 0) eqn:Er;
    [apply Qeq_bool_iff in Er | apply Qeq_bool_neq in Er];
    autorewrite with fin; cbn [isNaN orb];
    (destruct (Qeq_bool (round2 (r * 1.01)) 0) eqn:Es;
     [apply Qeq_bool_iff in Es | apply Qeq_bool_neq in Es]);
    autorewrite with fin;
    cbn [strongSupport support pivot resistance strongResistance];
    autorewrite with fin;
    repeat split; try (apply Qle_bool_true).
  all: try (apply round2_mono; lra).
  all: try assumption.
  - (* both rounded to zero: the replacement levels *)
    rewrite <- (round2_idem (c * 1.05)) at 1 by lra.
    apply round2_mono; [apply round2_pos; lra|].
    pose proof (round2_pos (c * 1.05)). lra.
  - (* resistance replaced, strong resistance kept *)
    pose proof (round2_zero_small r ltac:(lra) Er) as Hsmall.
    apply Qle_trans with 0.01.
    + apply round2_small_cent; lra.
    + apply round2_nonzero_cent; [lra|assumption].
  - (* strong resistance rounded to zero below a resistance that is not *)
    exfalso. pose proof (round2_pos r ltac:(lra)) as Hp.
    pose proof (round2_nonzero_cent r ltac:(lra) Er). lra.
Qed.

(** Before the rounding the floor holds: the resistance of a valid series
    is strictly above its support. *)
Lemma resistance_above_support_before_rounding (prices : list number) :
  valid_series prices = true -> prices <> [] ->
  (phase_resistance prices >? phase_support prices) = true.
Proof.
  intros Hv Hne.
  destruct (recent_range prices Hv Hne)
    as (c & lo & hi & Hc & Hcpos & Hlo & Hlopos & Hloc & Hhi & Hchi).
  destruct (phase_support_value prices c lo Hne Hc Hcpos Hlo Hlopos Hloc)
    as (s & Hs & Hspos & _).
  destruct (phase_resistance_value prices c hi s Hne Hc Hcpos Hhi Hs Hspos)
    as (r & Hr & Hrs).
  rewrite Hs, Hr, gtb_Fin. rewrite Qle_bool_lt_false; [reflexivity|lra].
Qed.

(** The levels of the fallback classification, for a positive price. *)
Lemma default_keyLevels_ordered (c : Q) (crypto : string) :
  0 < c ->
  let k := keyLevels (getDefaultMarketPhase (Fin c) crypto) in
  (strongSupport k <=? support k) = true
  /\ (support k <=? resistance k) = true
  /\ (resistance k <=? strongResistance k) = true
  /\ pivot k = toFixed2 (Fin c).
Proof.
  intros Hc. unfold getDefaultMarketPhase, defaultRanges.
  repeat match goal with
         | |- context [String.eqb ?a ?b] => destruct (String.eqb a b)
         end;
    cbn [keyLevels strongSupport support pivot resistance strongResistance fst snd];
    try (repeat split; vm_compute; reflexivity).
  autorewrite with fin.
  repeat split; apply Qle_bool_true; apply round2_mono; lra.
Qed.

(** On a valid series the classifier takes the fallback exactly when the
    trend model fails. *)
Lemma calculateMarketPhase_computed
    (model : number -> number -> number -> number -> option number)
    (prices volumeData : list number) (crypto : string) (ts : number) :
  prices <> [] ->
  analyzeTrendStrength model prices volumeData = Some ts ->
  phase (calculateMarketPhase model prices volumeData crypto) = phase_label prices
  /\ keyLevels (calculateMarketPhase model prices volumeData crypto)
     = phase_keyLevels prices.
Proof.
  intros Hne Hts. unfold calculateMarketPhase. rewrite Hts.
  destruct prices; [contradiction|]. split; reflexivity.
Qed.

Lemma calculateMarketPhase_fallback
    (model : number -> number -> number -> number -> option number)
    (prices volumeData : list number) (crypto : string) :
  analyzeTrendStrength model prices volumeData = None ->
  calculateMarketPhase model prices volumeData crypto
  = getDefaultMarketPhase (or_else (last_of prices) (Fin 0)) crypto.
Proof. intros Hts. unfold calculateMarketPhase. now rewrite Hts. Qed.

(** The phase label of a valid series: with the three averages read as
    zero, no rule of the chain fires. *)
Lemma phase_label_sideways (prices : list number) :
  valid_series prices = true -> prices <> [] ->
  phase_label prices = "sideways"%string.
Proof.
  intros Hv Hne.
  destruct (recent_range prices Hv Hne) as (c & _ & _ & Hc & Hcpos & _).
  unfold phase_label. rewrite !ma_read_zero, Hc by (assumption || lia).
  autorewrite with fin.
  rewrite (Qle_bool_lt_false c 0 Hcpos).
  reflexivity.
Qed.

(** ** Claims on the market phase *)

(** C1, amended.  For every valid price series (non-empty, every price
    finite and positive) the key levels returned by [calculateMarketPhase],
    on the computed path and on the fallback path alike, satisfy
    [strongSupport <= support <= resistance <= strongResistance], and
    [pivot] is the current (last) price rounded to two decimals; on the
    computed path [support <= pivot] as well.  That [pivot <= resistance] is
    not part of what the code ensures. *)
Theorem keyLevels_ordered
    (model : number -> number -> number -> number -> option number)
    (prices volumeData : list number) (crypto : string) :
  valid_series prices = true -> prices <> [] ->
  let k := keyLevels (calculateMarketPhase model prices volumeData crypto) in
  (strongSupport k <=? support k) = true
  /\ (support k <=? resistance k) = true
  /\ (resistance k <=? strongResistance k) = true
  /\ pivot k = toFixed2 (last_of prices)
  /\ (analyzeTrendStrength model prices volumeData <> None ->
      (support k <=? pivot k) = true).
Proof.
  intros Hv Hne k. subst k.
  destruct (analyzeTrendStrength model prices volumeData) as [ts|] eqn:Hts.
  - destruct (calculateMarketPhase_computed model prices volumeData crypto ts Hne Hts)
      as (_ & ->).
    destruct (phase_keyLevels_ordered prices Hv Hne) as (H1 & H2 & H3 & H4 & H5).
    repeat split; auto.
  - rewrite (calculateMarketPhase_fallback model prices volumeData crypto Hts).
    destruct (recent_range prices Hv Hne) as (c & _ & _ & Hc & Hcpos & _).
    rewrite Hc. unfold or_else, truthy.
    rewrite (Qeq_bool_false c 0) by lra. cbn [negb].
    destruct (default_keyLevels_ordered c crypto Hcpos) as (H1 & H2 & H3 & H4).
    repeat split; auto; congruence.
Qed.

(** The ordering at a series of three prices, with a model that answers. *)
Lemma keyLevels_ordered_witness :
  let prices := [Fin 100; Fin 104; Fin 102] in
  let k := keyLevels (calculateMarketPhase (steadyModel (Fin 0.5)) prices
                        [Fin 7; Fin 7; Fin 7] "bitcoin") in
  valid_series prices = true /\ prices <> []
  /\ (strongSupport k <=? support k) = true
  /\ (support k <=? resistance k) = true
  /\ (resistance k <=? strongResistance k) = true
  /\ pivot k = toFixed2 (last_of prices)
  /\ (support k <=? pivot k) = true.
Proof.
  intros prices k.
  assert (valid_series prices = true) as Hv by reflexivity.
  assert (prices <> []) as Hne by discriminate.
  destruct (keyLevels_ordered (steadyModel (Fin 0.5)) prices
              [Fin 7; Fin 7; Fin 7] "bitcoin" Hv Hne)
    as (H1 & H2 & H3 & H4 & H5).
  assert (analyzeTrendStrength (steadyModel (Fin 0.5)) prices [Fin 7; Fin 7; Fin 7]
          <> None) as Hm by discriminate.
  exact (conj Hv (conj Hne (conj H1 (conj H2 (conj H3 (conj H4 (H5 Hm))))))).
Defined.

(** C1, counterexample.  On the valid series [1, 2, ..., 200] the support is
    190, the resistance 191.90 and the pivot 200: the pivot lies above the
    resistance. *)
Lemma pivot_above_resistance :
  let k := keyLevels (calculateMarketPhase (steadyModel (Fin 0.5)) (rising 200)
                        (flat 1000 200) "bitcoin") in
  valid_series (rising 200) = true
  /\ length (rising 200) = 200%nat
  /\ (support k === Fin 190) = true
  /\ (pivot k === Fin 200) = true
  /\ (resistance k === Fin 191.9) = true
  /\ (pivot k <=? resistance k) = false.
Proof. vm_compute. repeat split. Qed.

(** C3.  For every non-empty price series and every period of at least 2,
    the first element of the series returned by [calculateSMA] is the fill
    value 0; hence [calculateMarketPhase] reads [ma20], [ma50] and [ma200]
    as 0, and on a valid (positive, finite) series its non-error path
    returns the phase ["sideways"]. *)
Theorem sma_fill_value_read_as_average
    (model : number -> number -> number -> number -> option number)
    (prices volumeData : list number) (period : nat) (crypto : string) (ts : number) :
  prices <> [] -> (2 <= period)%nat ->
  at_ (calculateSMA prices period) 0 = Fin 0
  /\ ma_read prices 20 = Fin 0
  /\ ma_read prices 50 = Fin 0
  /\ ma_read prices 200 = Fin 0
  /\ (valid_series prices = true ->
      analyzeTrendStrength model prices volumeData = Some ts ->
      phase (calculateMarketPhase model prices volumeData crypto) = "sideways"%string).
Proof.
  intros Hne Hp. repeat split.
  - now apply calculateSMA_head.
  - apply ma_read_zero; [assumption|lia].
  - apply ma_read_zero; [assumption|lia].
  - apply ma_read_zero; [assumption|lia].
  - intros Hv Hts.
    destruct (calculateMarketPhase_computed model prices volumeData crypto ts Hne Hts)
      as (-> & _).
    now apply phase_label_sideways.
Qed.

(** The fill value and the phase at a series of two prices. *)
Lemma sma_fill_value_read_as_average_witness :
  let prices := [Fin 3; Fin 5] in
  prices <> [] /\ (2 <= 2)%nat
  /\ at_ (calculateSMA prices 2) 0 = Fin 0
  /\ phase (calculateMarketPhase (steadyModel (Fin 0.5)) prices [Fin 1; Fin 1] "bitcoin")
     = "sideways"%string.
Proof.
  intros prices.
  assert (prices <> []) as Hne by discriminate.
  destruct (sma_fill_value_read_as_average (steadyModel (Fin 0.5)) prices
              [Fin 1; Fin 1] 2 "bitcoin" (Fin 0.5) Hne (le_n 2))
    as (H1 & _ & _ & _ & H2).
  exact (conj Hne (conj (le_n 2) (conj H1 (H2 eq_refl eq_refl)))).
Defined.

(** C2, the code at the scenario.  On 200 rising points with flat volumes
    [calculateMarketPhase] answers ["sideways"] when the trend model answers
    and ["Analyzing"] when it fails, never a bullish label; the RSI of the
    series is above 50, and [determineTrendDirection], which compares the
    rolling series as strings, answers ["bullish"]. *)
Theorem rising_series_is_not_classified_bullish
    (model : number -> number -> number -> number -> option number)
    (crypto : string) :
  let r := calculateMarketPhase model (rising 200) (flat 1000 200) crypto in
  (phase r = "sideways"%string \/ phase r = "Analyzing"%string)
  /\ (calculateRSI (rising 200) 14 >? Fin 50) = true
  /\ determineTrendDirection hostToString (rising 200) = "bullish"%string.
Proof.
  intros r. subst r. split; [|split; vm_compute; reflexivity].
  assert (rising 200 <> []) as Hne by discriminate.
  destruct (analyzeTrendStrength model (rising 200) (flat 1000 200)) as [ts|] eqn:Hts.
  - left.
    destruct (calculateMarketPhase_computed model _ _ crypto ts Hne Hts) as (-> & _).
    apply phase_label_sideways; [vm_compute; reflexivity|assumption].
  - right. now rewrite (calculateMarketPhase_fallback model _ _ crypto Hts).
Qed.

(** C7, the code at a failing input.  On the valid series that holds 0.45 at
    each of 200 points the support is 0.45 and the resistance, 0.4545 before
    rounding, is 0.45 as well: the rounded resistance is not above the
    rounded support. *)
Theorem rounded_resistance_meets_support
    (ts : number) (volumeData : list number) (crypto : string) :
  let k := keyLevels (calculateMarketPhase (steadyModel ts) (flat 0.45 200)
                        volumeData crypto) in
  valid_series (flat 0.45 200) = true
  /\ (phase_resistance (flat 0.45 200) === Fin 0.4545) = true
  /\ (support k === Fin 0.45) = true
  /\ (resistance k === Fin 0.45) = true
  /\ (resistance k >? support k) = false.
Proof.
  intros k. subst k.
  assert (flat 0.45 200 <> []) as Hne by discriminate.
  destruct (calculateMarketPhase_computed (steadyModel ts) (flat 0.45 200)
              volumeData crypto ts Hne eq_refl) as (_ & ->).
  vm_compute. repeat split.
Qed.

(** ** Claims on the indicators *)

(** C4, the code at failing inputs.  On a valid series of 200 equal prices
    [calculateStochRSI] and [calculateADX] return [NaN] (both divide zero by
    zero); [calculateStochRSI] returns [NaN] on 200 rising prices too, where
    every RSI value is 100 and the range [maxRSI - minRSI] is zero, and
    [calculateADX] on 200 falling prices, where both directional sums are
    zero.  [calculateRSI], which guards its quotient and its result, returns
    a number on each of them. *)
Theorem oscillators_return_NaN_on_valid_series :
  valid_series (flat 100 200) = true
  /\ calculateStochRSI (flat 100 200) 14 = NaN
  /\ calculateADX (flat 100 200) 14 = NaN
  /\ valid_series (rising 200) = true
  /\ calculateStochRSI (rising 200) 14 = NaN
  /\ valid_series (falling 200) = true
  /\ calculateADX (falling 200) 14 = NaN
  /\ isNaN (calculateRSI (flat 100 200) 14) = false
  /\ isNaN (calculateRSI (rising 200) 14) = false
  /\ isNaN (calculateRSI (falling 200) 14) = false.
Proof. vm_compute. repeat split. Qed.

(** ** Claims on the risk warnings *)

(** X29.  What [generateRiskWarnings] emits: each warning exactly when its
    test holds, the test on the trend strength being on the signed value;
    the fourth message exactly when no test holds; at least one message. *)
Lemma generateRiskWarnings_spec (volatility trendStrength volumeRatio : number) :
  let w := generateRiskWarnings volatility trendStrength volumeRatio in
  (In "High market volatility"%string w <-> (volatility >? Fin 50) = true)
  /\ (In "Weak market trend"%string w <-> (trendStrength <? Fin 0.3) = true)
  /\ (In "Unusual trading volume"%string w <-> (volumeRatio >? Fin 2) = true)
  /\ (In "No significant risks detected"%string w <->
      (volatility >? Fin 50) = false /\ (trendStrength <? Fin 0.3) = false
      /\ (volumeRatio >? Fin 2) = false)
  /\ w <> [].
Proof.
  unfold generateRiskWarnings.
  destruct (volatility >? Fin 50), (trendStrength <? Fin 0.3), (volumeRatio >? Fin 2);
    cbn [app]; repeat split; try discriminate; intros; auto;
    repeat match goal with
           | H : In _ _ |- _ => destruct H as [H | H]; try discriminate H
           | H : _ /\ _ |- _ => destruct H
           end;
    try discriminate; try contradiction; cbn; auto 6.
Qed.

(** The test of the weak-trend warning is on the signed value: with a trend
    strength of -0.5, whose magnitude 0.5 is not below 0.3,
    [generateRiskWarnings] would emit the warning.  No such trend strength
    reaches it from [getFullAnalysis] when no volume is negative
    ([trend_strength_not_negative] below). *)
Lemma weak_trend_warning_is_signed :
  (Math_abs (Fin (-0.5)) <? Fin 0.3) = false
  /\ generateRiskWarnings (Fin 10) (Fin (-0.5)) (Fin 1) = ["Weak market trend"%string].
Proof. vm_compute. split; reflexivity. Qed.

(** ** Relative strength index *)

(** An invariant of a [reduce] or of a counted loop. *)
Lemma fold_left_invariant {A B : Type} (P : A -> Prop) (f : A -> B -> A)
    (l : list B) (a : A) :
  P a -> (forall a' x, In x l -> P a' -> P (f a' x)) -> P (fold_left f l a).
Proof.
  revert a. induction l as [|x l IH]; intros a Ha Hstep; cbn [fold_left].
  - exact Ha.
  - apply IH.
    + apply Hstep; [now left|exact Ha].
    + intros a' y Hy. apply Hstep. now right.
Qed.

Lemma finite_series_inv (prices : list number) :
  forallb isFinite prices = true -> exists qs, prices = map Fin qs.
Proof.
  induction prices as [|x xs IH]; intros H.
  - now exists [].
  - cbn in H. apply andb_prop in H as [Hx Hxs].
    destruct x as [| | |q]; try discriminate.
    destruct (IH Hxs) as (qs & ->). now exists (q :: qs).
Qed.

(** In a finite non-decreasing series every step is a finite, non-negative
    difference. *)
Lemma nondecreasing_step (qs : list Q) (i : nat) :
  nondecreasing (map Fin qs) = true ->
  (1 <= i)%nat -> (i < length qs)%nat ->
  exists d, at_ (map Fin qs) i - at_ (map Fin qs) (i - 1) = Fin d /\ 0 <= d.
Proof.
  intros Hnd Hi Hlen. unfold nondecreasing in Hnd.
  rewrite forallb_forall in Hnd. rewrite length_map in Hnd.
  specialize (Hnd (i - 1)%nat).
  replace (S (i - 1)) with i in Hnd by lia.
  rewrite !at_map_Fin in * by lia.
  rewrite leb_Fin in Hnd.
  assert (Qle_bool (nth (i - 1) qs 0) (nth i qs 0) = true) as Hle.
  { apply Hnd. apply in_seq. lia. }
  apply Qle_bool_iff in Hle.
  rewrite sub_Fin. eexists; split; [reflexivity|lra].
Qed.

Lemma of_nat_pos (n : nat) :
  (1 <= n)%nat -> exists p, of_nat n = Fin p /\ 0 < p.
Proof.
  intros Hn. exists (inject_Z (Z.of_nat n)). split; [reflexivity|].
  change 0 with (inject_Z 0). rewrite <- Zlt_Qlt. lia.
Qed.

(** On a finite non-decreasing series the smoothed average loss is zero when
    the loops of [calculateRSI] end. *)
Lemma rsi_averages_no_loss (prices : list number) (period : nat) :
  (1 <= period)%nat -> (period + 1 <= length prices)%nat ->
  forallb isFinite prices = true -> nondecreasing prices = true ->
  exists l, snd (rsi_averages prices period) = Fin l /\ l == 0.
Proof.
  intros Hp Hlen Hfin Hnd.
  destruct (finite_series_inv prices Hfin) as (qs & ->).
  rewrite length_map in Hlen.
  destruct (of_nat_pos period Hp) as (p & Hpq & Hppos).
  unfold rsi_averages. rewrite Hpq.
  assert (snd (rsi_seed (map Fin qs) period) = Fin 0) as Hseed.
  { unfold rsi_seed.
    apply (fold_left_invariant (fun gl : number * number => snd gl = Fin 0));
      [reflexivity|].
    intros gl i Hi Hgl. apply in_seq in Hi.
    destruct (nondecreasing_step qs i Hnd) as (d & -> & Hd); [lia|lia|].
    rewrite geb_Fin, (Qle_bool_true 0 d Hd). exact Hgl. }
  apply (fold_left_invariant
           (fun avg : number * number => exists l, snd avg = Fin l /\ l == 0)).
  - cbn [snd]. rewrite Hseed, div_Fin by lra.
    eexists; split; [reflexivity|]. field. lra.
  - intros avg i Hi (l & Hl & Hl0). apply in_seq in Hi.
    rewrite length_map in Hi.
    destruct (nondecreasing_step qs i Hnd) as (d & Hdiff & Hd); [lia|lia|].
    unfold wilder_step. cbn [snd]. rewrite Hdiff, Hl, Hpq.
    autorewrite with fin. rewrite div_Fin by lra.
    eexists; split; [reflexivity|].
    destruct (qmax_spec 0 (- d)) as (H1 & H2 & H3).
    assert (qmax 0 (- d) == 0) as ->
        by (destruct H3 as [H3 | H3]; rewrite H3 in *; lra).
    rewrite Hl0. field. lra.
Qed.

(** The value [calculateRSI] returns once the average loss is zero:
    [100 - 100 / (1 + 100)]. *)
Lemma calculateRSI_no_loss (prices : list number) (period : nat) :
  (period + 1 <= length prices)%nat ->
  (snd (rsi_averages prices period) === Fin 0) = true ->
  (calculateRSI prices period === Fin (10000 # 101)) = true.
Proof.
  intros Hlen Hloss. unfold calculateRSI.
  destruct (Nat.ltb_spec (length prices) (period + 1)); [lia|].
  cbn zeta. rewrite Hloss. vm_compute. reflexivity.
Qed.

(** What [calculateRSI] does on every input.  It returns exactly 50 when the
    series has fewer than [period + 1] points.  With at least [period + 1]
    points it returns exactly [100 - 100/101] (10000/101, about 99.01) when
    the Wilder-smoothed average loss is exactly 0: the guard sets the ratio
    [rs], not the index, to 100.  The average loss is 0 on every finite
    non-decreasing series.  The result is never [NaN]: a [NaN] resolves
    to 50. *)
Lemma calculateRSI_on_every_input (prices : list number) (period : nat) :
  ((length prices < period + 1)%nat -> calculateRSI prices period = Fin 50)
  /\ ((period + 1 <= length prices)%nat ->
      (snd (rsi_averages prices period) === Fin 0) = true ->
      (calculateRSI prices period === Fin (10000 # 101)) = true)
  /\ ((1 <= period)%nat -> (period + 1 <= length prices)%nat ->
      forallb isFinite prices = true -> nondecreasing prices = true ->
      (snd (rsi_averages prices period) === Fin 0) = true)
  /\ isNaN (calculateRSI prices period) = false.
Proof.
  repeat apply conj.
  - intros Hlen. unfold calculateRSI.
    destruct (Nat.ltb_spec (length prices) (period + 1)); [reflexivity|lia].
  - apply calculateRSI_no_loss.
  - intros Hp Hlen Hfin Hnd.
    destruct (rsi_averages_no_loss prices period Hp Hlen Hfin Hnd) as (l & -> & Hl).
    rewrite eqb_Fin. now apply Qeq_bool_iff.
  - unfold calculateRSI.
    destruct (length prices <? period + 1)%nat; [reflexivity|].
    cbn zeta.
    match goal with |- isNaN (if isNaN ?x then _ else _) = false =>
      destruct (isNaN x) eqn:E; [reflexivity|exact E]
    end.
Qed.

(** The contract at the short series [1, 2, 3] and at the rising series
    [1, ..., 15], both with the period 14. *)
Lemma calculateRSI_on_every_input_example :
  ((length (rising 3) < 14 + 1)%nat /\ calculateRSI (rising 3) 14 = Fin 50)
  /\ ((1 <= 14)%nat /\ (14 + 1 <= length (rising 15))%nat
      /\ forallb isFinite (rising 15) = true /\ nondecreasing (rising 15) = true
      /\ (snd (rsi_averages (rising 15) 14) === Fin 0) = true
      /\ (calculateRSI (rising 15) 14 === Fin (10000 # 101)) = true).
Proof.
  assert (length (rising 3) < 14 + 1)%nat as Hshort by (vm_compute; lia).
  assert (1 <= 14)%nat as Hp by lia.
  assert (14 + 1 <= length (rising 15))%nat as Hlen by (vm_compute; lia).
  assert (forallb isFinite (rising 15) = true) as Hfin by (vm_compute; reflexivity).
  assert (nondecreasing (rising 15) = true) as Hnd by (vm_compute; reflexivity).
  destruct (calculateRSI_on_every_input (rising 3) 14) as (H50 & _).
  destruct (calculateRSI_on_every_input (rising 15) 14) as (_ & H100 & Hloss & _).
  exact (conj (conj Hshort (H50 Hshort))
           (conj Hp (conj Hlen (conj Hfin (conj Hnd
              (conj (Hloss Hp Hlen Hfin Hnd)
                    (H100 Hlen (Hloss Hp Hlen Hfin Hnd)))))))).
Defined.

(** C5, the code at a failing input.  On the strictly rising series
    [1, ..., 16], with the period 14, the Wilder-smoothed average loss is
    exactly 0 and [calculateRSI] returns 10000/101 (about 99.01), not the 100
    of a series without loss: the guard [avgLoss === 0 ? 100 : ...] puts its
    100 in the ratio [rs], not in the index.  [calculateRSIArray], which
    runs the same two loops without the guard, ends on 100 on the same
    series. *)
Theorem calculateRSI_is_not_100_without_loss :
  (14 + 1 <= length (rising 16))%nat
  /\ nondecreasing (rising 16) = true
  /\ (snd (rsi_averages (rising 16) 14) === Fin 0) = true
  /\ (calculateRSI (rising 16) 14 === Fin 100) = false
  /\ (calculateRSI (rising 16) 14 === Fin (10000 # 101)) = true
  /\ (last_of (calculateRSIArray (rising 16) 14) === Fin 100) = true.
Proof. vm_compute. repeat split. lia. Qed.

(** ** Claims on the predictions and the confidences *)

Lemma trendFactor_finite (data : PredictionData) :
  valid_series (prices data) = true -> prices data <> [] ->
  exists t, trendFactor data = Fin t.
Proof.
  intros Hv Hne. destruct (valid_series_inv _ Hv) as (qs & Hqs & Hpos).
  assert (qs <> []) as Hq by (intros ->; now apply Hne).
  unfold trendFactor. rewrite Hqs, slice_last_map_Fin.
  pose proof (slice_last_nonempty 20 qs Hq ltac:(lia)) as Hsl.
  rewrite last_of_map_Fin by assumption.
  assert (0 < length (slice_last 20 qs))%nat as Hlen
      by (destruct (slice_last 20 qs); [contradiction|cbn; lia]).
  rewrite at_map_Fin by assumption.
  assert (0 < nth 0 (slice_last 20 qs) 0) as Hb.
  { rewrite Forall_forall in Hpos. apply Hpos.
    eapply slice_last_In. apply nth_In. exact Hlen. }
  fin_simpl. rewrite div_Fin by lra. fin_simpl.
  eexists; reflexivity.
Qed.

Lemma volatilityFactor_value (data : PredictionData) (v : Q) :
  volatility data = Fin v -> 0 <= v ->
  exists vf, volatilityFactor data = Fin vf /\ 0 <= vf /\ vf <= 0.05.
Proof.
  intros Hv Hpos. unfold volatilityFactor. rewrite Hv.
  rewrite div_Fin by lra. fin_simpl.
  eexists; split; [reflexivity|].
  destruct (qmin_spec 0.05 (v / 1000)) as (H1 & H2 & [H3 | H3]);
    rewrite H3 in *; split; try lra.
  apply Qle_shift_div_l; lra.
Qed.

Lemma sentimentFactor_finite (data : PredictionData) (s : Q) :
  sentiment data = Fin s -> exists sf, sentimentFactor data = Fin sf.
Proof.
  intros Hs. unfold sentimentFactor. rewrite Hs.
  fin_simpl. rewrite div_Fin by lra. fin_simpl. eexists; reflexivity.
Qed.


(** C10.  Under the widening-range policy of [predictPriceTargets], for
    every positive current price, non-negative volatility, finite sentiment
    and valid non-empty price series, the widths of the three horizons do
    not decrease: [shortTerm.high - shortTerm.low <= midTerm.high -
    midTerm.low <= longTerm.high - longTerm.low], after the sentiment and
    trend adjustments and the clamp to 85%-115% of the current price. *)
Theorem prediction_ranges_widen (data : PredictionData) (c v s : Q) :
  currentPrice data = Fin c -> 0 < c ->
  volatility data = Fin v -> 0 <= v ->
  sentiment data = Fin s ->
  valid_series (prices data) = true -> prices data <> [] ->
  let p := predictPriceTargets data in
  (width (shortTerm p) <=? width (midTerm p)) = true
  /\ (width (midTerm p) <=? width (longTerm p)) = true.
Proof.
  intros Hc Hcpos Hv Hvpos Hs Hvalid Hne p. subst p.
  destruct (volatilityFactor_value data v Hv Hvpos) as (vf & Hvf & Hvf0 & Hvf1).
  destruct (sentimentFactor_finite data s Hs) as (sf & Hsf).
  destruct (trendFactor_finite data Hvalid Hne) as (tf & Htf).
  unfold width, predictPriceTargets, adjustRanges, shortTermRange, midTermRange,
    longTermRange.
  cbn [shortTerm midTerm longTerm price low high].
  rewrite Hc, Hvf, Hsf, Htf. fin_simpl.
  assert (0 <= c * vf) as Hcv by (apply Qmult_le_0_compat; lra).
  split; apply Qle_bool_true.
  all: repeat match goal with
       | |- context [qmin ?a ?b] =>
           let H1 := fresh in let H2 := fresh in let H3 := fresh in
           destruct (qmin_spec a b) as (H1 & H2 & H3);
           generalize dependent (qmin a b); intros
       | |- context [qmax ?a ?b] =>
           let H1 := fresh in let H2 := fresh in let H3 := fresh in
           destruct (qmax_spec a b) as (H1 & H2 & H3);
           generalize dependent (qmax a b); intros
       end.
  all: repeat match goal with H : _ \/ _ |- _ => destruct H as [H | H]; subst end.
  all: lra.
Qed.

(** The widening at the sample argument. *)
Lemma prediction_ranges_widen_witness :
  let p := predictPriceTargets sampleData in
  0 < 102 /\ 0 <= 30
  /\ valid_series (prices sampleData) = true /\ prices sampleData <> []
  /\ (width (shortTerm p) <=? width (midTerm p)) = true
  /\ (width (midTerm p) <=? width (longTerm p)) = true.
Proof.
  intros p.
  assert (0 < 102) as Hc by reflexivity.
  assert (0 <= 30) as Hv by discriminate.
  assert (valid_series (prices sampleData) = true) as Hs by reflexivity.
  assert (prices sampleData <> []) as Hne by discriminate.
  destruct (prediction_ranges_widen sampleData 102 30 60
              eq_refl Hc eq_refl Hv eq_refl Hs Hne) as (H1 & H2).
  exact (conj Hc (conj Hv (conj Hs (conj Hne (conj H1 H2))))).
Defined.




Lemma clamp_bounds (lo hi : Q) (x : number) :
  lo <= hi -> isNaN x = false ->
  exists b, Math_min [Fin hi; Math_max [Fin lo; x]] = Fin b /\ lo <= b /\ b <= hi.
Proof.
  intros Hlh Hx. destruct x as [| | |q]; try discriminate.
  - exists hi. split; [reflexivity|lra].
  - unfold Math_max, Math_min; cbn [fold_left].
    rewrite max2_NInf, min2_PInf. change (max2 (Fin lo) NInf) with (Fin lo).
    rewrite min2_Fin. exists (qmin hi lo). split; [reflexivity|].
    destruct (qmin_spec hi lo) as (H1 & H2 & [H3 | H3]); rewrite H3 in *; lra.
  - fin_simpl. eexists; split; [reflexivity|].
    destruct (qmax_spec lo q) as (H1 & H2 & H3).
    destruct (qmin_spec hi (qmax lo q)) as (H4 & H5 & [H6 | H6]); rewrite H6 in *; lra.
Qed.

Lemma confidence_in_range_Fin (b : Q) :
  30 <= b -> b <= 95 -> confidence_in_range (Fin b) = true.
Proof.
  intros H1 H2. unfold confidence_in_range. rewrite !leb_Fin.
  now rewrite !Qle_bool_true.
Qed.

Lemma confidence_in_range_rounded (b : Q) :
  30 <= b -> b <= 95 -> confidence_in_range (toFixed2 (Fin b)) = true.
Proof.
  intros H1 H2. rewrite toFixed2_Fin. apply confidence_in_range_Fin.
  - apply Qle_trans with (round2 30); [discriminate|apply round2_mono; lra].
  - apply Qle_trans with (round2 95); [apply round2_mono; lra|discriminate].
Qed.

Lemma calculateConfidence_in_range (indicators : list number) :
  isNaN (sum indicators / of_nat (length indicators)) = false ->
  confidence_in_range (calculateConfidence indicators) = true
  /\ confidence_in_range (toFixed2 (calculateConfidence indicators)) = true.
Proof.
  intros H. unfold calculateConfidence. cbn zeta.
  destruct (clamp_bounds 30 95 _ ltac:(lra) H) as (b & -> & H1 & H2).
  split; [now apply confidence_in_range_Fin|now apply confidence_in_range_rounded].
Qed.






Lemma baseConfidence_value (data : PredictionData) :
  isNaN (volatility data) = false -> isNaN (sentiment data) = false ->
  exists b, baseConfidence data = Fin b /\ 50 <= b /\ b <= 90.
Proof.
  intros Hv Hs. unfold baseConfidence.
  apply clamp_bounds; [lra|].
  assert (above_NInf (Fin 70 - volatilityFactor data * Fin 100) = true) as H1.
  { unfold volatilityFactor.
    destruct (volatility data) as [| | |v]; try discriminate; try reflexivity.
    rewrite div_Fin by lra. fin_simpl. reflexivity. }
  assert (above_NInf (Math_abs (sentimentFactor data) * Fin 100) = true) as H2.
  { unfold sentimentFactor.
    destruct (sentiment data) as [| | |s]; try discriminate; reflexivity. }
  destruct (Fin 70 - volatilityFactor data * Fin 100); try discriminate;
    destruct (Math_abs (sentimentFactor data) * Fin 100); try discriminate;
    reflexivity.
Qed.


(** The clamp of [calculateConfidence] does not absorb a [NaN]: what it
    bounds has to be a number. *)
Lemma calculateConfidence_of_NaN :
  calculateConfidence [NaN; Fin 60; Fin 60; Fin 50] = NaN.
Proof. reflexivity. Qed.




(** ** The volume profile without volume *)

Lemma all_zero_at (volumes : list number) (i : nat) :
  all_zero volumes = true -> (i < length volumes)%nat -> is_zero (at_ volumes i).
Proof.
  intros H Hi. unfold all_zero in H. rewrite forallb_forall in H.
  specialize (H (at_ volumes i) (nth_In _ _ Hi)).
  destruct (at_ volumes i) as [| | |z]; try discriminate.
  exists z. split; [reflexivity|]. now apply Qeq_bool_iff.
Qed.

Lemma map_get_or0_zero (m : NumMap) (k : number) :
  Forall (fun kv => is_zero (snd kv)) m -> map_get_or0 m k = Fin 0.
Proof.
  intros H. unfold map_get_or0.
  induction H as [|[k' v] m' (z & Hv & Hz) _ IH]; [reflexivity|].
  cbn [map_get]. cbn [snd] in Hv. subst v.
  destruct (same_key k' k); [|exact IH].
  unfold or_else, truthy. now rewrite (Qeq_eq_bool _ _ Hz).
Qed.

Lemma map_set_zero (m : NumMap) (k v : number) :
  Forall (fun kv => is_zero (snd kv)) m -> is_zero v ->
  Forall (fun kv => is_zero (snd kv)) (map_set m k v).
Proof.
  intros H Hv. induction H as [|[k' v'] m' Hkv Hm IH]; cbn [map_set].
  - now repeat constructor.
  - destruct (same_key k' k); constructor; auto.
Qed.

Lemma price_volume_zero (prices volumes : list number) :
  all_zero volumes = true -> (length prices <= length volumes)%nat ->
  Forall (fun kv => is_zero (snd kv)) (price_volume prices volumes).
Proof.
  intros Hz Hlen. unfold price_volume.
  apply (fold_left_invariant (fun m : NumMap => Forall (fun kv => is_zero (snd kv)) m));
    [constructor|].
  intros m i Hi Hm. apply in_seq in Hi.
  apply map_set_zero; [assumption|].
  rewrite (map_get_or0_zero m _ Hm).
  destruct (all_zero_at volumes i Hz ltac:(lia)) as (z & -> & Hz0).
  exists (0 + z)%Q. split; [reflexivity|]. rewrite Hz0. reflexivity.
Qed.

Lemma sum_zero (m : NumMap) :
  Forall (fun kv => is_zero (snd kv)) m -> is_zero (sum (map snd m)).
Proof.
  intros H. unfold sum.
  assert (forall a, is_zero a -> is_zero (fold_left add (map snd m) a)) as Hgen.
  { induction H as [|[k v] m' (z & Hv & Hz) _ IH]; intros a Ha; [exact Ha|].
    cbn [map fold_left]. apply IH. cbn [snd] in Hv. subst v.
    destruct Ha as (a' & -> & Ha'). exists (a' + z)%Q. split; [reflexivity|].
    rewrite Ha', Hz. reflexivity. }
  apply Hgen. exists 0. split; reflexivity.
Qed.

Lemma area_loop_stops (fuel : nat) (valueAreaVolume : number) (priceVolume : NumMap)
    (pricesSorted : list number) (st : AreaState) :
  area_continue valueAreaVolume pricesSorted st = false ->
  area_loop fuel valueAreaVolume priceVolume pricesSorted st = Some st.
Proof. intros H. destruct fuel; cbn [area_loop]; now rewrite H. Qed.

(** With no volume at all the value-area loop is not entered and the
    profile is built. *)
Lemma calculateVolumeProfile_zero_volumes (prices volumes : list number) :
  all_zero volumes = true -> (length prices <= length volumes)%nat ->
  exists profile, calculateVolumeProfile prices volumes = Some profile.
Proof.
  intros Hz Hlen. unfold calculateVolumeProfile.
  destruct prices as [|p ps] eqn:Hp; [eexists; reflexivity|].
  destruct volumes as [|v vs] eqn:Hv; [eexists; reflexivity|].
  rewrite <- Hp, <- Hv in *. cbn zeta.
  pose proof (price_volume_zero prices volumes Hz Hlen) as Hm.
  destruct (sum_zero _ Hm) as (t & Ht & Ht0). rewrite Ht.
  rewrite area_loop_stops.
  - eexists; reflexivity.
  - unfold area_continue. rewrite mul_Fin, ltb_Fin.
    rewrite Qle_bool_true by (rewrite Ht0; discriminate). reflexivity.
Qed.

Lemma all_zero_slice_last (n : nat) (volumes : list number) :
  all_zero volumes = true -> all_zero (slice_last n volumes) = true.
Proof.
  destruct n as [|n']; [trivial|].
  unfold all_zero, slice_last. rewrite !forallb_forall. intros H v Hv.
  apply H. rewrite <- (firstn_skipn (length volumes - S n') volumes).
  apply in_or_app. now right.
Qed.

Lemma length_slice_last {A : Type} (n : nat) (xs : list A) :
  (1 <= n)%nat -> length (slice_last n xs) = Nat.min n (length xs).
Proof.
  intros Hn. destruct n as [|n']; [lia|].
  unfold slice_last. rewrite length_skipn. lia.
Qed.

(** The risk warnings never hold the message of the default report. *)
Lemma generateRiskWarnings_not_default (volatility trendStrength volumeRatio : number) :
  existsb (String.eqb defaultMessage)
          (generateRiskWarnings volatility trendStrength volumeRatio) = false.
Proof.
  unfold generateRiskWarnings.
  destruct (volatility >? Fin 50), (trendStrength <? Fin 0.3), (volumeRatio >? Fin 2);
    reflexivity.
Qed.

(** ** The orchestrator *)

Section Orchestrator.

Variable Math_log : number -> number.
Variable Math_sqrt : number -> number.
Variable Number_toString : number -> string.
Variable trendModel : number -> number -> number -> number -> option number.
Variable getHistoricalData : string -> option HistoricalData.
Variable getSentiment : string -> option (list SentimentEntry).
Variable getNews : string -> option (list NewsItem).
Variable generateStrategy :
  number -> MarketCondition -> TechnicalSignals -> number -> RiskAnalysis ->
  PredictionSet -> option TradingStrategy.

Let run := getFullAnalysis Math_log Math_sqrt Number_toString trendModel
             getHistoricalData getSentiment getNews generateStrategy.

Lemma calculateTechnicalSignals_short (prices volumes : list number) :
  (length prices < 200)%nat ->
  calculateTechnicalSignals Math_log Math_sqrt Number_toString prices volumes = Throws.
Proof.
  intros H. unfold calculateTechnicalSignals.
  destruct (Nat.ltb_spec (length prices) 200); [reflexivity|lia].
Qed.

Lemma getFullAnalysis_short (crypto : string) (hd : HistoricalData) :
  getHistoricalData crypto = Some hd ->
  (length (hd_prices hd) < 200)%nat ->
  run crypto
  = if default_throws crypto then Throws else Returns (getDefaultAnalysis crypto).
Proof.
  intros Hhd Hlen. unfold run, getFullAnalysis. rewrite Hhd.
  destruct (length (hd_prices hd) <? 20)%nat; [reflexivity|].
  match goal with |- context [negb (truthy ?p)] => destruct (negb (truthy p)) end;
    [reflexivity|].
  now rewrite calculateTechnicalSignals_short.
Qed.

Lemma valid_not_invalid (prices : list number) :
  valid_series prices = true -> existsb invalid_price prices = false.
Proof.
  induction prices as [|x xs IH]; intros H; [reflexivity|].
  cbn in H. apply andb_prop in H as [Hx Hxs].
  destruct (valid_price_inv x Hx) as (q & -> & Hq).
  cbn [existsb]. rewrite (IH Hxs).
  unfold invalid_price. cbn [isNaN orb]. rewrite leb_Fin.
  now rewrite (Qle_bool_lt_false q 0 Hq).
Qed.

(** With 200 valid prices and a volume profile that is built, the technical
    signals are computed. *)
Lemma calculateTechnicalSignals_returns (prices volumes : list number)
    (profile : VolumeProfile) :
  (200 <= length prices)%nat -> valid_series prices = true ->
  calculateVolumeProfile (slice_last 200 prices) (slice_last 200 volumes) = Some profile ->
  exists signals,
    calculateTechnicalSignals Math_log Math_sqrt Number_toString prices volumes
    = Returns signals.
Proof.
  intros Hlen Hv Hp. unfold calculateTechnicalSignals.
  destruct (Nat.ltb_spec (length prices) 200); [lia|].
  rewrite (valid_not_invalid prices Hv), Hp.
  eexists; reflexivity.
Qed.

Lemma getFullAnalysis_computed (crypto : string) (prices volumes : list number)
    (signals : TechnicalSignals) (sentiment : list SentimentEntry)
    (news : list NewsItem) (strategy : TradingStrategy) :
  getHistoricalData crypto
  = Some {| hd_prices := prices; hd_volumes := Some volumes; hd_current_price := None |} ->
  (20 <= length prices)%nat ->
  truthy (last_of prices) = true ->
  calculateTechnicalSignals Math_log Math_sqrt Number_toString prices volumes
  = Returns signals ->
  calculateMarketPhase_throws trendModel prices volumes crypto = false ->
  getSentiment crypto = Some sentiment ->
  getNews crypto = Some news ->
  (forall p m t s r q, generateStrategy p m t s r q = Some strategy) ->
  exists report,
    run crypto = Returns report
    /\ marketCondition report = calculateMarketPhase trendModel prices volumes crypto
    /\ technicalSignals report = signals
    /\ tradingStrategy report = strategy
    /\ warnings (riskAnalysis report)
       = generateRiskWarnings (volatility_current signals) (trend_strength signals)
           (get volumes (Z.of_nat (length volumes) - 1)
            / get volumes (Z.of_nat (length volumes) - 2)).
Proof.
  intros Hhd Hlen Hcur Hsig Hmp Hsent Hnews Hstrat.
  unfold run, getFullAnalysis. rewrite Hhd. cbn [hd_prices hd_volumes hd_current_price].
  destruct (Nat.ltb_spec (length prices) 20); [lia|].
  rewrite Hcur. cbn [negb]. rewrite Hsig, Hmp, Hsent, Hnews, Hstrat.
  eexists; repeat split; reflexivity.
Qed.

(** With 200 valid prices or more, volumes that are all zero and
    collaborators that answer, the report is computed: its strategy is the
    generator's and its warnings are not the default report's. *)
Lemma getFullAnalysis_zero_volumes (crypto : string) (prices volumes : list number)
    (sentiment : list SentimentEntry) (news : list NewsItem)
    (strategy : TradingStrategy) :
  getHistoricalData crypto
  = Some {| hd_prices := prices; hd_volumes := Some volumes; hd_current_price := None |} ->
  (200 <= length prices)%nat -> valid_series prices = true ->
  all_zero volumes = true -> length volumes = length prices ->
  calculateMarketPhase_throws trendModel prices volumes crypto = false ->
  getSentiment crypto = Some sentiment ->
  getNews crypto = Some news ->
  (forall p m t s r q, generateStrategy p m t s r q = Some strategy) ->
  exists report,
    run crypto = Returns report
    /\ marketCondition report = calculateMarketPhase trendModel prices volumes crypto
    /\ tradingStrategy report = strategy
    /\ existsb (String.eqb defaultMessage) (warnings (riskAnalysis report)) = false.
Proof.
  intros Hhd Hlen Hv Hz Hvl Hmp Hsent Hnews Hstrat.
  assert (prices <> []) as Hne by (intros ->; cbn in Hlen; lia).
  destruct (calculateVolumeProfile_zero_volumes
              (slice_last 200 prices) (slice_last 200 volumes))
    as (profile & Hprofile).
  { now apply all_zero_slice_last. }
  { rewrite !length_slice_last by lia. lia. }
  destruct (calculateTechnicalSignals_returns prices volumes profile Hlen Hv Hprofile)
    as (signals & Hsig).
  destruct (recent_range prices Hv Hne) as (c & _ & _ & Hc & Hcpos & _).
  assert (truthy (last_of prices) = true) as Hcur.
  { rewrite Hc. unfold truthy. now rewrite (Qeq_bool_false c 0) by lra. }
  destruct (getFullAnalysis_computed crypto prices volumes signals sentiment news
              strategy Hhd ltac:(lia) Hcur Hsig Hmp Hsent Hnews Hstrat)
    as (report & Hr & Hmc & _ & Hst & Hw).
  exists report. repeat split; try assumption.
  rewrite Hw. apply generateRiskWarnings_not_default.
Qed.

End Orchestrator.

(** ** Claims on the orchestrator *)

(** C6, amended.  Whatever the host and the collaborators, when the data
    provider fails or answers fewer than 200 prices (a single data point, and
    a valid series of 20 to 199 points whatever its volumes, all-zero
    volumes included), [getFullAnalysis] returns the fixed default report
    for every symbol on which the default report can be built; on a symbol
    whose lower-case form is ["constructor"] or ["__proto__"] building it
    throws and the call rejects.  (With 200 valid prices or more, all-zero
    volumes do not select the default report.) *)
Theorem short_history_gives_default_report
    (Math_log Math_sqrt : number -> number) (Number_toString : number -> string)
    (trendModel : number -> number -> number -> number -> option number)
    (getHistoricalData : string -> option HistoricalData)
    (getSentiment : string -> option (list SentimentEntry))
    (getNews : string -> option (list NewsItem))
    (generateStrategy :
       number -> MarketCondition -> TechnicalSignals -> number -> RiskAnalysis ->
       PredictionSet -> option TradingStrategy)
    (crypto : string) :
  getHistoricalData crypto = None
  \/ (exists hd, getHistoricalData crypto = Some hd
                 /\ (length (hd_prices hd) < 200)%nat) ->
  (default_throws crypto = false ->
   getFullAnalysis Math_log Math_sqrt Number_toString trendModel getHistoricalData
     getSentiment getNews generateStrategy crypto
   = Returns (getDefaultAnalysis crypto))
  /\ (default_throws crypto = true ->
      getFullAnalysis Math_log Math_sqrt Number_toString trendModel getHistoricalData
        getSentiment getNews generateStrategy crypto
      = Throws).
Proof.
  intros H.
  assert (getFullAnalysis Math_log Math_sqrt Number_toString trendModel
            getHistoricalData getSentiment getNews generateStrategy crypto
          = if default_throws crypto then Throws
            else Returns (getDefaultAnalysis crypto)) as E.
  { destruct H as [Hhd|(hd & Hhd & Hlen)].
    - unfold getFullAnalysis. now rewrite Hhd.
    - now apply getFullAnalysis_short with hd. }
  rewrite E. split; intros ->; reflexivity.
Qed.

(** The default report at a single data point and at 20 valid prices with
    volumes of zero, and the rejection on an inherited name. *)
Lemma short_history_gives_default_report_witness :
  let run history crypto :=
    getFullAnalysis hostLog hostSqrt hostToString (steadyModel (Fin 0.5)) history
      (fun _ => Some []) (fun _ => Some []) (fun _ _ _ _ _ _ => Some sampleStrategy)
      crypto in
  (length [Fin 100] < 200)%nat
  /\ default_throws "bitcoin" = false
  /\ run singlePointHistory "bitcoin"%string = Returns (getDefaultAnalysis "bitcoin")
  /\ (length (flat 100 20) < 200)%nat
  /\ valid_series (flat 100 20) = true /\ all_zero (flat 0 20) = true
  /\ run shortHistory "bitcoin"%string = Returns (getDefaultAnalysis "bitcoin")
  /\ default_throws "Constructor" = true
  /\ run shortHistory "Constructor"%string = Throws.
Proof.
  intros run.
  assert (length [Fin 100] < 200)%nat as H1 by (cbn; lia).
  assert (length (flat 100 20) < 200)%nat as H20 by (vm_compute; lia).
  destruct (short_history_gives_default_report hostLog hostSqrt hostToString
              (steadyModel (Fin 0.5)) singlePointHistory
              (fun _ => Some []) (fun _ => Some [])
              (fun _ _ _ _ _ _ => Some sampleStrategy) "bitcoin"
              (or_intror (ex_intro _ _ (conj eq_refl H1)))) as (Hsingle & _).
  destruct (short_history_gives_default_report hostLog hostSqrt hostToString
              (steadyModel (Fin 0.5)) shortHistory
              (fun _ => Some []) (fun _ => Some [])
              (fun _ _ _ _ _ _ => Some sampleStrategy) "bitcoin"
              (or_intror (ex_intro _ _ (conj eq_refl H20)))) as (Hshort & _).
  destruct (short_history_gives_default_report hostLog hostSqrt hostToString
              (steadyModel (Fin 0.5)) shortHistory
              (fun _ => Some []) (fun _ => Some [])
              (fun _ _ _ _ _ _ => Some sampleStrategy) "Constructor"
              (or_intror (ex_intro _ _ (conj eq_refl H20)))) as (_ & Hthrows).
  exact (conj H1 (conj eq_refl (conj (Hsingle eq_refl)
           (conj H20 (conj eq_refl (conj eq_refl (conj (Hshort eq_refl)
              (conj eq_refl (Hthrows eq_refl))))))))).
Defined.

(** C6, counterexample.  On 200 valid prices of 100 with volumes that are
    all zero, and collaborators that answer, the report is not the default
    one: its phase is ["sideways"] where the default report has
    ["Analyzing"], its strategy is the generator's where the default report
    has ["Hold"], and its warnings do not hold the default message. *)
Lemma zero_volumes_report_is_computed :
  exists report,
    getFullAnalysis hostLog hostSqrt hostToString (steadyModel (Fin 0.5)) flatHistory
      (fun _ => Some []) (fun _ => Some []) (fun _ _ _ _ _ _ => Some sampleStrategy)
      "bitcoin"
    = Returns report
    /\ valid_series (flat 100 200) = true
    /\ length (flat 100 200) = 200%nat
    /\ all_zero (flat 0 200) = true
    /\ phase (marketCondition report) = "sideways"%string
    /\ phase (marketCondition (getDefaultAnalysis "bitcoin")) = "Analyzing"%string
    /\ recommendation (tradingStrategy report) = "Buy"%string
    /\ recommendation (tradingStrategy (getDefaultAnalysis "bitcoin")) = "Hold"%string
    /\ existsb (String.eqb defaultMessage) (warnings (riskAnalysis report)) = false
    /\ warnings (riskAnalysis (getDefaultAnalysis "bitcoin")) = [defaultMessage].
Proof.
  assert (valid_series (flat 100 200) = true) as Hv by (vm_compute; reflexivity).
  assert (length (flat 100 200) = 200%nat) as Hlen by (vm_compute; reflexivity).
  assert (all_zero (flat 0 200) = true) as Hz by (vm_compute; reflexivity).
  destruct (getFullAnalysis_zero_volumes hostLog hostSqrt hostToString
              (steadyModel (Fin 0.5)) flatHistory
              (fun _ => Some []) (fun _ => Some [])
              (fun _ _ _ _ _ _ => Some sampleStrategy)
              "bitcoin" (flat 100 200) (flat 0 200) [] [] sampleStrategy
              eq_refl ltac:(rewrite Hlen; lia) Hv Hz ltac:(vm_compute; reflexivity)
              eq_refl eq_refl eq_refl ltac:(reflexivity))
    as (report & Hr & Hmc & Hst & Hw).
  exists report. rewrite Hmc, Hst, Hw.
  assert (flat 100 200 <> []) as Hne by discriminate.
  destruct (calculateMarketPhase_computed (steadyModel (Fin 0.5)) (flat 100 200)
              (flat 0 200) "bitcoin" (Fin 0.5) Hne eq_refl) as (-> & _).
  rewrite (phase_label_sideways _ Hv Hne).
  repeat apply conj; reflexivity || assumption.
Qed.

(** * Further properties *)

(** ** Sums and windows of finite series *)

Lemma fold_add_Fin (qs : list Q) (a : Q) :
  fold_left add (map Fin qs) (Fin a) = Fin (fold_left Qplus qs a).
Proof.
  revert a. induction qs as [|q qs IH]; intros a; [reflexivity|].
  cbn [map fold_left]. rewrite add_Fin. apply IH.
Qed.

Lemma Forall_fin_inv (P : Q -> Prop) (xs : list number) :
  Forall (fun x => exists q, x = Fin q /\ P q) xs ->
  exists qs, xs = map Fin qs /\ Forall P qs.
Proof.
  induction 1 as [|x xs (q & -> & Hq) _ (qs & -> & Hqs)].
  - exists []. split; [reflexivity|constructor].
  - exists (q :: qs). split; [reflexivity|now constructor].
Qed.

Lemma qlen_cons (q : Q) (qs : list Q) : qlen (q :: qs) == qlen qs + 1.
Proof.
  unfold qlen. cbn [length]. rewrite Nat2Z.inj_succ. unfold Z.succ.
  rewrite inject_Z_plus. reflexivity.
Qed.

Lemma fold_Qplus_bounds (lo hi : Q) (qs : list Q) (a : Q) :
  Forall (fun q => lo <= q /\ q <= hi) qs ->
  a + qlen qs * lo <= fold_left Qplus qs a
  /\ fold_left Qplus qs a <= a + qlen qs * hi.
Proof.
  intros H. revert a. induction H as [|q qs [Hlo Hhi] _ IH]; intros a.
  - cbn [fold_left]. change (qlen []) with 0. lra.
  - cbn [fold_left]. destruct (IH (a + q)%Q) as [H1 H2].
    rewrite qlen_cons. set (n := qlen qs) in *. clearbody n. lra.
Qed.

(** The sum of a series of finite numbers in [lo, hi] is finite and lies
    between [n * lo] and [n * hi]. *)
Lemma sum_fin_in (lo hi : Q) (xs : list number) :
  Forall (fin_in lo hi) xs ->
  exists s, sum xs = Fin s
            /\ inject_Z (Z.of_nat (length xs)) * lo <= s
            /\ s <= inject_Z (Z.of_nat (length xs)) * hi.
Proof.
  intros H. destruct (Forall_fin_inv _ _ H) as (qs & -> & Hqs).
  unfold sum. rewrite fold_add_Fin, length_map.
  destruct (fold_Qplus_bounds lo hi qs 0 Hqs) as [H1 H2].
  eexists; split; [reflexivity|]. unfold qlen in *. lra.
Qed.

Lemma sum_fin_nonneg (xs : list number) :
  Forall fin_nonneg xs -> fin_nonneg (sum xs).
Proof.
  intros H.
  assert (exists qs, xs = map Fin qs /\ Forall (fun q => 0 <= q) qs) as (qs & -> & Hqs)
      by (apply Forall_fin_inv; exact H).
  unfold sum. rewrite fold_add_Fin. eexists; split; [reflexivity|].
  assert (forall a, 0 <= a -> 0 <= fold_left Qplus qs a) as Hgen.
  { clear H. induction Hqs as [|q qs Hq _ IH]; intros a Ha; [exact Ha|].
    cbn [fold_left]. apply IH. cbv beta in Hq. lra. }
  apply Hgen. lra.
Qed.

Lemma Forall_map_seq {A : Type} (P : A -> Prop) (f : nat -> A) (start len : nat) :
  (forall i, (start <= i < start + len)%nat -> P (f i)) ->
  Forall P (map f (seq start len)).
Proof.
  intros H. apply Forall_forall. intros x Hx.
  apply in_map_iff in Hx as (i & <- & Hi). apply in_seq in Hi. now apply H.
Qed.

Lemma finite_at (prices : list number) (i : nat) :
  forallb isFinite prices = true -> (i < length prices)%nat ->
  exists q, at_ prices i = Fin q.
Proof.
  intros Hf Hi. destruct (finite_series_inv prices Hf) as (qs & ->).
  rewrite length_map in Hi. rewrite at_map_Fin by assumption. eexists; reflexivity.
Qed.

Lemma of_nat_Fin (n : nat) : of_nat n = Fin (inject_Z (Z.of_nat n)).
Proof. reflexivity. Qed.

Lemma inject_nat_pos (n : nat) : (1 <= n)%nat -> 1 <= inject_Z (Z.of_nat n).
Proof. intros H. change 1 with (inject_Z 1). rewrite <- Zle_Qle. lia. Qed.

Lemma inject_nat_nonneg (n : nat) : 0 <= inject_Z (Z.of_nat n).
Proof. change 0 with (inject_Z 0). rewrite <- Zle_Qle. lia. Qed.

Lemma Qdiv_nonneg (a b : Q) : 0 <= a -> 0 < b -> 0 <= a / b.
Proof. intros Ha Hb. apply Qle_shift_div_l; [assumption|lra]. Qed.

(** ** Volatility and volume indicators *)

(** X1.  [calculateVolatility] answers a finite number between 0 and 100,
    never [NaN], whatever the series and whatever the host's [Math.log] and
    [Math.sqrt] return. *)
Theorem calculateVolatility_bounded (Math_log Math_sqrt : number -> number)
    (prices : list number) :
  exists v, calculateVolatility Math_log Math_sqrt prices = Fin v /\ 0 <= v /\ v <= 100.
Proof.
  unfold calculateVolatility.
  destruct (length prices <? 2)%nat; [exists 30; repeat split; lra|].
  cbv zeta.
  match goal with |- context [if isNaN ?x then _ else _] => set (vol := x) end.
  destruct (isNaN vol) eqn:E; [exists 30; repeat split; lra|].
  exact (clamp_bounds 0 100 vol ltac:(lra) E).
Qed.

(** X2.  [calculateVolumeRatio] is never [NaN] and never negative, whatever
    the volumes. *)
Theorem calculateVolumeRatio_nonneg (volumes : list number) :
  isNaN (calculateVolumeRatio volumes) = false
  /\ (calculateVolumeRatio volumes >=? Fin 0) = true.
Proof.
  unfold calculateVolumeRatio.
  destruct (length volumes <? 20)%nat; [split; reflexivity|].
  cbv zeta.
  match goal with |- context [if isNaN ?x then _ else _] => set (ratio := x) end.
  destruct ratio as [| | |q]; cbn [isNaN]; try (split; reflexivity).
  rewrite max2_Fin, geb_Fin. split; [reflexivity|].
  apply Qle_bool_true. apply (qmax_spec 0 q).
Qed.

Lemma all_zero_sum (volumes : list number) :
  all_zero volumes = true -> is_zero (sum volumes).
Proof.
  intros H. unfold sum.
  apply (fold_left_invariant is_zero); [exists 0; split; reflexivity|].
  intros a x Hx (z & -> & Hz).
  unfold all_zero in H. rewrite forallb_forall in H. specialize (H x Hx).
  destruct x as [| | |q]; try discriminate.
  apply Qeq_bool_iff in H. exists (z + q)%Q. split; [reflexivity|].
  rewrite Hz, H. reflexivity.
Qed.

Lemma is_zero_div (x : number) (q : Q) :
  is_zero x -> ~ q == 0 -> is_zero (x / Fin q).
Proof.
  intros (z & -> & Hz) Hq. rewrite div_Fin by assumption.
  exists (z / q)%Q. split; [reflexivity|]. rewrite Hz. field. assumption.
Qed.

Lemma div_zero_zero (x y : number) : is_zero x -> is_zero y -> x / y = NaN.
Proof.
  intros (a & -> & Ha) (b & -> & Hb). unfold div.
  rewrite (Qsign_zero b Hb), (Qsign_zero a Ha). reflexivity.
Qed.

Lemma is_zero_sub (x y : number) : is_zero x -> is_zero y -> is_zero (x - y).
Proof.
  intros (a & -> & Ha) (b & -> & Hb). rewrite sub_Fin.
  exists (a + - b)%Q. split; [reflexivity|]. rewrite Ha, Hb. reflexivity.
Qed.

Lemma zero_volume_averages (volumes : list number) :
  all_zero volumes = true ->
  is_zero (sum (slice_last 5 volumes) / Fin 5)
  /\ is_zero (sum (slice_last 20 volumes) / Fin 20).
Proof.
  intros Hz. split; (apply is_zero_div; [|discriminate]); apply all_zero_sum;
    now apply all_zero_slice_last.
Qed.

Lemma calculateVolumeRatio_zero (volumes : list number) :
  all_zero volumes = true -> calculateVolumeRatio volumes = Fin 1.
Proof.
  intros Hz. destruct (zero_volume_averages volumes Hz) as [R5 R20].
  unfold calculateVolumeRatio.
  destruct (length volumes <? 20)%nat; [reflexivity|]. cbv zeta.
  now rewrite (div_zero_zero _ _ R5 R20).
Qed.

(** X3.  On volumes that are all zero the guarded ratio is the neutral 1,
    while [calculateVolumeTrend], which divides by the same 20-point average
    without a guard, is [NaN] as soon as it has its 20 points. *)
Theorem zero_volumes_ratio_and_trend (volumes : list number) :
  all_zero volumes = true ->
  calculateVolumeRatio volumes = Fin 1
  /\ ((20 <= length volumes)%nat -> calculateVolumeTrend volumes = NaN).
Proof.
  intros Hz. split; [now apply calculateVolumeRatio_zero|].
  destruct (zero_volume_averages volumes Hz) as [R5 R20].
  intros Hlen. unfold calculateVolumeTrend.
  destruct (Nat.ltb_spec (length volumes) 20); [lia|]. cbv zeta.
  apply div_zero_zero; [now apply is_zero_sub|assumption].
Qed.

Lemma zero_volumes_ratio_and_trend_witness :
  all_zero (flat 0 20) = true
  /\ calculateVolumeRatio (flat 0 20) = Fin 1
  /\ (20 <= length (flat 0 20))%nat
  /\ calculateVolumeTrend (flat 0 20) = NaN.
Proof.
  assert (all_zero (flat 0 20) = true) as Hz by reflexivity.
  assert (20 <= length (flat 0 20))%nat as Hlen by (cbn; lia).
  destruct (zero_volumes_ratio_and_trend (flat 0 20) Hz) as [H1 H2].
  exact (conj Hz (conj H1 (conj Hlen (H2 Hlen)))).
Defined.

(** ** The oscillators on every input *)

Lemma nn_add (x y : number) :
  nonneg_or_NaN x -> nonneg_or_NaN y -> nonneg_or_NaN (x + y).
Proof.
  destruct x as [| | |a], y as [| | |b]; cbn; try tauto. intros; lra.
Qed.

Lemma nn_max0 (d : number) : nonneg_or_NaN (max2 (Fin 0) d).
Proof.
  destruct d as [| | |q]; cbn; try tauto; try lra.
  qtests; cbn; lra.
Qed.

Lemma nn_div (x : number) (p : Q) :
  nonneg_or_NaN x -> 0 <= p -> nonneg_or_NaN (x / Fin p).
Proof.
  intros Hx Hp. destruct x as [| | |a]; unfold div, Qsign.
  - exact I.
  - destruct (Qcompare_spec p 0); cbn; try tauto. lra.
  - destruct Hx.
  - cbn in Hx. destruct (Qcompare_spec p 0) as [E|E|E].
    + destruct (Qcompare_spec a 0); cbn; try tauto. lra.
    + lra.
    + cbn. now apply Qdiv_nonneg.
Qed.

Lemma nn_mul (x : number) (c : Q) :
  nonneg_or_NaN x -> 0 <= c -> nonneg_or_NaN (x * Fin c).
Proof.
  intros Hx Hc. destruct x as [| | |a]; unfold mul, Qsign.
  - exact I.
  - destruct (Qcompare_spec c 0); cbn; try tauto. lra.
  - destruct Hx.
  - cbn in *. now apply Qmult_le_0_compat.
Qed.

Lemma nn_div_of_nat (x : number) (n : nat) :
  nonneg_or_NaN x -> nonneg_or_NaN (x / of_nat n).
Proof. intros H. unfold of_nat. apply nn_div; [assumption|apply inject_nat_nonneg]. Qed.

Lemma nn_quot (g l : number) :
  nonneg_or_NaN g -> nonneg_or_NaN l -> nonneg_or_NaN (g / l).
Proof.
  intros Hg Hl. destruct l as [| | |b].
  - destruct g; exact I.
  - destruct g; cbn in *; try tauto. lra.
  - destruct Hl.
  - now apply nn_div.
Qed.

Lemma rsi_seed_nn (prices : list number) (period : nat) :
  nonneg_or_NaN (fst (rsi_seed prices period))
  /\ nonneg_or_NaN (snd (rsi_seed prices period)).
Proof.
  unfold rsi_seed.
  apply (fold_left_invariant
           (fun gl : number * number =>
              nonneg_or_NaN (fst gl) /\ nonneg_or_NaN (snd gl))).
  - cbn. split; lra.
  - intros [g l] i _ [Hg Hl]. cbn [fst snd] in *.
    set (d := at_ prices i - at_ prices (i - 1)). clearbody d.
    destruct (d >=? Fin 0) eqn:E; cbn [fst snd]; split; try assumption.
    + apply nn_add; [assumption|].
      destruct d as [| | |q]; try discriminate; [exact I|].
      rewrite geb_Fin in E. now apply Qle_bool_iff.
    + unfold sub. apply nn_add; [assumption|].
      destruct d as [| | |q]; try discriminate; try exact I.
      rewrite geb_Fin in E. apply Qle_bool_false in E. cbn. lra.
Qed.

Lemma wilder_step_nn (prices : list number) (period : nat)
    (avg : number * number) (i : nat) :
  (1 <= period)%nat ->
  nonneg_or_NaN (fst avg) -> nonneg_or_NaN (snd avg) ->
  nonneg_or_NaN (fst (wilder_step prices period avg i))
  /\ nonneg_or_NaN (snd (wilder_step prices period avg i)).
Proof.
  intros Hp Hg Hl. unfold wilder_step. cbn [fst snd].
  change (of_nat period - Fin 1) with (Fin (inject_Z (Z.of_nat period) + - (1))).
  pose proof (inject_nat_pos period Hp).
  split; apply nn_div_of_nat; apply nn_add; try apply nn_max0;
    apply nn_mul; (assumption || lra).
Qed.

Lemma wilder_step_NaN (prices : list number) (i : nat) :
  wilder_step prices 0 (NaN, NaN) i = (NaN, NaN).
Proof. reflexivity. Qed.

(** The smoothed averages are never negative; with a period of 0 they are
    both [NaN]. *)
Lemma rsi_start_nn (prices : list number) (period : nat) :
  let start := (fst (rsi_seed prices period) / of_nat period,
                snd (rsi_seed prices period) / of_nat period) in
  (nonneg_or_NaN (fst start) /\ nonneg_or_NaN (snd start))
  /\ (period = 0%nat -> start = (NaN, NaN)).
Proof.
  cbv zeta. cbn [fst snd]. destruct (rsi_seed_nn prices period) as [Hg Hl].
  split; [split; now apply nn_div_of_nat|]. intros ->. reflexivity.
Qed.

Lemma rsi_averages_nn (prices : list number) (period : nat) :
  nonneg_or_NaN (fst (rsi_averages prices period))
  /\ nonneg_or_NaN (snd (rsi_averages prices period)).
Proof.
  unfold rsi_averages. cbv zeta.
  destruct (rsi_start_nn prices period) as [[Hg Hl] H0]. cbv zeta in *.
  destruct period as [|p'].
  - rewrite (H0 eq_refl).
    match goal with |- context [fold_left ?f ?l ?a] =>
      assert (fold_left f l a = (NaN, NaN)) as ->
    end; [|split; exact I].
    apply (fold_left_invariant (fun gl : number * number => gl = (NaN, NaN)));
      [reflexivity|].
    intros avg i _ ->. apply wilder_step_NaN.
  - apply (fold_left_invariant
             (fun gl : number * number =>
                nonneg_or_NaN (fst gl) /\ nonneg_or_NaN (snd gl)));
      [split; assumption|].
    intros avg i _ [Hg' Hl']. apply wilder_step_nn; [lia|assumption..].
Qed.

Lemma rs_guarded_nn (g l : number) :
  nonneg_or_NaN g -> nonneg_or_NaN l ->
  nonneg_or_NaN (if l === Fin 0 then Fin 100 else g / l).
Proof.
  intros Hg Hl. destruct (l === Fin 0); [cbn; lra|now apply nn_quot].
Qed.

(** The index [100 - 100 / (1 + rs)] of a ratio that is not negative. *)
Lemma rsi_of_ratio (rs : number) :
  nonneg_or_NaN rs -> percent_or_NaN (Fin 100 - Fin 100 / (Fin 1 + rs)).
Proof.
  intros H. destruct rs as [| | |q]; [left; reflexivity| |destruct H|].
  - right. exists (100 + - 0)%Q. split; [reflexivity|lra].
  - right. cbn in H. rewrite add_Fin, div_Fin by lra. rewrite sub_Fin.
    eexists; split; [reflexivity|].
    assert (0 <= 100 / (1 + q)) by (apply Qdiv_nonneg; lra).
    assert (100 / (1 + q) <= 100) by (apply Qle_shift_div_r; lra).
    lra.
Qed.

(** X4.  [calculateRSI] answers a finite number between 0 and 100 on every
    series, entries that are [NaN] or infinite included, and for every
    period. *)
Theorem calculateRSI_bounded (prices : list number) (period : nat) :
  exists r, calculateRSI prices period = Fin r /\ 0 <= r /\ r <= 100.
Proof.
  unfold calculateRSI.
  destruct (length prices <? period + 1)%nat; [exists 50; repeat split; lra|].
  cbv zeta. destruct (rsi_averages_nn prices period) as [Hg Hl].
  destruct (rsi_of_ratio _ (rs_guarded_nn _ _ Hg Hl)) as [E|(r & E & Hr)];
    rewrite E; cbn [isNaN]; [exists 50; repeat split; lra|].
  exists r. split; [reflexivity|exact Hr].
Qed.

Lemma rsi_values_percent (prices : list number) (period : nat)
    (avg : number * number) (idxs : list nat) :
  ((1 <= period)%nat /\ nonneg_or_NaN (fst avg) /\ nonneg_or_NaN (snd avg))
  \/ (period = 0%nat /\ avg = (NaN, NaN)) ->
  Forall percent_or_NaN (rsi_values prices period avg idxs).
Proof.
  revert avg. induction idxs as [|i idxs IH]; intros avg H; [constructor|].
  cbn [rsi_values]. cbv zeta. destruct H as [(Hp & Hg & Hl)|(-> & ->)].
  - destruct (wilder_step_nn prices period avg i Hp Hg Hl) as [Hg' Hl'].
    constructor.
    + apply rsi_of_ratio. now apply nn_quot.
    + apply IH. left. auto.
  - rewrite wilder_step_NaN. constructor; [left; reflexivity|].
    apply IH. right. auto.
Qed.

Lemma calculateRSIArray_percent (prices : list number) (period : nat) :
  Forall percent_or_NaN (calculateRSIArray prices period).
Proof.
  unfold calculateRSIArray. cbv zeta. apply rsi_values_percent.
  destruct (rsi_start_nn prices period) as [[Hg Hl] H0]. cbv zeta in *.
  destruct period as [|p']; [right; auto|left; repeat split; (lia || assumption)].
Qed.

Lemma Forall_percent_split (xs : list number) :
  Forall percent_or_NaN xs ->
  In NaN xs \/ exists qs, xs = map Fin qs /\ Forall (fun q => 0 <= q /\ q <= 100) qs.
Proof.
  induction 1 as [|x xs Hx _ IH].
  - right. exists []. split; [reflexivity|constructor].
  - destruct Hx as [->|(q & -> & Hq)]; [left; now left|].
    destruct IH as [IH|(qs & -> & Hqs)]; [left; now right|].
    right. exists (q :: qs). split; [reflexivity|now constructor].
Qed.

Lemma fold_min2_NaN (xs : list number) (a : number) :
  In NaN xs -> fold_left min2 xs a = NaN.
Proof.
  assert (forall ys, fold_left min2 ys NaN = NaN) as Habs
      by (induction ys as [|y ys IH]; [reflexivity|exact IH]).
  revert a. induction xs as [|x xs IH]; intros a Hin; [destruct Hin|].
  destruct Hin as [Hx|Hx]; cbn [fold_left].
  - subst x. replace (min2 a NaN) with NaN by (destruct a; reflexivity). apply Habs.
  - now apply IH.
Qed.

Lemma qlast_In (qs : list Q) : qs <> [] -> In (qlast qs) qs.
Proof.
  intros H. apply (slice_last_In 1). apply qlast_in_slice_last; [assumption|lia].
Qed.

(** X5.  [calculateStochRSI] answers [NaN] or a finite number between 0 and
    100, on every series and for every period; it answers [NaN] on every
    series of at most [period + 1] points, where the array of RSI values is
    empty. *)
Theorem calculateStochRSI_range (prices : list number) (period : nat) :
  (calculateStochRSI prices period = NaN
   \/ exists r, calculateStochRSI prices period = Fin r /\ 0 <= r /\ r <= 100)
  /\ ((length prices <= period + 1)%nat -> calculateStochRSI prices period = NaN).
Proof.
  split.
  - unfold calculateStochRSI. cbv zeta.
    destruct (Forall_percent_split _ (calculateRSIArray_percent prices period))
      as [Hnan|(qs & -> & Hqs)].
    + left. unfold Math_min at 1. rewrite (fold_min2_NaN _ _ Hnan).
      destruct (last_of _); reflexivity.
    + destruct qs as [|q0 qs'] eqn:Eqs; [left; reflexivity|]. rewrite <- Eqs in *.
      assert (qs <> []) as Hne by (rewrite Eqs; discriminate). clear Eqs.
      destruct (Math_min_Fin qs Hne) as (m & -> & Hm & _).
      destruct (Math_max_Fin qs Hne) as (M & -> & HM & HMin).
      rewrite (last_of_map_Fin qs Hne). pose proof (qlast_In qs Hne) as Hc.
      set (c := qlast qs) in *. clearbody c.
      pose proof (Hm c Hc). pose proof (HM c Hc).
      rewrite Forall_forall in Hqs.
      pose proof (Hqs c Hc). pose proof (Hqs M HMin).
      rewrite !sub_Fin.
      destruct (Qeq_dec (M + - m) 0) as [E|E].
      * left. rewrite div_zero_zero; [reflexivity|exists (c + - m)%Q|exists (M + - m)%Q];
          (split; [reflexivity|lra]).
      * right. rewrite div_Fin by assumption. rewrite mul_Fin.
        eexists; split; [reflexivity|].
        assert (0 <= (c + - m) / (M + - m)) by (apply Qdiv_nonneg; lra).
        assert ((c + - m) / (M + - m) <= 1) by (apply Qle_shift_div_r; lra).
        lra.
  - intros Hlen. unfold calculateStochRSI, calculateRSIArray. cbv zeta.
    replace (length prices - (period + 1))%nat with 0%nat by lia. reflexivity.
Qed.

Lemma calculateStochRSI_range_witness :
  (length (rising 15) <= 14 + 1)%nat /\ calculateStochRSI (rising 15) 14 = NaN.
Proof.
  assert (length (rising 15) <= 14 + 1)%nat as H by (cbn; lia).
  exact (conj H (proj2 (calculateStochRSI_range (rising 15) 14) H)).
Defined.

(** ** True range and directional index *)

Lemma Forall_slice_last {A : Type} (P : A -> Prop) (n : nat) (xs : list A) :
  Forall P xs -> Forall P (slice_last n xs).
Proof.
  intros H. destruct n as [|n']; [exact H|].
  unfold slice_last. rewrite Forall_forall in *. intros x Hx. apply H.
  rewrite <- (firstn_skipn (length xs - S n') xs). apply in_or_app. now right.
Qed.

Lemma sum_is_zero (xs : list number) : Forall is_zero xs -> is_zero (sum xs).
Proof.
  intros H. unfold sum.
  apply (fold_left_invariant is_zero); [exists 0; split; reflexivity|].
  intros a x Hx (z & -> & Hz). rewrite Forall_forall in H.
  destruct (H x Hx) as (q & -> & Hq). exists (z + q)%Q. split; [reflexivity|].
  rewrite Hz, Hq. reflexivity.
Qed.

(** One entry of the true range: the three candidates are the step, its
    absolute value and zero. *)
Lemma true_range_entry (h l : Q) :
  exists r, Math_max [Fin h - Fin l; Math_abs (Fin h - Fin l); Math_abs (Fin l - Fin l)]
            = Fin r
            /\ r == Qabs (h - l).
Proof.
  fin_simpl. eexists; split; [reflexivity|].
  pose proof (Qle_Qabs (h + - l)) as Ha. pose proof (Qabs_nonneg (h + - l)) as Hn.
  assert (Qabs (l + - l) == 0) as Hz.
  { assert (l + - l == 0) as -> by ring. reflexivity. }
  assert (h - l == h + - l) as -> by reflexivity.
  set (a := (h + - l)%Q) in *. set (b := Qabs a) in *. set (c := Qabs (l + - l)) in *.
  clearbody a b c.
  destruct (qmax_spec a b) as (H1 & H2 & H3).
  destruct (qmax_spec (qmax a b) c) as (H4 & H5 & H6).
  destruct H3 as [H3|H3], H6 as [H6|H6]; rewrite ?H6, ?H3 in *; lra.
Qed.

Lemma calculateTrueRange_finite (qs : list Q) :
  Forall2 (fun x i => exists r, x = Fin r /\ r == Qabs (nth i qs 0 - nth (i - 1) qs 0))
          (calculateTrueRange (map Fin qs)) (seq 1 (length qs - 1)).
Proof.
  unfold calculateTrueRange. rewrite length_map.
  assert (forall l, (forall i, In i l -> (1 <= i < length qs)%nat) ->
                    Forall2 (fun x i => exists r, x = Fin r
                                        /\ r == Qabs (nth i qs 0 - nth (i - 1) qs 0))
                      (map (fun i : nat =>
                              let high := at_ (map Fin qs) i in
                              let low := at_ (map Fin qs) (i - 1) in
                              let previousClose := at_ (map Fin qs) (i - 1) in
                              Math_max [high - low; Math_abs (high - previousClose);
                                        Math_abs (low - previousClose)]) l) l) as Hgen.
  { induction l as [|i l IH]; intros Hl; [constructor|].
    cbn [map]. constructor.
    - cbv zeta. specialize (Hl i (or_introl eq_refl)).
      rewrite !at_map_Fin by lia. apply true_range_entry.
    - apply IH. intros j Hj. apply Hl. now right. }
  apply Hgen. intros i Hi. apply in_seq in Hi. lia.
Qed.

Lemma calculateTrueRange_nonneg (prices : list number) :
  forallb isFinite prices = true -> Forall fin_nonneg (calculateTrueRange prices).
Proof.
  intros Hf. destruct (finite_series_inv prices Hf) as (qs & ->).
  pose proof (calculateTrueRange_finite qs) as H.
  induction H as [|x i xs is_ (r & -> & Hr) _ IH]; constructor; [|exact IH].
  exists r. split; [reflexivity|]. rewrite Hr. apply Qabs_nonneg.
Qed.

Lemma dmPlus_nonneg (prices : list number) :
  forallb isFinite prices = true ->
  Forall fin_nonneg
    (map (fun i : nat => max2 (Fin 0) (at_ prices i - at_ prices (i - 1)))
         (seq 1 (length prices - 1))).
Proof.
  intros Hf. apply Forall_map_seq. intros i Hi.
  destruct (finite_at prices i Hf ltac:(lia)) as (h & ->).
  destruct (finite_at prices (i - 1) Hf ltac:(lia)) as (l & ->).
  rewrite sub_Fin, max2_Fin. eexists; split; [reflexivity|].
  apply (qmax_spec 0 (h + - l)).
Qed.

Lemma dmMinus_zero (prices : list number) :
  forallb isFinite prices = true ->
  Forall is_zero
    (map (fun i : nat => max2 (Fin 0) (at_ prices (i - 1) - at_ prices (i - 1)))
         (seq 1 (length prices - 1))).
Proof.
  intros Hf. apply Forall_map_seq. intros i Hi.
  destruct (finite_at prices (i - 1) Hf ltac:(lia)) as (l & ->).
  rewrite sub_Fin, max2_Fin. eexists; split; [reflexivity|].
  destruct (qmax_spec 0 (l + - l)) as (H1 & H2 & [H3|H3]); rewrite H3; [reflexivity|ring].
Qed.

(** X6.  On a series of finite prices [calculateADX] carries no information:
    the downward movement is computed as [prices[i - 1] - prices[i - 1]], so
    the index is [NaN] or exactly 100, for every period. *)
Theorem calculateADX_is_NaN_or_100 (prices : list number) (period : nat) :
  forallb isFinite prices = true ->
  calculateADX prices period = NaN
  \/ (calculateADX prices period === Fin 100) = true.
Proof.
  intros Hf. unfold calculateADX. cbv zeta.
  destruct (sum_fin_nonneg _ (Forall_slice_last _ period _ (calculateTrueRange_nonneg _ Hf)))
    as (t & -> & Ht).
  destruct (sum_fin_nonneg _ (dmPlus_nonneg _ Hf)) as (s & -> & Hs).
  pose proof (sum_is_zero _ (dmMinus_zero _ Hf)) as Hm.
  set (M := sum _) in *. clearbody M.
  assert (forall dp, Math_abs (dp - NaN * Fin 100) / (dp + NaN * Fin 100) * Fin 100 = NaN)
    as Hnan by (intros dp; destruct dp; reflexivity).
  destruct period as [|p'].
  - left. rewrite (div_zero_zero M (of_nat 0)); [apply Hnan|assumption|].
    exists (inject_Z 0). split; reflexivity.
  - pose proof (inject_nat_pos (S p') ltac:(lia)) as Hp.
    unfold of_nat. set (p := inject_Z (Z.of_nat (S p'))) in *. clearbody p.
    rewrite (div_Fin t p) by lra. rewrite (div_Fin s p) by lra.
    assert (is_zero (M / Fin p)) as (z & -> & Hz) by (apply is_zero_div; [assumption|lra]).
    assert (0 <= t / p) as Ha by (apply Qdiv_nonneg; lra).
    assert (0 <= s / p) as Hsp by (apply Qdiv_nonneg; lra).
    set (a := (t / p)%Q) in *. set (s' := (s / p)%Q) in *. clearbody a s'.
    destruct (Qeq_dec a 0) as [Ea|Ea].
    + left. rewrite (div_zero_zero (Fin z) (Fin a));
        [apply Hnan|exists z; now split|exists a; now split].
    + rewrite !div_Fin by assumption. rewrite !mul_Fin, sub_Fin, abs_Fin, add_Fin.
      assert (0 <= s' / a * 100) as Hd.
      { assert (0 <= s' / a) by (apply Qdiv_nonneg; lra). lra. }
      assert (z / a * 100 == 0) as He by (rewrite Hz; field; assumption).
      set (d := (s' / a * 100)%Q) in *. set (e := (z / a * 100)%Q) in *. clearbody d e.
      destruct (Qeq_dec (d + e) 0) as [E|E].
      * left. rewrite div_zero_zero; [reflexivity| |exists (d + e)%Q; now split].
        exists (Qabs (d + - e)). split; [reflexivity|].
        assert (d + - e == 0) as -> by lra. reflexivity.
      * right. rewrite div_Fin by assumption. rewrite mul_Fin, eqb_Fin.
        apply Qeq_bool_iff. rewrite He in *.
        rewrite Qabs_pos by lra. field. lra.
Qed.

Lemma calculateADX_is_NaN_or_100_witness :
  forallb isFinite (rising 30) = true
  /\ (calculateADX (rising 30) 14 = NaN
      \/ (calculateADX (rising 30) 14 === Fin 100) = true).
Proof.
  assert (forallb isFinite (rising 30) = true) as H by reflexivity.
  exact (conj H (calculateADX_is_NaN_or_100 (rising 30) 14 H)).
Defined.

Lemma at_map_seq (f : nat -> number) (start len i : nat) :
  (i < len)%nat -> at_ (map f (seq start len)) i = f (start + i)%nat.
Proof.
  intros Hi. unfold at_.
  rewrite nth_indep with (d' := f 0%nat) by (rewrite length_map, length_seq; lia).
  rewrite map_nth, seq_nth by lia. reflexivity.
Qed.

(** X7.  The true range of a series that stands for high, low and close
    alike is the absolute step, and the average true range of a finite series
    is finite and not negative. *)
Theorem calculateTrueRange_is_absolute_step (prices : list number) (period i : nat) :
  forallb isFinite prices = true -> (1 <= period)%nat ->
  (exists a, calculateATR prices period = Fin a /\ 0 <= a)
  /\ ((i + 1 < length prices)%nat ->
      (at_ (calculateTrueRange prices) i
       === Math_abs (at_ prices (i + 1) - at_ prices i)) = true).
Proof.
  intros Hf Hp. split.
  - unfold calculateATR. cbv zeta.
    destruct (sum_fin_nonneg _ (Forall_slice_last _ period _
                                  (calculateTrueRange_nonneg _ Hf))) as (t & -> & Ht).
    pose proof (inject_nat_pos period Hp). unfold of_nat.
    rewrite div_Fin by lra. eexists; split; [reflexivity|]. apply Qdiv_nonneg; lra.
  - intros Hi. destruct (finite_series_inv prices Hf) as (qs & ->).
    rewrite length_map in Hi. rewrite !at_map_Fin by lia.
    unfold calculateTrueRange. rewrite length_map, at_map_seq by lia. cbv zeta.
    replace (1 + i - 1)%nat with i by lia. replace (1 + i)%nat with (i + 1)%nat by lia.
    rewrite !at_map_Fin by lia.
    destruct (true_range_entry (nth (i + 1) qs 0) (nth i qs 0)) as (r & -> & Hr).
    rewrite sub_Fin, abs_Fin, eqb_Fin. apply Qeq_bool_iff. exact Hr.
Qed.

Lemma calculateTrueRange_is_absolute_step_witness :
  forallb isFinite [Fin 5; Fin 3; Fin 4] = true /\ (1 <= 2)%nat
  /\ (exists a, calculateATR [Fin 5; Fin 3; Fin 4] 2 = Fin a /\ 0 <= a)
  /\ (0 + 1 < length [Fin 5; Fin 3; Fin 4])%nat
  /\ (at_ (calculateTrueRange [Fin 5; Fin 3; Fin 4]) 0
      === Math_abs (at_ [Fin 5; Fin 3; Fin 4] (0 + 1) - at_ [Fin 5; Fin 3; Fin 4] 0)) = true.
Proof.
  assert (forallb isFinite [Fin 5; Fin 3; Fin 4] = true) as Hf by reflexivity.
  assert (1 <= 2)%nat as Hp by lia.
  assert (0 + 1 < length [Fin 5; Fin 3; Fin 4])%nat as Hi by (cbn; lia).
  destruct (calculateTrueRange_is_absolute_step [Fin 5; Fin 3; Fin 4] 2 0 Hf Hp)
    as [H1 H2].
  exact (conj Hf (conj Hp (conj H1 (conj Hi (H2 Hi))))).
Defined.

(** ** Trend intensity and rate of change *)

Lemma ltb_asym (x y : number) : (x <? y) = true -> (y <? x) = false.
Proof.
  destruct x as [| | |a], y as [| | |b]; cbn; try congruence.
  destruct (Qle_bool b a) eqn:E1; [discriminate|]. intros _.
  apply Qle_bool_false in E1. rewrite Qle_bool_true by lra. reflexivity.
Qed.

Lemma filter_disjoint_length {A : Type} (f g : A -> bool) (l : list A) :
  (forall x, f x = true -> g x = false) ->
  (length (filter f l) + length (filter g l) <= length l)%nat.
Proof.
  intros H. induction l as [|x l IH]; [cbn; lia|].
  cbn [filter]. destruct (f x) eqn:Ef.
  - rewrite (H x Ef). cbn [length]. lia.
  - destruct (g x); cbn [length]; lia.
Qed.

(** X8.  [calculateTrendIntensity] of a series of two points or more is a
    finite number between -1 and 1, whatever the entries; below two points
    there is no return and the result is [0 / 0], [NaN]. *)
Theorem calculateTrendIntensity_range (prices : list number) :
  ((2 <= length prices)%nat ->
   exists t, calculateTrendIntensity prices = Fin t /\ -1 <= t /\ t <= 1)
  /\ ((length prices < 2)%nat -> calculateTrendIntensity prices = NaN).
Proof.
  split; intros Hlen; unfold calculateTrendIntensity; cbv zeta.
  - set (returns := steps_of _ prices).
    assert (length returns = (length prices - 1)%nat) as Hr
        by (unfold returns, steps_of; now rewrite length_map, length_seq).
    pose proof (filter_disjoint_length (fun r => r >? Fin 0) (fun r => r <? Fin 0)
                  returns (fun r => ltb_asym (Fin 0) r)) as Hd.
    set (p := length (filter _ returns)) in *.
    set (n := length (filter (fun r => r <? Fin 0) returns)) in *.
    clearbody p n. rewrite Hr in *. clear Hr returns.
    set (len := (length prices - 1)%nat) in *.
    assert (1 <= len)%nat as Hl by (unfold len; lia). clearbody len.
    unfold of_nat. rewrite sub_Fin.
    pose proof (inject_nat_pos len Hl) as HL.
    pose proof (inject_nat_nonneg p) as HP. pose proof (inject_nat_nonneg n) as HN.
    assert (inject_Z (Z.of_nat p) + inject_Z (Z.of_nat n) <= inject_Z (Z.of_nat len)) as Hs.
    { rewrite <- inject_Z_plus, <- Zle_Qle. lia. }
    set (P := inject_Z (Z.of_nat p)) in *. set (N := inject_Z (Z.of_nat n)) in *.
    set (L := inject_Z (Z.of_nat len)) in *. clearbody P N L.
    rewrite div_Fin by lra. eexists; split; [reflexivity|]. split.
    + apply Qle_shift_div_l; lra.
    + apply Qle_shift_div_r; lra.
  - unfold steps_of. replace (length prices - 1)%nat with 0%nat by lia. reflexivity.
Qed.

Lemma calculateTrendIntensity_range_witness :
  (2 <= length [Fin 1; Fin 3; Fin 2])%nat
  /\ (exists t, calculateTrendIntensity [Fin 1; Fin 3; Fin 2] = Fin t /\ -1 <= t /\ t <= 1)
  /\ (length [Fin 7] < 2)%nat
  /\ calculateTrendIntensity [Fin 7] = NaN.
Proof.
  assert (2 <= length [Fin 1; Fin 3; Fin 2])%nat as H2 by (cbn; lia).
  assert (length [Fin 7] < 2)%nat as H1 by (cbn; lia).
  exact (conj H2 (conj (proj1 (calculateTrendIntensity_range [Fin 1; Fin 3; Fin 2]) H2)
           (conj H1 (proj2 (calculateTrendIntensity_range [Fin 7]) H1)))).
Defined.

(** ** Moving averages *)

Lemma at_Forall (P : number -> Prop) (xs : list number) (i : nat) :
  (i < length xs)%nat -> Forall P xs -> P (at_ xs i).
Proof.
  intros Hi H. rewrite Forall_forall in H. apply H. unfold at_. now apply nth_In.
Qed.

Lemma last_of_at (xs : list number) :
  xs <> [] -> last_of xs = at_ xs (length xs - 1).
Proof.
  intros H. unfold last_of, get, at_.
  destruct xs as [|x xs']; [contradiction|]. cbn [length].
  destruct (Z.ltb_spec (Z.of_nat (S (length xs')) - 1) 0); [lia|].
  f_equal. lia.
Qed.

Lemma last_of_Forall (P : number -> Prop) (xs : list number) :
  xs <> [] -> Forall P xs -> P (last_of xs).
Proof.
  intros Hne H. rewrite (last_of_at xs Hne). apply at_Forall; [|assumption].
  destruct xs; [contradiction|cbn; lia].
Qed.

(** The average of a non-empty window of finite numbers in [lo, hi] is
    finite and in [lo, hi]. *)
Lemma window_average (lo hi : Q) (xs : list number) :
  xs <> [] -> Forall (fin_in lo hi) xs ->
  fin_in lo hi (sum xs / of_nat (length xs)).
Proof.
  intros Hne H. destruct (sum_fin_in lo hi xs H) as (s & -> & H1 & H2).
  assert (1 <= length xs)%nat as Hl by (destruct xs; [contradiction|cbn; lia]).
  pose proof (inject_nat_pos _ Hl) as Hn. unfold of_nat.
  set (n := inject_Z (Z.of_nat (length xs))) in *. clearbody n.
  rewrite div_Fin by lra. eexists; split; [reflexivity|]. split.
  - apply Qle_shift_div_l; lra.
  - apply Qle_shift_div_r; lra.
Qed.

Lemma smoothing_factor (period : nat) :
  exists k, Fin 2 / (of_nat period + Fin 1) = Fin k
            /\ 0 <= k /\ ((1 <= period)%nat -> k <= 1).
Proof.
  pose proof (inject_nat_nonneg period) as HP. unfold of_nat.
  assert ((1 <= period)%nat -> 1 <= inject_Z (Z.of_nat period)) as HP1
      by apply inject_nat_pos.
  set (P := inject_Z (Z.of_nat period)) in *. clearbody P.
  rewrite add_Fin, div_Fin by lra. eexists; split; [reflexivity|]. split.
  - apply Qdiv_nonneg; lra.
  - intros Hp. specialize (HP1 Hp). apply Qle_shift_div_r; lra.
Qed.

Lemma length_ema_from (k prev : number) (rest : list number) :
  length (ema_from k prev rest) = length rest.
Proof.
  revert prev. induction rest as [|p rest IH]; intros prev; [reflexivity|].
  cbn [ema_from length]. cbv zeta. now rewrite IH.
Qed.

Lemma length_calculateEMA (prices : list number) (period : nat) :
  prices <> [] -> length (calculateEMA prices period) = length prices.
Proof.
  intros Hne. unfold calculateEMA. cbv zeta.
  destruct prices; [contradiction|]. cbn [length]. now rewrite length_ema_from.
Qed.

Lemma ema_from_nonneg (k prev : Q) (rest : list number) :
  0 <= k -> k <= 1 -> 0 <= prev -> Forall fin_nonneg rest ->
  Forall fin_nonneg (ema_from (Fin k) (Fin prev) rest).
Proof.
  intros Hk0 Hk1 Hprev H. revert prev Hprev.
  induction H as [|x rest (p & -> & Hp) _ IH]; intros prev Hprev; [constructor|].
  cbn [ema_from]. cbv zeta. rewrite sub_Fin, !mul_Fin, add_Fin.
  assert (0 <= p * k + prev * (1 + - k)) as He.
  { assert (0 <= p * k) by (apply Qmult_le_0_compat; lra).
    assert (0 <= prev * (1 + - k)) by (apply Qmult_le_0_compat; lra).
    lra. }
  constructor; [eexists; split; [reflexivity|exact He]|]. now apply IH.
Qed.

Lemma ema_from_finite (k prev : Q) (rest : list number) :
  forallb isFinite rest = true ->
  forallb isFinite (ema_from (Fin k) (Fin prev) rest) = true.
Proof.
  revert prev. induction rest as [|x rest IH]; intros prev H; [reflexivity|].
  cbn [forallb] in H. apply andb_prop in H as [Hx Hrest].
  destruct x as [| | |p]; try discriminate.
  cbn [ema_from]. cbv zeta. rewrite sub_Fin, !mul_Fin, add_Fin.
  cbn [forallb isFinite]. now apply IH.
Qed.

Lemma calculateEMA_finite (prices : list number) (period : nat) :
  prices <> [] -> forallb isFinite prices = true ->
  forallb isFinite (calculateEMA prices period) = true.
Proof.
  intros Hne H. unfold calculateEMA. cbv zeta.
  destruct (smoothing_factor period) as (k & -> & _).
  destruct prices as [|x rest]; [contradiction|].
  cbn [forallb] in *. apply andb_prop in H as [Hx Hrest]. rewrite Hx.
  destruct x as [| | |p]; try discriminate. now apply ema_from_finite.
Qed.

(** X9.  The exponential moving average of a non-empty series starts at the
    first price and has one value per price.  When the prices are finite
    and none is negative, so is every value of the average: each is a
    combination of a price and of the previous value with the weights
    [k = 2 / (period + 1)] and [1 - k], neither of them negative for a
    period of 1 or more. *)
Theorem calculateEMA_not_negative (prices : list number) (period : nat) :
  (1 <= period)%nat -> prices <> [] -> Forall fin_nonneg prices ->
  at_ (calculateEMA prices period) 0 = at_ prices 0
  /\ length (calculateEMA prices period) = length prices
  /\ Forall fin_nonneg (calculateEMA prices period).
Proof.
  intros Hp Hne H. split; [|split].
  - destruct prices; [contradiction|reflexivity].
  - now apply length_calculateEMA.
  - unfold calculateEMA. cbv zeta.
    destruct (smoothing_factor period) as (k & -> & Hk0 & Hk1).
    destruct H as [|x rest (p & -> & Hp0) H]; [contradiction|].
    constructor; [now exists p|]. apply ema_from_nonneg; auto.
Qed.

Lemma calculateEMA_not_negative_witness :
  (1 <= 5)%nat /\ [Fin 0.45; Fin 0.45; Fin 0.5] <> []
  /\ Forall fin_nonneg [Fin 0.45; Fin 0.45; Fin 0.5]
  /\ at_ (calculateEMA [Fin 0.45; Fin 0.45; Fin 0.5] 5) 0 = at_ [Fin 0.45; Fin 0.45; Fin 0.5] 0
  /\ length (calculateEMA [Fin 0.45; Fin 0.45; Fin 0.5] 5) = length [Fin 0.45; Fin 0.45; Fin 0.5]
  /\ Forall fin_nonneg (calculateEMA [Fin 0.45; Fin 0.45; Fin 0.5] 5).
Proof.
  assert (1 <= 5)%nat as Hp by lia.
  assert ([Fin 0.45; Fin 0.45; Fin 0.5] <> []) as Hne by discriminate.
  assert (Forall fin_nonneg [Fin 0.45; Fin 0.45; Fin 0.5]) as H.
  { repeat constructor; eexists; (split; [reflexivity|discriminate]). }
  exact (conj Hp (conj Hne (conj H
           (calculateEMA_not_negative [Fin 0.45; Fin 0.45; Fin 0.5] 5 Hp Hne H)))).
Defined.

Lemma Forall_finite (xs : list number) :
  forallb isFinite xs = true <-> Forall (fun x => isFinite x = true) xs.
Proof. rewrite forallb_forall, Forall_forall. reflexivity. Qed.

Lemma sub_finite (x y : number) :
  isFinite x = true -> isFinite y = true -> isFinite (x - y) = true.
Proof. destruct x, y; try discriminate. reflexivity. Qed.

Lemma last_of_calculateEMA_finite (xs : list number) (period : nat) :
  xs <> [] -> forallb isFinite xs = true ->
  isFinite (last_of (calculateEMA xs period)) = true.
Proof.
  intros Hne H.
  apply (last_of_Forall (fun x => isFinite x = true)).
  - intros E. apply (f_equal (@length number)) in E.
    rewrite length_calculateEMA in E by assumption.
    destruct xs; [contradiction|discriminate].
  - apply Forall_finite. now apply calculateEMA_finite.
Qed.

(** X10.  On a non-empty series of finite prices the MACD line, its signal
    and the histogram are finite: no [NaN] and no infinity comes out of the
    three averages.  On an empty series the three are [NaN]. *)
Theorem calculateMACD_finite (prices : list number) :
  (prices <> [] -> forallb isFinite prices = true ->
   isFinite (calculateMACD prices) = true
   /\ isFinite (calculateMACDSignal prices) = true
   /\ isFinite (calculateMACDHistogram prices) = true)
  /\ isNaN (calculateMACD []) = true
  /\ isNaN (calculateMACDSignal []) = true
  /\ isNaN (calculateMACDHistogram []) = true.
Proof.
  split; [|repeat split].
  intros Hne H.
  assert (isFinite (calculateMACD prices) = true) as Hm.
  { unfold calculateMACD. apply sub_finite; now apply last_of_calculateEMA_finite. }
  assert (isFinite (calculateMACDSignal prices) = true) as Hs.
  { unfold calculateMACDSignal. cbv zeta.
    pose proof (length_calculateEMA prices 12 Hne) as L12.
    pose proof (length_calculateEMA prices 26 Hne) as L26.
    pose proof (proj1 (Forall_finite _) (calculateEMA_finite prices 12 Hne H)) as F12.
    pose proof (proj1 (Forall_finite _) (calculateEMA_finite prices 26 Hne H)) as F26.
    set (macdLine := map _ (seq 0 (length (calculateEMA prices 12)))).
    assert (Forall (fun x => isFinite x = true) macdLine) as Hl.
    { apply Forall_map_seq. intros i Hi.
      apply sub_finite; apply at_Forall; (lia || assumption). }
    assert (macdLine <> []) as Nl.
    { intros E. apply (f_equal (@length number)) in E. unfold macdLine in E.
      rewrite length_map, length_seq, L12 in E.
      destruct prices; [contradiction|discriminate]. }
    apply last_of_calculateEMA_finite; [assumption|now apply Forall_finite]. }
  repeat split; try assumption.
  unfold calculateMACDHistogram. now apply sub_finite.
Qed.

Lemma calculateMACD_finite_witness :
  [Fin 0.45; Fin 0.45; Fin 0.5] <> []
  /\ forallb isFinite [Fin 0.45; Fin 0.45; Fin 0.5] = true
  /\ isFinite (calculateMACD [Fin 0.45; Fin 0.45; Fin 0.5]) = true
  /\ isFinite (calculateMACDSignal [Fin 0.45; Fin 0.45; Fin 0.5]) = true
  /\ isFinite (calculateMACDHistogram [Fin 0.45; Fin 0.45; Fin 0.5]) = true.
Proof.
  assert ([Fin 0.45; Fin 0.45; Fin 0.5] <> []) as Hne by discriminate.
  assert (forallb isFinite [Fin 0.45; Fin 0.45; Fin 0.5] = true) as H by reflexivity.
  exact (conj Hne (conj H
           (proj1 (calculateMACD_finite [Fin 0.45; Fin 0.45; Fin 0.5]) Hne H))).
Defined.

Lemma Forall_slice {A : Type} (P : A -> Prop) (a b : nat) (xs : list A) :
  Forall P xs -> Forall P (slice a b xs).
Proof.
  intros H. unfold slice. rewrite Forall_forall in *. intros x Hx. apply H.
  rewrite <- (firstn_skipn a xs). apply in_or_app. right.
  rewrite <- (firstn_skipn (b - a) (skipn a xs)). apply in_or_app. now left.
Qed.

Lemma length_slice {A : Type} (a b : nat) (xs : list A) :
  (a <= b)%nat -> (b <= length xs)%nat -> length (slice a b xs) = (b - a)%nat.
Proof.
  intros H1 H2. unfold slice. rewrite length_firstn, length_skipn. lia.
Qed.

Lemma calculateSMA_at (prices : list number) (period i : nat) :
  (i < length prices)%nat ->
  at_ (calculateSMA prices period) i
  = if (i <? period - 1)%nat then Fin 0
    else sum (slice (i + 1 - period) (i + 1) prices) / of_nat period.
Proof.
  intros Hi. unfold calculateSMA.
  destruct prices as [|p ps] eqn:E; [cbn in Hi; lia|]. rewrite <- E in *.
  now rewrite at_map_seq by assumption.
Qed.

Lemma calculateSMA_length (prices : list number) (period : nat) :
  prices <> [] -> length (calculateSMA prices period) = length prices.
Proof.
  intros Hne. unfold calculateSMA. destruct prices; [contradiction|].
  now rewrite length_map, length_seq.
Qed.

Lemma fold_Qplus_positive (qs : list Q) (a : Q) :
  0 < a -> Forall (fun q => 0 < q) qs -> 0 < fold_left Qplus qs a.
Proof.
  intros Ha H. revert a Ha. induction H as [|q qs Hq _ IH]; intros a Ha; [exact Ha|].
  cbn [fold_left]. apply IH. lra.
Qed.

(** The sum of a non-empty window of positive finite numbers is positive. *)
Lemma sum_positive (xs : list number) :
  xs <> [] -> valid_series xs = true -> exists s, sum xs = Fin s /\ 0 < s.
Proof.
  intros Hne H. destruct (valid_series_inv xs H) as (qs & -> & Hqs).
  unfold sum. rewrite fold_add_Fin. eexists; split; [reflexivity|].
  destruct Hqs as [|q qs Hq Hqs]; [contradiction|].
  cbn [fold_left]. apply fold_Qplus_positive; [lra|assumption].
Qed.

Lemma valid_series_slice (a b : nat) (xs : list number) :
  valid_series xs = true -> valid_series (slice a b xs) = true.
Proof.
  unfold valid_series. rewrite !forallb_forall, <- !Forall_forall. apply Forall_slice.
Qed.

Lemma calculateSMA_positive (prices : list number) (period i : nat) :
  (1 <= period)%nat -> valid_series prices = true ->
  (i < length prices)%nat -> (period - 1 <= i)%nat ->
  (Fin 0 <? at_ (calculateSMA prices period) i) = true.
Proof.
  intros Hp H Hi Hw. rewrite calculateSMA_at by assumption.
  destruct (Nat.ltb_spec i (period - 1)); [lia|].
  set (w := slice (i + 1 - period) (i + 1) prices).
  assert (length w = period) as Hl by (unfold w; rewrite length_slice; lia).
  assert (valid_series w = true) as Hv by now apply valid_series_slice.
  assert (w <> []) as Hne by (intros E; rewrite E in Hl; cbn in Hl; lia).
  destruct (sum_positive w Hne Hv) as (s & -> & Hs).
  pose proof (inject_nat_pos period Hp) as HP. unfold of_nat.
  set (P := inject_Z (Z.of_nat period)) in *. clearbody P.
  rewrite div_Fin, ltb_Fin by lra.
  rewrite Qle_bool_lt_false; [reflexivity|]. apply Qlt_shift_div_l; lra.
Qed.

(** X11.  The rolling series of [calculateSMA] has one value per price.  On
    a valid series the first [period - 1] values are the fill value 0 and
    every later one, the average of a full window, is above 0: a zero in
    the series marks a position that was filled, not averaged. *)
Theorem calculateSMA_rolling (prices : list number) (period i : nat) :
  (1 <= period)%nat -> valid_series prices = true -> (i < length prices)%nat ->
  length (calculateSMA prices period) = length prices
  /\ ((i < period - 1)%nat -> at_ (calculateSMA prices period) i = Fin 0)
  /\ ((period - 1 <= i)%nat -> (Fin 0 <? at_ (calculateSMA prices period) i) = true).
Proof.
  intros Hp H Hi. split; [|split].
  - apply calculateSMA_length. intros E. rewrite E in Hi. cbn in Hi. lia.
  - intros Hw. rewrite calculateSMA_at by assumption.
    destruct (Nat.ltb_spec i (period - 1)); [reflexivity|lia].
  - intros Hw. now apply calculateSMA_positive.
Qed.

Lemma calculateSMA_rolling_witness :
  (1 <= 2)%nat /\ valid_series [Fin 0.3; Fin 0.3; Fin 0.3] = true
  /\ (0 < length [Fin 0.3; Fin 0.3; Fin 0.3])%nat
  /\ (2 < length [Fin 0.3; Fin 0.3; Fin 0.3])%nat
  /\ length (calculateSMA [Fin 0.3; Fin 0.3; Fin 0.3] 2) = length [Fin 0.3; Fin 0.3; Fin 0.3]
  /\ at_ (calculateSMA [Fin 0.3; Fin 0.3; Fin 0.3] 2) 0 = Fin 0
  /\ (Fin 0 <? at_ (calculateSMA [Fin 0.3; Fin 0.3; Fin 0.3] 2) 2) = true.
Proof.
  assert (1 <= 2)%nat as Hp by lia.
  assert (valid_series [Fin 0.3; Fin 0.3; Fin 0.3] = true) as H by reflexivity.
  assert (0 < length [Fin 0.3; Fin 0.3; Fin 0.3])%nat as H0 by (cbn; lia).
  assert (2 < length [Fin 0.3; Fin 0.3; Fin 0.3])%nat as H2 by (cbn; lia).
  destruct (calculateSMA_rolling [Fin 0.3; Fin 0.3; Fin 0.3] 2 0 Hp H H0)
    as (L & Z & _).
  destruct (calculateSMA_rolling [Fin 0.3; Fin 0.3; Fin 0.3] 2 2 Hp H H2)
    as (_ & _ & W).
  exact (conj Hp (conj H (conj H0 (conj H2 (conj L
           (conj (Z ltac:(cbn; lia)) (W ltac:(cbn; lia)))))))).
Defined.

(** X12.  The middle band of [calculateBollingerBands] is the last value of
    the rolling average: on a valid series it is above 0 when the series
    has [period] points, and the fill value 0 when it is shorter.  The
    host's [Math.sqrt] and the multiplier play no part. *)
Theorem calculateBollingerBands_middle (Math_sqrt : number -> number)
    (prices : list number) (period : nat) (multiplier : number) :
  (1 <= period)%nat -> prices <> [] -> valid_series prices = true ->
  ((period <= length prices)%nat ->
   (Fin 0 <? middle (calculateBollingerBands Math_sqrt prices period multiplier)) = true)
  /\ ((length prices < period)%nat ->
      middle (calculateBollingerBands Math_sqrt prices period multiplier) = Fin 0).
Proof.
  intros Hp Hne H. unfold calculateBollingerBands. cbv zeta. cbn [middle].
  assert (0 < length prices)%nat as Hlen by (destruct prices; [contradiction|cbn; lia]).
  assert (calculateSMA prices period <> []) as Hs.
  { intros E. apply (f_equal (@length number)) in E.
    rewrite calculateSMA_length in E by assumption. cbn in E. lia. }
  rewrite (last_of_at _ Hs), calculateSMA_length by assumption. split; intros Hl.
  - apply calculateSMA_positive; (assumption || lia).
  - rewrite calculateSMA_at by lia.
    destruct (Nat.ltb_spec (length prices - 1) (period - 1)); [reflexivity|lia].
Qed.

Lemma calculateBollingerBands_middle_witness :
  (1 <= 2)%nat /\ [Fin 0.3; Fin 0.3; Fin 0.3] <> []
  /\ valid_series [Fin 0.3; Fin 0.3; Fin 0.3] = true
  /\ (2 <= length [Fin 0.3; Fin 0.3; Fin 0.3])%nat
  /\ (Fin 0 <? middle (calculateBollingerBands hostSqrt [Fin 0.3; Fin 0.3; Fin 0.3] 2 (Fin 2)))
     = true
  /\ (1 <= 20)%nat /\ (length [Fin 0.3; Fin 0.3; Fin 0.3] < 20)%nat
  /\ middle (calculateBollingerBands hostSqrt [Fin 0.3; Fin 0.3; Fin 0.3] 20 (Fin 2)) = Fin 0.
Proof.
  assert (1 <= 2)%nat as Hp by lia.
  assert (1 <= 20)%nat as Hp' by lia.
  assert ([Fin 0.3; Fin 0.3; Fin 0.3] <> []) as Hne by discriminate.
  assert (valid_series [Fin 0.3; Fin 0.3; Fin 0.3] = true) as H by reflexivity.
  assert (2 <= length [Fin 0.3; Fin 0.3; Fin 0.3])%nat as H2 by (cbn; lia).
  assert (length [Fin 0.3; Fin 0.3; Fin 0.3] < 20)%nat as H20 by (cbn; lia).
  exact (conj Hp (conj Hne (conj H (conj H2
           (conj (proj1 (calculateBollingerBands_middle hostSqrt
                           [Fin 0.3; Fin 0.3; Fin 0.3] 2 (Fin 2) Hp Hne H) H2)
              (conj Hp' (conj H20
                 (proj2 (calculateBollingerBands_middle hostSqrt
                           [Fin 0.3; Fin 0.3; Fin 0.3] 20 (Fin 2) Hp' Hne H) H20)))))))).
Defined.

(** ** Sentiment *)

Lemma count_sentiment_disjoint (news : list NewsItem) :
  (count_sentiment "positive" news + count_sentiment "negative" news <= length news)%nat.
Proof.
  unfold count_sentiment. apply filter_disjoint_length.
  intros n H. apply String.eqb_eq in H. now rewrite H.
Qed.

Lemma calculateNewsScore_bounds (news : list NewsItem) :
  fin_in 0 100 (calculateNewsScore news).
Proof.
  unfold calculateNewsScore.
  destruct news as [|n0 news'] eqn:E; [exists 50; repeat split; lra|].
  rewrite <- E. cbv zeta.
  pose proof (count_sentiment_disjoint news) as Hd.
  assert (1 <= length news)%nat as Hl by (rewrite E; cbn; lia).
  set (p := count_sentiment "positive" news) in *.
  set (n := count_sentiment "negative" news) in *.
  set (len := length news) in *. clearbody p n len.
  unfold of_nat. rewrite sub_Fin.
  pose proof (inject_nat_pos len Hl) as HL.
  pose proof (inject_nat_nonneg p) as HP. pose proof (inject_nat_nonneg n) as HN.
  assert (inject_Z (Z.of_nat p) + inject_Z (Z.of_nat n) <= inject_Z (Z.of_nat len)) as Hs.
  { rewrite <- inject_Z_plus, <- Zle_Qle. lia. }
  set (P := inject_Z (Z.of_nat p)) in *. set (N := inject_Z (Z.of_nat n)) in *.
  set (L := inject_Z (Z.of_nat len)) in *. clearbody P N L.
  rewrite div_Fin by lra. rewrite add_Fin, mul_Fin.
  eexists; split; [reflexivity|].
  assert (-1 <= (P + - N) / L) by (apply Qle_shift_div_l; lra).
  assert ((P + - N) / L <= 1) by (apply Qle_shift_div_r; lra).
  lra.
Qed.

(** X13.  The news score is a finite number between 0 and 100 for every
    list of news; the sentiment score, and with it the sentiment risk
    [100 - score], is between 0 and 100 as soon as the social score, which
    is read from the [volume] field of the first sentiment record, is. *)
Theorem sentiment_scores_bounded (news : list NewsItem)
    (sentiment : list SentimentEntry) :
  fin_in 0 100 (calculateNewsScore news)
  /\ (fin_in 0 100 (social_score sentiment) ->
      fin_in 0 100 (calculateSentimentScore news sentiment)
      /\ fin_in 0 100 (Fin 100 - calculateSentimentScore news sentiment)).
Proof.
  split; [apply calculateNewsScore_bounds|].
  intros (s & Hs & S1 & S2).
  assert (fin_in 0 100 (calculateSentimentScore news sentiment)) as (r & Hr & R1 & R2).
  { unfold calculateSentimentScore.
    destruct news as [|n0 news'] eqn:E; [exists 50; repeat split; lra|].
    rewrite <- E. destruct (calculateNewsScore_bounds news) as (n & -> & N1 & N2).
    rewrite Hs, add_Fin, div_Fin by lra. eexists; split; [reflexivity|].
    split; [apply Qle_shift_div_l|apply Qle_shift_div_r]; lra. }
  rewrite Hr, sub_Fin. split; eexists; (split; [reflexivity|lra]).
Qed.

Lemma sentiment_scores_bounded_witness :
  let news := [{| title := "a"; news_sentiment := "positive" |};
               {| title := "b"; news_sentiment := "neutral" |}] in
  let sentiment := [{| entry_volume := Fin 70; entry_sentiment := "bullish" |}] in
  fin_in 0 100 (social_score sentiment)
  /\ fin_in 0 100 (calculateNewsScore news)
  /\ fin_in 0 100 (calculateSentimentScore news sentiment)
  /\ fin_in 0 100 (Fin 100 - calculateSentimentScore news sentiment).
Proof.
  intros news sentiment.
  assert (fin_in 0 100 (social_score sentiment)) as H
      by (exists 70; repeat split; discriminate).
  destruct (sentiment_scores_bounded news sentiment) as [H1 H2].
  exact (conj H (conj H1 (H2 H))).
Defined.

(** ** Labels that are never produced *)

(** X14.  [interpretMACD] compares the histogram with a tenth of itself, so
    for a finite histogram the plain label ["Bullish momentum"] is never
    produced: every positive histogram is ["Strong bullish momentum"], every
    negative one ["Strong bearish momentum"], and a histogram of zero is
    ["Bearish momentum"]. *)
Theorem interpretMACD_momentum (value signal : number) (h : Q) :
  let label := interpretMACD value signal (Fin h) in
  String.prefix "Bullish momentum" label = false
  /\ (0 < h -> String.prefix "Strong bullish momentum" label = true)
  /\ (h < 0 -> String.prefix "Strong bearish momentum" label = true)
  /\ (h == 0 -> String.prefix "Bearish momentum" label = true).
Proof.
  cbv zeta. unfold interpretMACD. cbv zeta.
  rewrite neg_Fin, !mul_Fin, !gtb_Fin, ltb_Fin.
  set (d := (if (value >? Fin 0) && (signal >? Fin 0) then _ else _)).
  set (r := (if Math_abs (value - signal) <? Fin 0.1 then _ else _)).
  assert (d = ", upward trend" \/ d = ", downward trend" \/ d = "")%string as Hd.
  { unfold d. destruct ((value >? Fin 0) && (signal >? Fin 0));
      [|destruct ((value <? Fin 0) && (signal <? Fin 0))]; auto. }
  assert (r = ", potential trend reversal" \/ r = "")%string as Hr.
  { unfold r. destruct (Math_abs (value - signal) <? Fin 0.1); auto. }
  clearbody d r.
  destruct (Qlt_le_dec 0 h) as [Hpos|Hnp].
  - rewrite (Qle_bool_lt_false h 0 Hpos). cbn [negb].
    rewrite (Qle_bool_lt_false h (h * 0.1)) by lra. cbn [negb].
    destruct Hd as [ -> | [ -> | -> ] ], Hr as [ -> | -> ]; repeat split; intros; try reflexivity; lra.
  - rewrite (Qle_bool_true h 0 Hnp). cbn [negb].
    destruct (Qlt_le_dec h 0) as [Hneg|Hz].
    + rewrite (Qle_bool_lt_false (- h * 0.1) h) by lra. cbn [negb].
      destruct Hd as [ -> | [ -> | -> ] ], Hr as [ -> | -> ]; repeat split; intros; try reflexivity; lra.
    + rewrite (Qle_bool_true (- h * 0.1) h) by lra. cbn [negb].
      destruct Hd as [ -> | [ -> | -> ] ], Hr as [ -> | -> ]; repeat split; intros; try reflexivity; lra.
Qed.

Lemma interpretMACD_momentum_witness :
  0 < 2
  /\ String.prefix "Strong bullish momentum" (interpretMACD (Fin 1) (Fin 1) (Fin 2)) = true
  /\ -2 < 0
  /\ String.prefix "Strong bearish momentum" (interpretMACD (Fin 1) (Fin 1) (Fin (-2))) = true
  /\ 0 == 0
  /\ String.prefix "Bearish momentum" (interpretMACD (Fin 1) (Fin 1) (Fin 0)) = true.
Proof.
  assert (0 < 2) as H2 by reflexivity.
  assert (-2 < 0) as Hm by reflexivity.
  assert (0 == 0) as H0 by reflexivity.
  destruct (interpretMACD_momentum (Fin 1) (Fin 1) 2) as (_ & A & _ & _).
  destruct (interpretMACD_momentum (Fin 1) (Fin 1) (-2)) as (_ & _ & B & _).
  destruct (interpretMACD_momentum (Fin 1) (Fin 1) 0) as (_ & _ & _ & C).
  exact (conj H2 (conj (A H2) (conj Hm (conj (B Hm) (conj H0 (C H0)))))).
Defined.

Lemma gtb_010_005 (r : number) : (r >? Fin 0.10) = true -> (r >? Fin 0.05) = true.
Proof.
  destruct r as [| | |q]; cbn; try congruence.
  destruct (Qle_bool q 0.10) eqn:E; [discriminate|]. intros _.
  apply Qle_bool_false in E. rewrite Qle_bool_lt_false by lra. reflexivity.
Qed.

(** X15.  The first signal of [generatePredictionSignals] is
    ["Moderate price movement expected"] or ["Stable price action expected"]:
    the test for a range above 10% comes after the test for a range above
    5%, so ["Significant price movement expected"] is never produced,
    whatever the arguments. *)
Theorem significant_movement_never_signalled (low high volatility : number) :
  let signals := generatePredictionSignals low high volatility in
  (hd ""%string signals = "Moderate price movement expected"%string
   \/ hd ""%string signals = "Stable price action expected"%string)
  /\ existsb (String.eqb "Significant price movement expected") signals = false.
Proof.
  cbv zeta. unfold generatePredictionSignals. cbv zeta.
  set (range := (high - low) / low). clearbody range.
  pose proof (gtb_010_005 range) as H.
  destruct (range >? Fin 0.05) eqn:E5.
  - split; [left; reflexivity|].
    destruct (volatility >? Fin 0.03); [reflexivity|].
    destruct (volatility <? Fin 0.01); reflexivity.
  - destruct (range >? Fin 0.10); [discriminate (H eq_refl)|].
    split; [right; reflexivity|].
    destruct (volatility >? Fin 0.03); [reflexivity|].
    destruct (volatility <? Fin 0.01); reflexivity.
Qed.

Lemma ltb_005_010 (s : number) : (s <? Fin 0.05) = true -> (s <? Fin 0.1) = true.
Proof.
  destruct s as [| | |q]; cbn; try congruence.
  destruct (Qle_bool 0.05 q) eqn:E; [discriminate|]. intros _.
  apply Qle_bool_false in E. rewrite Qle_bool_lt_false by lra. reflexivity.
Qed.

Lemma gtb_03_02 (s : number) : (s >? Fin 0.3) = true -> (s >? Fin 0.2) = true.
Proof.
  destruct s as [| | |q]; cbn; try congruence.
  destruct (Qle_bool q 0.3) eqn:E; [discriminate|]. intros _.
  apply Qle_bool_false in E. rewrite Qle_bool_lt_false by lra. reflexivity.
Qed.

Lemma gtb_02_ltb_01 (s : number) : (s >? Fin 0.2) = true -> (s <? Fin 0.1) = false.
Proof.
  destruct s as [| | |q]; cbn; try congruence.
  destruct (Qle_bool q 0.2) eqn:E; [discriminate|]. intros _.
  apply Qle_bool_false in E. rewrite Qle_bool_true by lra. reflexivity.
Qed.

(** X16.  The signals of the second version of [generatePredictionSignals]
    agree with one another on the spread: ["Low volatility expected"]
    (a spread below 0.05) always comes with ["High prediction confidence"]
    (below 0.1); ["Low prediction confidence"] (above 0.3) always comes
    with ["High volatility expected"] (above 0.2); the high-volatility and
    the high-confidence signals never come together; neither do the upward
    and the downside signals; and there are at most three signals. *)
Theorem spread_signals_consistent (low high spread : number) :
  let signals := Alternate.generatePredictionSignals low high spread in
  let has := fun s : string => existsb (String.eqb s) signals in
  (has "Low volatility expected"%string = true ->
   has "High prediction confidence"%string = true)
  /\ (has "Low prediction confidence"%string = true ->
      has "High volatility expected"%string = true)
  /\ has "High volatility expected"%string && has "High prediction confidence"%string
     = false
  /\ has "Strong upward potential"%string && has "Significant downside risk"%string
     = false
  /\ (length signals <= 3)%nat.
Proof.
  cbv zeta. unfold Alternate.generatePredictionSignals. cbv zeta.
  set (up := high >? _). set (down := low <? _). clearbody up down.
  pose proof (ltb_005_010 spread) as H1.
  pose proof (gtb_03_02 spread) as H2.
  pose proof (gtb_02_ltb_01 spread) as H3.
  destruct (spread >? Fin 0.2) eqn:E02.
  - rewrite (H3 eq_refl) in *.
    destruct (spread <? Fin 0.05); [discriminate (H1 eq_refl)|].
    destruct up, down, (spread >? Fin 0.3); cbn; repeat split; (reflexivity || lia || congruence).
  - destruct (spread >? Fin 0.3); [discriminate (H2 eq_refl)|].
    destruct (spread <? Fin 0.05) eqn:E005.
    + rewrite (H1 eq_refl).
      destruct up, down; cbn; repeat split; (reflexivity || lia || congruence).
    + destruct up, down, (spread <? Fin 0.1); cbn; repeat split;
        (reflexivity || lia || congruence).
Qed.

Lemma spread_signals_consistent_witness :
  let signals := Alternate.generatePredictionSignals (Fin 80) (Fin 100) (Fin 0.04) in
  existsb (String.eqb "Low volatility expected") signals = true
  /\ existsb (String.eqb "High prediction confidence") signals = true
  /\ (length signals <= 3)%nat.
Proof.
  intros signals.
  assert (existsb (String.eqb "Low volatility expected") signals = true) as H
      by reflexivity.
  destruct (spread_signals_consistent (Fin 80) (Fin 100) (Fin 0.04))
    as (H1 & _ & _ & _ & H5).
  exact (conj H (conj (H1 H) H5)).
Defined.

(** ** The phase classifiers beside the orchestrated path *)

(** X17.  [determineMarketPhase] reads its two moving averages as element 0
    of the rolling series, the fill value 0, so on a valid series none of
    its four directional labels can be produced: the answer is ["sideways"]
    when the trend strength is within 0.3 of zero and ["neutral"]
    otherwise, whatever the prices and the volumes. *)
Theorem determineMarketPhase_never_directional
    (prices volumeData : list number) (trendStrength : number) :
  valid_series prices = true -> prices <> [] ->
  determineMarketPhase prices volumeData trendStrength
  = if Math_abs trendStrength <? Fin 0.3 then "sideways"%string else "neutral"%string.
Proof.
  intros Hv Hne. unfold determineMarketPhase. cbv zeta.
  rewrite !ma_read_zero by (assumption || lia).
  destruct (recent_range prices Hv Hne) as (c & _ & _ & -> & Hc & _).
  rewrite !gtb_Fin, !ltb_Fin.
  rewrite (Qle_bool_lt_false c 0 Hc), (Qle_bool_true 0 c) by lra.
  reflexivity.
Qed.

Lemma determineMarketPhase_never_directional_witness :
  valid_series (rising 200) = true /\ rising 200 <> []
  /\ determineMarketPhase (rising 200) (flat 1000 200) (Fin 0.9) = "neutral"%string.
Proof.
  assert (valid_series (rising 200) = true) as Hv by (vm_compute; reflexivity).
  assert (rising 200 <> []) as Hne by discriminate.
  exact (conj Hv (conj Hne
           (determineMarketPhase_never_directional (rising 200) (flat 1000 200)
              (Fin 0.9) Hv Hne))).
Defined.

(** The trailing average of the second version: between the bounds of its
    window. *)
Lemma Alternate_ma_read_bounds (lo hi : Q) (prices : list number) (period : nat) :
  (1 <= period)%nat -> prices <> [] -> Forall (fin_in lo hi) (slice_last period prices) ->
  fin_in lo hi (Alternate.ma_read prices period).
Proof.
  intros Hp Hne H. unfold Alternate.ma_read, Alternate.calculateSMA.
  destruct prices as [|p ps] eqn:E; [contradiction|]. rewrite <- E in *.
  cbv zeta. unfold at_. cbn [nth]. apply window_average; [|assumption].
  apply slice_last_nonempty; [now rewrite E|assumption].
Qed.

Lemma Forall_map_Fin_bounds (lo hi : Q) (qs : list Q) :
  (forall q, In q qs -> lo <= q /\ q <= hi) -> Forall (fin_in lo hi) (map Fin qs).
Proof.
  intros H. apply Forall_forall. intros x Hx.
  apply in_map_iff in Hx as (q & <- & Hq). exists q. split; [reflexivity|now apply H].
Qed.

(** X18.  In the second version, where [calculateSMA] answers the average of
    the trailing window, the support and the resistance of a valid series
    are finite and ordered within the range of the last 20 prices:
    [low <= support <= resistance <= high], and so are their values rounded
    to two decimals. *)
Theorem Alternate_levels_ordered (prices : list number) :
  valid_series prices = true -> prices <> [] ->
  exists lo s r hi,
    Math_min (slice_last 20 prices) = Fin lo
    /\ Math_max (slice_last 20 prices) = Fin hi
    /\ Alternate.phase_support prices = Fin s
    /\ Alternate.phase_resistance prices = Fin r
    /\ 0 < lo /\ lo <= s /\ s <= r /\ r <= hi
    /\ (toFixed2 (Alternate.phase_support prices)
        <=? toFixed2 (Alternate.phase_resistance prices)) = true.
Proof.
  intros Hv Hne. destruct (valid_series_inv prices Hv) as (qs & -> & Hpos).
  assert (qs <> []) as Hq by (intros ->; now apply Hne).
  rewrite Forall_forall in Hpos.
  assert (forall n, (1 <= n)%nat ->
            exists m M, Math_min (slice_last n (map Fin qs)) = Fin m
                        /\ Math_max (slice_last n (map Fin qs)) = Fin M
                        /\ 0 < m /\ m <= M
                        /\ exists a, Alternate.ma_read (map Fin qs) n = Fin a
                                     /\ m <= a /\ a <= M) as Hwin.
  { intros n Hn. rewrite slice_last_map_Fin.
    assert (slice_last n qs <> []) as Hs by now apply slice_last_nonempty.
    destruct (Math_min_Fin _ Hs) as (m & Em & Hm & Hmin).
    destruct (Math_max_Fin _ Hs) as (M & EM & HM & HMin).
    exists m, M. repeat split; try assumption.
    - apply Hpos. now apply (slice_last_In n).
    - now apply HM.
    - destruct (Alternate_ma_read_bounds m M (map Fin qs) n Hn Hne) as (a & Ha & A1 & A2).
      + rewrite slice_last_map_Fin. apply Forall_map_Fin_bounds. intros q Hin.
        split; [now apply Hm|now apply HM].
      + exists a. repeat split; assumption. }
  destruct (Hwin 20%nat ltac:(lia)) as (lo & hi & Elo & Ehi & Hlo & Hlohi & a20 & E20 & A1 & A2).
  destruct (Hwin 50%nat ltac:(lia)) as (m50 & M50 & _ & _ & Hm50 & _ & a50 & E50 & B1 & B2).
  destruct (Hwin 200%nat ltac:(lia)) as (m200 & M200 & _ & _ & Hm200 & _ & a200 & E200 & C1 & C2).
  unfold Alternate.phase_support, Alternate.phase_resistance. cbv zeta.
  rewrite Elo, Ehi, E20, E50, E200. fin_simpl.
  destruct (qmin_spec a20 a50) as (M1 & M2 & M3).
  destruct (qmin_spec (qmin a20 a50) a200) as (M4 & M5 & M6).
  destruct (qmax_spec a20 a50) as (X1 & X2 & X3).
  destruct (qmax_spec (qmax a20 a50) a200) as (X4 & X5 & X6).
  assert (0 < qmin (qmin a20 a50) a200) as Hmn.
  { destruct M3 as [M3|M3], M6 as [M6|M6]; rewrite ?M6, ?M3; lra. }
  assert (qmin (qmin a20 a50) a200 <= a20) as Hmn20 by lra.
  assert (a20 <= qmax (qmax a20 a50) a200) as Hmx20 by lra.
  set (mn := qmin (qmin a20 a50) a200) in *. set (mx := qmax (qmax a20 a50) a200) in *.
  clearbody mn mx.
  destruct (qmax_spec lo (mn * 0.99)) as (S1 & S2 & S3).
  destruct (qmin_spec hi (mx * 1.01)) as (R1 & R2 & R3).
  set (s := qmax lo (mn * 0.99)) in *. set (r := qmin hi (mx * 1.01)) in *.
  assert (s <= r) as Hsr.
  { destruct S3 as [S3|S3], R3 as [R3|R3]; rewrite S3, R3; lra. }
  clearbody s r.
  exists lo, s, r, hi. repeat split; try reflexivity; try assumption.
  apply Qle_bool_true. apply round2_mono; lra.
Qed.

Lemma Alternate_levels_ordered_witness :
  let prices := [Fin 100; Fin 104; Fin 102] in
  valid_series prices = true /\ prices <> []
  /\ exists lo s r hi,
       Math_min (slice_last 20 prices) = Fin lo
       /\ Math_max (slice_last 20 prices) = Fin hi
       /\ Alternate.phase_support prices = Fin s
       /\ Alternate.phase_resistance prices = Fin r
       /\ 0 < lo /\ lo <= s /\ s <= r /\ r <= hi
       /\ (toFixed2 (Alternate.phase_support prices)
           <=? toFixed2 (Alternate.phase_resistance prices)) = true.
Proof.
  intros prices.
  assert (valid_series prices = true) as Hv by reflexivity.
  assert (prices <> []) as Hne by discriminate.
  exact (conj Hv (conj Hne (Alternate_levels_ordered prices Hv Hne))).
Defined.

(** ** Risk analysis without volume *)

Lemma get_of_nat (xs : list number) (i : nat) : get xs (Z.of_nat i) = at_ xs i.
Proof.
  unfold get, at_. destruct (Z.ltb_spec (Z.of_nat i) 0); [lia|].
  now rewrite Nat2Z.id.
Qed.

Lemma all_zero_get (volumes : list number) (k : nat) :
  all_zero volumes = true -> (1 <= k <= length volumes)%nat ->
  is_zero (get volumes (Z.of_nat (length volumes) - Z.of_nat k)).
Proof.
  intros Hz Hk.
  replace (Z.of_nat (length volumes) - Z.of_nat k)%Z
    with (Z.of_nat (length volumes - k)) by lia.
  rewrite get_of_nat. apply all_zero_at; [assumption|lia].
Qed.

(** The two quotients of volumes the risk scores are built on. *)
Lemma zero_volume_quotients (volumes : list number) :
  all_zero volumes = true -> (2 <= length volumes)%nat ->
  get volumes (Z.of_nat (length volumes) - 1) / get volumes (Z.of_nat (length volumes) - 2)
  = NaN
  /\ get volumes (Z.of_nat (length volumes) - 1) / (sum (slice_last 20 volumes) / Fin 20)
     = NaN.
Proof.
  intros Hz Hlen.
  pose proof (all_zero_get volumes 1 Hz ltac:(lia)) as H1.
  pose proof (all_zero_get volumes 2 Hz ltac:(lia)) as H2.
  cbn [Z.of_nat Pos.of_succ_nat Pos.succ] in H1, H2.
  split; apply div_zero_zero; try assumption.
  apply is_zero_div; [|discriminate].
  apply all_zero_sum. now apply all_zero_slice_last.
Qed.

Lemma clamp_NaN (hi lo : number) (x y : number) :
  Math_min [hi; Math_max [lo; x + Math_abs (NaN - Fin 1) * y]] = NaN.
Proof.
  replace (x + Math_abs (NaN - Fin 1) * y) with NaN by (destruct x; reflexivity).
  unfold Math_max, Math_min. cbn [fold_left].
  replace (max2 (max2 NInf lo) NaN) with NaN by (destruct (max2 NInf lo); reflexivity).
  destruct (min2 PInf hi); reflexivity.
Qed.

Lemma zero_volume_risks (Math_log Math_sqrt : number -> number)
    (prices volumes : list number) :
  all_zero volumes = true -> (2 <= length volumes)%nat ->
  calculateFundamentalRisk Math_log Math_sqrt prices volumes = NaN
  /\ calculateMarketRisk prices volumes = NaN.
Proof.
  intros Hz Hlen. destruct (zero_volume_quotients volumes Hz Hlen) as [Q1 Q2].
  unfold calculateFundamentalRisk, calculateMarketRisk. cbv zeta.
  rewrite Q1, Q2. split; [|apply clamp_NaN].
  match goal with |- context [?a + Math_abs (NaN - Fin 1) * ?b + ?c] =>
    replace (a + Math_abs (NaN - Fin 1) * b + c) with NaN
      by (destruct a; reflexivity)
  end.
  reflexivity.
Qed.

Lemma clamp_percent (x : number) :
  percent_or_NaN (Math_min [Fin 100; Math_max [Fin 0; x]]).
Proof.
  destruct (isNaN x) eqn:E.
  - left. destruct x; try discriminate. reflexivity.
  - right. exact (clamp_bounds 0 100 x ltac:(lra) E).
Qed.

(** X19.  The fundamental and the market risk are clamped: each is [NaN]
    or a finite number between 0 and 100, whatever the host and the series.
    On volumes that are all zero, two entries or more, the volume quotients
    they are built on are [0 / 0] and both are [NaN], whatever the prices. *)
Theorem risk_scores_clamped_or_NaN (Math_log Math_sqrt : number -> number)
    (prices volumes : list number) :
  (percent_or_NaN (calculateFundamentalRisk Math_log Math_sqrt prices volumes)
   /\ percent_or_NaN (calculateMarketRisk prices volumes))
  /\ (all_zero volumes = true -> (2 <= length volumes)%nat ->
      calculateFundamentalRisk Math_log Math_sqrt prices volumes = NaN
      /\ calculateMarketRisk prices volumes = NaN).
Proof.
  split; [split; apply clamp_percent|apply zero_volume_risks].
Qed.

Lemma risk_scores_clamped_or_NaN_witness :
  all_zero (flat 0 20) = true /\ (2 <= length (flat 0 20))%nat
  /\ calculateFundamentalRisk hostLog hostSqrt (flat 100 20) (flat 0 20) = NaN
  /\ calculateMarketRisk (flat 100 20) (flat 0 20) = NaN.
Proof.
  assert (all_zero (flat 0 20) = true) as Hz by reflexivity.
  assert (2 <= length (flat 0 20))%nat as Hlen by (cbn; lia).
  exact (conj Hz (conj Hlen
           (proj2 (risk_scores_clamped_or_NaN hostLog hostSqrt (flat 100 20) (flat 0 20))
              Hz Hlen))).
Defined.

(** ** The volume profile and the technical signals without volume *)

Lemma point_of_control_zero (m : NumMap) (currentPrice : number) :
  Forall (fun kv => is_zero (snd kv)) m ->
  point_of_control m currentPrice = (Fin 0, currentPrice).
Proof.
  intros H. unfold point_of_control.
  apply (fold_left_invariant (fun acc : number * number => acc = (Fin 0, currentPrice)));
    [reflexivity|].
  intros acc kv Hin ->. rewrite Forall_forall in H.
  destruct (H kv Hin) as (z & -> & Hz). cbn [fst snd].
  rewrite gtb_Fin, Qle_bool_true by lra. reflexivity.
Qed.

Lemma calculateVolumeProfile_zero (prices volumes : list number) :
  prices <> [] -> volumes <> [] ->
  all_zero volumes = true -> (length prices <= length volumes)%nat ->
  calculateVolumeProfile prices volumes
  = Some {| poc := last_of prices;
            valueArea_high := last_of prices; valueArea_low := last_of prices;
            buyingPressure := NaN; sellingPressure := NaN;
            profile_strength := NaN |}.
Proof.
  intros Hp Hv Hz Hlen. unfold calculateVolumeProfile.
  destruct prices as [|p ps] eqn:Ep; [contradiction|].
  destruct volumes as [|v vs] eqn:Ev; [contradiction|].
  rewrite <- Ep, <- Ev in *. cbn zeta.
  pose proof (price_volume_zero prices volumes Hz Hlen) as Hm.
  rewrite (point_of_control_zero _ _ Hm). cbn [fst snd].
  destruct (sum_zero _ Hm) as (t & Ht & Ht0). rewrite Ht.
  rewrite area_loop_stops.
  - rewrite (div_zero_zero (Fin 0) (Fin t));
      [reflexivity|exists 0; split; reflexivity|exists t; now split].
  - unfold area_continue. rewrite mul_Fin, ltb_Fin.
    rewrite Qle_bool_true by (rewrite Ht0; discriminate). reflexivity.
Qed.

(** X20.  With volumes that are all zero the value-area loop of
    [calculateVolumeProfile] is not entered and the call returns: the point
    of control and the value area are the last price, and the pressures and
    the strength, quotients by a total volume of zero, are [NaN]. *)
Theorem calculateVolumeProfile_without_volume (prices volumes : list number) :
  prices <> [] -> volumes <> [] ->
  all_zero volumes = true -> (length prices <= length volumes)%nat ->
  exists profile,
    calculateVolumeProfile prices volumes = Some profile
    /\ poc profile = last_of prices
    /\ valueArea_low profile = last_of prices
    /\ valueArea_high profile = last_of prices
    /\ buyingPressure profile = NaN
    /\ sellingPressure profile = NaN
    /\ profile_strength profile = NaN.
Proof.
  intros Hp Hv Hz Hlen. eexists. split; [now apply calculateVolumeProfile_zero|].
  repeat split.
Qed.

Lemma calculateVolumeProfile_without_volume_witness :
  [Fin 100; Fin 104] <> [] /\ [Fin 0; Fin 0] <> []
  /\ all_zero [Fin 0; Fin 0] = true
  /\ (length [Fin 100; Fin 104] <= length [Fin 0; Fin 0])%nat
  /\ exists profile,
       calculateVolumeProfile [Fin 100; Fin 104] [Fin 0; Fin 0] = Some profile
       /\ poc profile = last_of [Fin 100; Fin 104]
       /\ valueArea_low profile = last_of [Fin 100; Fin 104]
       /\ valueArea_high profile = last_of [Fin 100; Fin 104]
       /\ buyingPressure profile = NaN
       /\ sellingPressure profile = NaN
       /\ profile_strength profile = NaN.
Proof.
  assert ([Fin 100; Fin 104] <> []) as Hp by discriminate.
  assert ([Fin 0; Fin 0] <> []) as Hv by discriminate.
  assert (all_zero [Fin 0; Fin 0] = true) as Hz by reflexivity.
  assert (length [Fin 100; Fin 104] <= length [Fin 0; Fin 0])%nat as Hl by (cbn; lia).
  exact (conj Hp (conj Hv (conj Hz (conj Hl
           (calculateVolumeProfile_without_volume _ _ Hp Hv Hz Hl))))).
Defined.

Lemma determineVolumeTrend_zero (volumes : list number) :
  all_zero volumes = true -> determineVolumeTrend volumes = "neutral"%string.
Proof.
  intros Hz. unfold determineVolumeTrend.
  destruct (length volumes <? 100)%nat; [reflexivity|]. cbv zeta.
  assert (is_zero (sum (slice_last 50 volumes) / Fin 50)) as (a & -> & Ha).
  { apply is_zero_div; [|discriminate]. apply all_zero_sum.
    now apply all_zero_slice_last. }
  assert (is_zero (sum (slice (length volumes - 100) (length volumes - 50) volumes)
                   / Fin 50)) as (b & -> & Hb).
  { apply is_zero_div; [|discriminate]. apply sum_is_zero. apply Forall_slice.
    apply Forall_forall. intros x Hx. unfold all_zero in Hz.
    rewrite forallb_forall in Hz. specialize (Hz x Hx).
    destruct x as [| | |q]; try discriminate.
    exists q. split; [reflexivity|]. now apply Qeq_bool_iff. }
  rewrite !mul_Fin, gtb_Fin, ltb_Fin.
  rewrite (Qle_bool_true a (b * 1.1)), (Qle_bool_true (b * 0.9) a) by lra.
  reflexivity.
Qed.

(** X21.  On 200 valid prices or more with volumes that are all zero, one
    per price, [calculateTechnicalSignals] returns, and its volume fields
    are the fallbacks: a trend strength of 0.5 (the profile's strength is
    [NaN]), a volume change of 1, a ["neutral"] volume trend and a ["weak"]
    volume significance, whatever the host. *)
Theorem technical_signals_without_volume
    (Math_log Math_sqrt : number -> number) (Number_toString : number -> string)
    (prices volumes : list number) :
  (200 <= length prices)%nat -> valid_series prices = true ->
  all_zero volumes = true -> length volumes = length prices ->
  exists signals,
    calculateTechnicalSignals Math_log Math_sqrt Number_toString prices volumes
    = Returns signals
    /\ (trend_strength signals === Fin 0.5) = true
    /\ (volume_change signals === Fin 1) = true
    /\ volume_trend signals = "neutral"%string
    /\ volume_significance signals = "weak"%string.
Proof.
  intros Hlen Hv Hz Hvl. unfold calculateTechnicalSignals.
  destruct (Nat.ltb_spec (length prices) 200); [lia|].
  rewrite (valid_not_invalid prices Hv).
  rewrite (calculateVolumeProfile_zero (slice_last 200 prices) (slice_last 200 volumes)).
  2:{ apply slice_last_nonempty; [intros E; rewrite E in Hlen; cbn in Hlen|]; lia. }
  2:{ apply slice_last_nonempty; [intros E; rewrite E in Hvl; cbn in Hvl|]; lia. }
  2:{ now apply all_zero_slice_last. }
  2:{ rewrite !length_slice_last by lia. lia. }
  eexists; split; [reflexivity|].
  cbn [trend_strength volume_change volume_trend volume_significance profile_strength].
  destruct (Nat.ltb_spec 0 (length volumes)); [|lia].
  rewrite calculateVolumeRatio_zero by now apply all_zero_slice_last.
  rewrite determineVolumeTrend_zero by now apply all_zero_slice_last.
  repeat split; reflexivity.
Qed.

Lemma technical_signals_without_volume_witness :
  (200 <= length (flat 100 200))%nat /\ valid_series (flat 100 200) = true
  /\ all_zero (flat 0 200) = true /\ length (flat 0 200) = length (flat 100 200)
  /\ exists signals,
       calculateTechnicalSignals hostLog hostSqrt hostToString (flat 100 200) (flat 0 200)
       = Returns signals
       /\ (trend_strength signals === Fin 0.5) = true
       /\ (volume_change signals === Fin 1) = true
       /\ volume_trend signals = "neutral"%string
       /\ volume_significance signals = "weak"%string.
Proof.
  assert (200 <= length (flat 100 200))%nat as Hlen by (vm_compute; lia).
  assert (valid_series (flat 100 200) = true) as Hv by (vm_compute; reflexivity).
  assert (all_zero (flat 0 200) = true) as Hz by (vm_compute; reflexivity).
  assert (length (flat 0 200) = length (flat 100 200)) as Hvl by (vm_compute; reflexivity).
  exact (conj Hlen (conj Hv (conj Hz (conj Hvl
           (technical_signals_without_volume hostLog hostSqrt hostToString
              (flat 100 200) (flat 0 200) Hlen Hv Hz Hvl))))).
Defined.

(** ** The failure paths and the zero fill of the orchestrator *)

Section Reports.

Variable Math_log : number -> number.
Variable Math_sqrt : number -> number.
Variable Number_toString : number -> string.
Variable trendModel : number -> number -> number -> number -> option number.
Variable getHistoricalData : string -> option HistoricalData.
Variable getSentiment : string -> option (list SentimentEntry).
Variable getNews : string -> option (list NewsItem).
Variable generateStrategy :
  number -> MarketCondition -> TechnicalSignals -> number -> RiskAnalysis ->
  PredictionSet -> option TradingStrategy.

(** X22.  A series that holds one price that is [NaN], zero or negative
    ends in the default path, whatever its length and whatever the
    collaborators answer: the default report is returned on every symbol on
    which it can be built, and the call rejects on the two symbols on which
    building it throws. *)
Theorem invalid_price_gives_default_report (crypto : string) (hd : HistoricalData) :
  getHistoricalData crypto = Some hd ->
  existsb invalid_price (hd_prices hd) = true ->
  getFullAnalysis Math_log Math_sqrt Number_toString trendModel
    getHistoricalData getSentiment getNews generateStrategy crypto
  = if default_throws crypto then Throws else Returns (getDefaultAnalysis crypto).
Proof.
  intros Hhd Hinv. unfold getFullAnalysis. rewrite Hhd.
  destruct (length (hd_prices hd) <? 20)%nat; [reflexivity|].
  match goal with |- context [negb (truthy ?p)] => destruct (negb (truthy p)) end;
    [reflexivity|].
  unfold calculateTechnicalSignals.
  destruct (length (hd_prices hd) <? 200)%nat; [reflexivity|].
  now rewrite Hinv.
Qed.

Lemma current_price_truthy (hd : HistoricalData) :
  valid_series (hd_prices hd) = true -> hd_prices hd <> [] ->
  truthy (match hd_current_price hd with
          | Some p => or_else p (last_of (hd_prices hd))
          | None => last_of (hd_prices hd)
          end) = true.
Proof.
  intros Hv Hne.
  destruct (recent_range _ Hv Hne) as (c & _ & _ & Hc & Hcpos & _).
  assert (truthy (last_of (hd_prices hd)) = true) as Hcur.
  { rewrite Hc. unfold truthy. now rewrite (Qeq_bool_false c 0) by lra. }
  destruct (hd_current_price hd) as [p|]; [|exact Hcur].
  unfold or_else. destruct (truthy p) eqn:E; assumption.
Qed.

(** X23.  When the series is valid and the technical signals are computed,
    a failure of the sentiment provider, of the news provider or of the
    strategy generator (on every argument) discards what was computed and
    ends in the default path: the default report is returned on every
    symbol on which it can be built, and the call rejects on the two
    symbols on which building it throws. *)
Theorem collaborator_failure_gives_default_report (crypto : string)
    (hd : HistoricalData) (signals : TechnicalSignals) :
  getHistoricalData crypto = Some hd ->
  (200 <= length (hd_prices hd))%nat -> valid_series (hd_prices hd) = true ->
  calculateTechnicalSignals Math_log Math_sqrt Number_toString (hd_prices hd)
    (match hd_volumes hd with
     | Some v => v
     | None => repeat (Fin 0) (length (hd_prices hd))
     end)
  = Returns signals ->
  getSentiment crypto = None \/ getNews crypto = None
  \/ (forall p m t s r q, generateStrategy p m t s r q = None) ->
  getFullAnalysis Math_log Math_sqrt Number_toString trendModel
    getHistoricalData getSentiment getNews generateStrategy crypto
  = if default_throws crypto then Throws else Returns (getDefaultAnalysis crypto).
Proof.
  intros Hhd Hlen Hv Hsig H.
  assert (hd_prices hd <> []) as Hne by (intros E; rewrite E in Hlen; cbn in Hlen; lia).
  unfold getFullAnalysis. rewrite Hhd.
  destruct (Nat.ltb_spec (length (hd_prices hd)) 20); [lia|].
  rewrite (current_price_truthy hd Hv Hne). cbn [negb]. rewrite Hsig.
  destruct (calculateMarketPhase_throws _ _ _ _); [reflexivity|].
  destruct H as [H|[H|H]].
  - rewrite H. reflexivity.
  - rewrite H. destruct (getSentiment crypto); reflexivity.
  - destruct (getSentiment crypto); [|reflexivity].
    destruct (getNews crypto); [|reflexivity]. now rewrite H.
Qed.

Lemma all_zero_repeat (n : nat) : all_zero (repeat (Fin 0) n) = true.
Proof. induction n as [|n IH]; [reflexivity|exact IH]. Qed.

(** X24.  When the data provider answers 200 valid prices or more and no
    volumes, the orchestrator fills the volumes with zeros and, the
    collaborators answering, returns a computed report whose fundamental,
    market and overall risk are [NaN].  The one exception is a trend model
    that fails on a symbol on which the fallback of the market phase throws:
    there the call rejects. *)
Theorem missing_volumes_give_NaN_risk (crypto : string) (hd : HistoricalData)
    (sentiment : list SentimentEntry) (news : list NewsItem)
    (strategy : TradingStrategy) :
  getHistoricalData crypto = Some hd ->
  hd_volumes hd = None ->
  (200 <= length (hd_prices hd))%nat -> valid_series (hd_prices hd) = true ->
  getSentiment crypto = Some sentiment ->
  getNews crypto = Some news ->
  (forall p m t s r q, generateStrategy p m t s r q = Some strategy) ->
  (calculateMarketPhase_throws trendModel (hd_prices hd)
     (repeat (Fin 0) (length (hd_prices hd))) crypto = false ->
   exists report,
     getFullAnalysis Math_log Math_sqrt Number_toString trendModel
       getHistoricalData getSentiment getNews generateStrategy crypto
     = Returns report
     /\ tradingStrategy report = strategy
     /\ risk_fundamental (riskAnalysis report) = NaN
     /\ risk_market (riskAnalysis report) = NaN
     /\ risk_overall (riskAnalysis report) = NaN)
  /\ (calculateMarketPhase_throws trendModel (hd_prices hd)
        (repeat (Fin 0) (length (hd_prices hd))) crypto = true ->
      getFullAnalysis Math_log Math_sqrt Number_toString trendModel
        getHistoricalData getSentiment getNews generateStrategy crypto
      = Throws).
Proof.
  intros Hhd Hvol Hlen Hv Hsent Hnews Hstrat.
  pose proof (current_price_truthy hd Hv) as Hcur.
  set (prices := hd_prices hd) in *.
  set (volumes := repeat (Fin 0) (length prices)) in *.
  assert (all_zero volumes = true) as Hz by apply all_zero_repeat.
  assert (length volumes = length prices) as Hvl by apply repeat_length.
  assert (prices <> []) as Hne by (intros E; rewrite E in Hlen; cbn in Hlen; lia).
  destruct (calculateVolumeProfile_zero_volumes
              (slice_last 200 prices) (slice_last 200 volumes))
    as (profile & Hprofile).
  { now apply all_zero_slice_last. }
  { rewrite !length_slice_last by lia. lia. }
  destruct (calculateTechnicalSignals_returns Math_log Math_sqrt Number_toString
              prices volumes profile Hlen Hv Hprofile) as (signals & Hsig).
  split; intros Hmp; unfold getFullAnalysis; rewrite Hhd, Hvol; fold prices;
    fold volumes; (destruct (Nat.ltb_spec (length prices) 20); [lia|]);
    rewrite (Hcur Hne); cbn [negb]; rewrite Hsig, Hmp.
  - rewrite Hsent, Hnews, Hstrat.
    eexists; split; [reflexivity|]. cbn [tradingStrategy riskAnalysis].
    unfold analyzeRisk. cbv zeta. cbn [risk_fundamental risk_market risk_overall].
    destruct (zero_volume_risks Math_log Math_sqrt prices volumes Hz ltac:(lia))
      as [-> ->].
    repeat split.
    match goal with |- (?a + NaN + NaN) / _ = _ => destruct a; reflexivity end.
  - assert (default_throws crypto = true) as ->; [|reflexivity].
    unfold calculateMarketPhase_throws in Hmp.
    destruct (analyzeTrendStrength trendModel prices volumes); [|exact Hmp].
    destruct prices; [exact Hmp|discriminate].
Qed.

End Reports.

Lemma invalid_price_gives_default_report_witness :
  let history (crypto : string) :=
    Some {| hd_prices := Fin (-5) :: flat 100 200; hd_volumes := None;
            hd_current_price := None |} in
  existsb invalid_price (Fin (-5) :: flat 100 200) = true
  /\ getFullAnalysis hostLog hostSqrt hostToString (steadyModel (Fin 0.5)) history
       (fun _ => Some []) (fun _ => Some []) (fun _ _ _ _ _ _ => Some sampleStrategy)
       "bitcoin"
     = Returns (getDefaultAnalysis "bitcoin").
Proof.
  intros history.
  assert (existsb invalid_price (Fin (-5) :: flat 100 200) = true) as H by reflexivity.
  exact (conj H
           (invalid_price_gives_default_report hostLog hostSqrt hostToString
              (steadyModel (Fin 0.5)) history (fun _ => Some []) (fun _ => Some [])
              (fun _ _ _ _ _ _ => Some sampleStrategy) "bitcoin" _ eq_refl H)).
Defined.

(** The sentiment provider fails after the technical signals of 200 prices
    were computed. *)
Lemma collaborator_failure_gives_default_report_witness :
  (200 <= length (flat 100 200))%nat /\ valid_series (flat 100 200) = true
  /\ default_throws "bitcoin" = false
  /\ (exists signals,
        calculateTechnicalSignals hostLog hostSqrt hostToString (flat 100 200)
          (flat 0 200)
        = Returns signals)
  /\ getFullAnalysis hostLog hostSqrt hostToString (steadyModel (Fin 0.5)) flatHistory
       (fun _ => None) (fun _ => Some []) (fun _ _ _ _ _ _ => Some sampleStrategy)
       "bitcoin"
     = Returns (getDefaultAnalysis "bitcoin").
Proof.
  assert (200 <= length (flat 100 200))%nat as Hlen by (vm_compute; lia).
  assert (valid_series (flat 100 200) = true) as Hv by (vm_compute; reflexivity).
  assert (exists signals,
            calculateTechnicalSignals hostLog hostSqrt hostToString (flat 100 200)
              (flat 0 200)
            = Returns signals) as Hs.
  { destruct (calculateVolumeProfile_zero_volumes
                (slice_last 200 (flat 100 200)) (slice_last 200 (flat 0 200)))
      as (profile & Hp); [vm_compute; reflexivity|vm_compute; lia|].
    exact (calculateTechnicalSignals_returns hostLog hostSqrt hostToString
             (flat 100 200) (flat 0 200) profile Hlen Hv Hp). }
  destruct Hs as (signals & Hsig).
  exact (conj Hlen (conj Hv (conj eq_refl (conj (ex_intro _ signals Hsig)
           (collaborator_failure_gives_default_report hostLog hostSqrt hostToString
              (steadyModel (Fin 0.5)) flatHistory (fun _ => None) (fun _ => Some [])
              (fun _ _ _ _ _ _ => Some sampleStrategy) "bitcoin" _ signals
              eq_refl Hlen Hv Hsig (or_introl eq_refl)))))).
Defined.

Lemma missing_volumes_give_NaN_risk_witness :
  let run :=
    getFullAnalysis hostLog hostSqrt hostToString (steadyModel (Fin 0.5)) noVolumeHistory
      (fun _ => Some []) (fun _ => Some []) (fun _ _ _ _ _ _ => Some sampleStrategy) in
  (200 <= length (flat 100 200))%nat /\ valid_series (flat 100 200) = true
  /\ exists report,
       run "bitcoin"%string = Returns report
       /\ tradingStrategy report = sampleStrategy
       /\ risk_fundamental (riskAnalysis report) = NaN
       /\ risk_market (riskAnalysis report) = NaN
       /\ risk_overall (riskAnalysis report) = NaN.
Proof.
  intros run.
  assert (200 <= length (flat 100 200))%nat as Hlen by (vm_compute; lia).
  assert (valid_series (flat 100 200) = true) as Hv by (vm_compute; reflexivity).
  exact (conj Hlen (conj Hv
           (proj1 (missing_volumes_give_NaN_risk hostLog hostSqrt hostToString
                     (steadyModel (Fin 0.5)) noVolumeHistory (fun _ => Some [])
                     (fun _ => Some []) (fun _ _ _ _ _ _ => Some sampleStrategy)
                     "bitcoin" _ [] [] sampleStrategy
                     eq_refl eq_refl Hlen Hv eq_refl eq_refl
                     (fun _ _ _ _ _ _ => eq_refl))
                  eq_refl))).
Defined.

(** ** Price predictions *)

Lemma trendFactor_bounds (data : PredictionData) :
  valid_series (prices data) = true -> prices data <> [] ->
  exists t, trendFactor data = Fin t /\ -0.03 <= t /\ t <= 0.03.
Proof.
  intros Hv Hne. destruct (valid_series_inv _ Hv) as (qs & Hqs & Hpos).
  assert (qs <> []) as Hq by (intros ->; now apply Hne).
  unfold trendFactor. rewrite Hqs, slice_last_map_Fin.
  pose proof (slice_last_nonempty 20 qs Hq ltac:(lia)) as Hsl.
  rewrite last_of_map_Fin by assumption.
  assert (0 < length (slice_last 20 qs))%nat as Hlen
      by (destruct (slice_last 20 qs); [contradiction|cbn; lia]).
  rewrite at_map_Fin by assumption.
  assert (0 < nth 0 (slice_last 20 qs) 0) as Hb.
  { rewrite Forall_forall in Hpos. apply Hpos.
    eapply slice_last_In. apply nth_In. exact Hlen. }
  fin_simpl. rewrite div_Fin by lra. fin_simpl.
  eexists; split; [reflexivity|].
  match goal with |- context [qmax ?a ?b] =>
    destruct (qmax_spec a b) as (H1 & H2 & H3); generalize dependent (qmax a b); intros m
  end.
  intros. destruct (qmin_spec 0.03 m) as (H4 & H5 & [H6|H6]); rewrite H6 in *; lra.
Qed.

Lemma sentimentFactor_bounds (data : PredictionData) (s : Q) :
  sentiment data = Fin s -> 0 <= s -> s <= 100 ->
  exists sf, sentimentFactor data = Fin sf /\ -0.01 <= sf /\ sf <= 0.01.
Proof.
  intros Hs H0 H1. unfold sentimentFactor. rewrite Hs.
  fin_simpl. rewrite div_Fin by lra. fin_simpl.
  eexists; split; [reflexivity|].
  assert ((s + - (50)) / 100 * 100 == s + - (50)) as E by (field; discriminate).
  set (x := ((s + - (50)) / 100)%Q) in *. clearbody x. lra.
Qed.

(** X25.  For a positive current price, a volatility that is not negative,
    a sentiment between 0 and 100 and a valid series, each horizon of
    [predictPriceTargets] has finite bounds with
    [0.85 * price <= low < high <= 1.15 * price]. *)
Theorem prediction_ranges_bracketed (data : PredictionData) (c v s : Q) :
  currentPrice data = Fin c -> 0 < c ->
  volatility data = Fin v -> 0 <= v ->
  sentiment data = Fin s -> 0 <= s -> s <= 100 ->
  valid_series (prices data) = true -> prices data <> [] ->
  let p := predictPriceTargets data in
  bracketed c (price (shortTerm p))
  /\ bracketed c (price (midTerm p))
  /\ bracketed c (price (longTerm p)).
Proof.
  intros Hc Hcpos Hv Hvpos Hs Hs0 Hs1 Hvalid Hne p. subst p.
  destruct (volatilityFactor_value data v Hv Hvpos) as (vf & Hvf & Hvf0 & Hvf1).
  destruct (sentimentFactor_bounds data s Hs Hs0 Hs1) as (sf & Hsf & Hsf0 & Hsf1).
  destruct (trendFactor_bounds data Hvalid Hne) as (tf & Htf & Htf0 & Htf1).
  unfold bracketed, predictPriceTargets, adjustRanges, shortTermRange, midTermRange,
    longTermRange.
  cbn [shortTerm midTerm longTerm price low high].
  rewrite Hc, Hvf, Hsf, Htf. fin_simpl.
  assert (0 <= c * vf) as Hcv by (apply Qmult_le_0_compat; lra).
  assert (0 <= c * (0.05 - vf)) as Hcv' by (apply Qmult_le_0_compat; lra).
  assert (0 <= c * (sf + 0.01)) as Hcs by (apply Qmult_le_0_compat; lra).
  assert (0 <= c * (0.01 - sf)) as Hcs' by (apply Qmult_le_0_compat; lra).
  assert (0 <= c * (tf + 0.03)) as Hct by (apply Qmult_le_0_compat; lra).
  assert (0 <= c * (0.03 - tf)) as Hct' by (apply Qmult_le_0_compat; lra).
  repeat split; (eexists; eexists; split; [reflexivity|split; [reflexivity|]]).
  all: repeat match goal with
       | |- context [qmin ?a ?b] =>
           let H1 := fresh in let H2 := fresh in let H3 := fresh in
           destruct (qmin_spec a b) as (H1 & H2 & H3);
           generalize dependent (qmin a b); intros
       | |- context [qmax ?a ?b] =>
           let H1 := fresh in let H2 := fresh in let H3 := fresh in
           destruct (qmax_spec a b) as (H1 & H2 & H3);
           generalize dependent (qmax a b); intros
       end.
  all: repeat match goal with H : _ \/ _ |- _ => destruct H as [H | H]; subst end.
  all: repeat split; lra.
Qed.

Lemma prediction_ranges_bracketed_witness :
  let p := predictPriceTargets sampleData in
  0 < 102 /\ 0 <= 30 /\ 0 <= 60 /\ 60 <= 100
  /\ valid_series (prices sampleData) = true /\ prices sampleData <> []
  /\ bracketed 102 (price (shortTerm p))
  /\ bracketed 102 (price (midTerm p))
  /\ bracketed 102 (price (longTerm p)).
Proof.
  intros p.
  assert (0 < 102) as Hc by reflexivity.
  assert (0 <= 30) as Hv by discriminate.
  assert (0 <= 60) as H0 by discriminate.
  assert (60 <= 100) as H1 by discriminate.
  assert (valid_series (prices sampleData) = true) as Hs by reflexivity.
  assert (prices sampleData <> []) as Hne by discriminate.
  exact (conj Hc (conj Hv (conj H0 (conj H1 (conj Hs (conj Hne
           (prediction_ranges_bracketed sampleData 102 30 60
              eq_refl Hc eq_refl Hv eq_refl H0 H1 Hs Hne))))))).
Defined.

(** X26.  The confidence of a prediction never grows with the horizon: for
    a volatility and a sentiment that are numbers,
    [longTerm.confidence <= midTerm.confidence <= shortTerm.confidence]. *)
Theorem prediction_confidence_decreases (data : PredictionData) :
  isNaN (volatility data) = false -> isNaN (sentiment data) = false ->
  let p := predictPriceTargets data in
  (prediction_confidence (midTerm p) <=? prediction_confidence (shortTerm p)) = true
  /\ (prediction_confidence (longTerm p) <=? prediction_confidence (midTerm p)) = true.
Proof.
  intros Hv Hs p. subst p.
  destruct (baseConfidence_value data Hv Hs) as (b & Hb & H1 & H2).
  unfold predictPriceTargets.
  cbn [shortTerm midTerm longTerm prediction_confidence].
  rewrite Hb. fin_simpl.
  split; apply Qle_bool_true.
  all: repeat match goal with
       | |- context [qmax ?x ?y] =>
           let K1 := fresh in let K2 := fresh in let K3 := fresh in
           destruct (qmax_spec x y) as (K1 & K2 & [K3 | K3]); rewrite K3 in *
       end; lra.
Qed.

Lemma prediction_confidence_decreases_witness :
  let p := predictPriceTargets sampleData in
  isNaN (volatility sampleData) = false /\ isNaN (sentiment sampleData) = false
  /\ (prediction_confidence (midTerm p) <=? prediction_confidence (shortTerm p)) = true
  /\ (prediction_confidence (longTerm p) <=? prediction_confidence (midTerm p)) = true.
Proof.
  intros p.
  exact (conj eq_refl (conj eq_refl
           (prediction_confidence_decreases sampleData eq_refl eq_refl))).
Defined.

(** X27.  For a support that is positive and at most the current price,
    itself at most the resistance, and a volatility that is not negative,
    every bound of the three ranges of [calculatePriceTargets] lies between
    the support and the resistance, the long-term range is exactly that
    band, and the mid-term range holds the current price. *)
Theorem calculatePriceTargets_within_band (prices : list number) (c v s r : Q) :
  0 < s -> s <= c -> c <= r -> 0 <= v ->
  let t := calculatePriceTargets (Fin c) prices (Fin v) (Fin s) (Fin r) in
  fin_in s r (low (shortTerm_range t)) /\ fin_in s r (high (shortTerm_range t))
  /\ fin_in s c (low (midTerm_range t)) /\ fin_in c r (high (midTerm_range t))
  /\ low (longTerm_range t) = Fin s /\ high (longTerm_range t) = Fin r.
Proof.
  intros Hs Hsc Hcr Hv t. subst t. unfold calculatePriceTargets, fin_in. cbv zeta.
  cbn [shortTerm_range midTerm_range longTerm_range low high]. fin_simpl.
  assert (0 <= c * v) as Hcv by (apply Qmult_le_0_compat; lra).
  repeat split; try (eexists; split; [reflexivity|]).
  all: repeat match goal with
       | |- context [qmin ?a ?b] =>
           let H1 := fresh in let H2 := fresh in let H3 := fresh in
           destruct (qmin_spec a b) as (H1 & H2 & H3);
           generalize dependent (qmin a b); intros
       | |- context [qmax ?a ?b] =>
           let H1 := fresh in let H2 := fresh in let H3 := fresh in
           destruct (qmax_spec a b) as (H1 & H2 & H3);
           generalize dependent (qmax a b); intros
       end.
  all: repeat match goal with H : _ \/ _ |- _ => destruct H as [H | H]; subst end.
  all: try reflexivity; repeat split; lra.
Qed.

Lemma calculatePriceTargets_within_band_witness :
  let t := calculatePriceTargets (Fin 150) [] (Fin 1) (Fin 100) (Fin 200) in
  0 < 100 /\ 100 <= 150 /\ 150 <= 200 /\ 0 <= 1
  /\ fin_in 100 200 (low (shortTerm_range t)) /\ fin_in 100 200 (high (shortTerm_range t))
  /\ fin_in 100 150 (low (midTerm_range t)) /\ fin_in 150 200 (high (midTerm_range t))
  /\ low (longTerm_range t) = Fin 100 /\ high (longTerm_range t) = Fin 200.
Proof.
  intros t.
  assert (0 < 100) as H1 by reflexivity.
  assert (100 <= 150) as H2 by discriminate.
  assert (150 <= 200) as H3 by discriminate.
  assert (0 <= 1) as H4 by discriminate.
  exact (conj H1 (conj H2 (conj H3 (conj H4
           (calculatePriceTargets_within_band [] 150 1 100 200 H1 H2 H3 H4))))).
Defined.

(** ** The default levels *)

Lemma lower_ascii_idem (c : Ascii.ascii) : lower_ascii (lower_ascii c) = lower_ascii c.
Proof.
  destruct c as [[] [] [] [] [] [] [] []]; reflexivity.
Qed.

Lemma toLowerCase_idem (s : string) : toLowerCase (toLowerCase s) = toLowerCase s.
Proof.
  induction s as [|c s IH]; [reflexivity|].
  cbn [toLowerCase]. now rewrite lower_ascii_idem, IH.
Qed.

(** X28.  [getDefaultMarketPhase] ignores the case of the symbol: a symbol
    and its lower-case form get the same result.  For a symbol of its table
    the four support and resistance levels are those of the table whatever
    the current price, which only sets the pivot. *)
Theorem getDefaultMarketPhase_ignores_case (p q : number) (crypto : string) :
  getDefaultMarketPhase p (toLowerCase crypto) = getDefaultMarketPhase p crypto
  /\ (defaultRanges (toLowerCase crypto) <> None ->
      let k := keyLevels (getDefaultMarketPhase p crypto) in
      let k' := keyLevels (getDefaultMarketPhase q crypto) in
      strongSupport k = strongSupport k' /\ support k = support k'
      /\ resistance k = resistance k' /\ strongResistance k = strongResistance k').
Proof.
  split.
  - unfold getDefaultMarketPhase. now rewrite toLowerCase_idem.
  - intros H. cbv zeta. unfold getDefaultMarketPhase.
    destruct (defaultRanges (toLowerCase crypto)) as [range|]; [|contradiction].
    repeat split.
Qed.

Lemma getDefaultMarketPhase_ignores_case_witness :
  let k := keyLevels (getDefaultMarketPhase (Fin 76000) "Bitcoin") in
  let k' := keyLevels (getDefaultMarketPhase (Fin 1) "Bitcoin") in
  getDefaultMarketPhase (Fin 76000) (toLowerCase "Bitcoin")
  = getDefaultMarketPhase (Fin 76000) "Bitcoin"
  /\ strongSupport k = strongSupport k' /\ support k = support k'
  /\ resistance k = resistance k' /\ strongResistance k = strongResistance k'.
Proof.
  intros k k'.
  destruct (getDefaultMarketPhase_ignores_case (Fin 76000) (Fin 1) "Bitcoin") as [H1 H2].
  exact (conj H1 (H2 ltac:(discriminate))).
Defined.

(** ** The confidence of the sentiment analysis *)

Lemma or_else_not_NaN (x d : number) : isNaN d = false -> isNaN (or_else x d) = false.
Proof.
  intros Hd. unfold or_else. destruct (truthy x) eqn:E; [|exact Hd].
  destruct x; try discriminate; reflexivity.
Qed.

Lemma toFixed2_not_NaN (x : number) : isNaN x = false -> isNaN (toFixed2 x) = false.
Proof. destruct x; auto. Qed.

(** The trend strength of the technical signals is never [NaN]: a profile
    strength that is [NaN] or zero is replaced by 0.5. *)
Lemma trend_strength_not_NaN
    (Math_log Math_sqrt : number -> number) (Number_toString : number -> string)
    (prices volumes : list number) (signals : TechnicalSignals) :
  calculateTechnicalSignals Math_log Math_sqrt Number_toString prices volumes
  = Returns signals ->
  isNaN (trend_strength signals) = false.
Proof.
  unfold calculateTechnicalSignals.
  destruct (length prices <? 200)%nat; [discriminate|].
  destruct (existsb invalid_price prices); [discriminate|].
  destruct (calculateVolumeProfile _ _) as [profile|]; [|discriminate].
  intros H. injection H as <-. cbn [trend_strength].
  apply toFixed2_not_NaN, or_else_not_NaN. reflexivity.
Qed.

Lemma sentiment_confidence_in_range (ts : number) (news : list NewsItem) :
  isNaN ts = false ->
  confidence_in_range (calculateConfidence [ts * Fin 100; calculateNewsScore news]) = true.
Proof.
  intros Hts. apply calculateConfidence_in_range.
  destruct (calculateNewsScore_bounds news) as (n & -> & _).
  cbn [length]. unfold sum; cbn [fold_left].
  destruct ts as [| | |a]; try discriminate; reflexivity.
Qed.

(** X30.  Every report [getFullAnalysis] returns, the default one or a
    computed one, has a sentiment confidence between 30 and 95, whatever the
    host and the collaborators: the trend strength it averages is never
    [NaN], and the news score is a percentage. *)
Theorem report_sentiment_confidence_in_range
    (Math_log Math_sqrt : number -> number) (Number_toString : number -> string)
    (trendModel : number -> number -> number -> number -> option number)
    (getHistoricalData : string -> option HistoricalData)
    (getSentiment : string -> option (list SentimentEntry))
    (getNews : string -> option (list NewsItem))
    (generateStrategy :
       number -> MarketCondition -> TechnicalSignals -> number -> RiskAnalysis ->
       PredictionSet -> option TradingStrategy)
    (crypto : string) (report : AdvancedAnalysis) :
  getFullAnalysis Math_log Math_sqrt Number_toString trendModel getHistoricalData
    getSentiment getNews generateStrategy crypto
  = Returns report ->
  confidence_in_range (overall_confidence (sentimentAnalysis report)) = true.
Proof.
  unfold getFullAnalysis.
  assert (forall r, (if default_throws crypto then Throws
                     else Returns (getDefaultAnalysis crypto)) = Returns r ->
                    confidence_in_range (overall_confidence (sentimentAnalysis r)) = true)
    as Hdef.
  { intros r H. destruct (default_throws crypto); [discriminate|].
    injection H as <-. reflexivity. }
  destruct (getHistoricalData crypto) as [hd|]; [|apply Hdef].
  destruct (length (hd_prices hd) <? 20)%nat; [apply Hdef|].
  match goal with |- context [negb (truthy ?p)] => destruct (negb (truthy p)) end;
    [apply Hdef|].
  match goal with |- context [calculateTechnicalSignals _ _ _ ?p ?v] =>
    destruct (calculateTechnicalSignals Math_log Math_sqrt Number_toString p v)
      as [signals| |] eqn:E
  end; [|apply Hdef|discriminate].
  destruct (calculateMarketPhase_throws _ _ _ _); [apply Hdef|].
  destruct (getSentiment crypto) as [sentiment|]; [|apply Hdef].
  destruct (getNews crypto) as [news|]; [|apply Hdef].
  match goal with |- context [generateStrategy ?a ?b ?c ?d ?e ?f] =>
    destruct (generateStrategy a b c d e f) as [strategy|]
  end; [|apply Hdef].
  intros H. injection H as <-. cbn [sentimentAnalysis overall_confidence].
  apply sentiment_confidence_in_range.
  exact (trend_strength_not_NaN _ _ _ _ _ _ E).
Qed.

Lemma report_sentiment_confidence_in_range_witness :
  exists report,
    getFullAnalysis hostLog hostSqrt hostToString (steadyModel (Fin 0.5)) flatHistory
      (fun _ => Some []) (fun _ => Some []) (fun _ _ _ _ _ _ => Some sampleStrategy)
      "bitcoin"
    = Returns report
    /\ tradingStrategy report = sampleStrategy
    /\ confidence_in_range (overall_confidence (sentimentAnalysis report)) = true.
Proof.
  assert (valid_series (flat 100 200) = true) as Hv by (vm_compute; reflexivity).
  assert (length (flat 100 200) = 200%nat) as Hlen by (vm_compute; reflexivity).
  assert (all_zero (flat 0 200) = true) as Hz by (vm_compute; reflexivity).
  destruct (getFullAnalysis_zero_volumes hostLog hostSqrt hostToString
              (steadyModel (Fin 0.5)) flatHistory
              (fun _ => Some []) (fun _ => Some [])
              (fun _ _ _ _ _ _ => Some sampleStrategy)
              "bitcoin" (flat 100 200) (flat 0 200) [] [] sampleStrategy
              eq_refl ltac:(rewrite Hlen; lia) Hv Hz ltac:(vm_compute; reflexivity)
              eq_refl eq_refl eq_refl ltac:(reflexivity))
    as (report & Hr & _ & Hst & _).
  exists report.
  exact (conj Hr (conj Hst
           (report_sentiment_confidence_in_range hostLog hostSqrt hostToString
              (steadyModel (Fin 0.5)) flatHistory (fun _ => Some []) (fun _ => Some [])
              (fun _ _ _ _ _ _ => Some sampleStrategy) "bitcoin" report Hr))).
Defined.

(** ** The risk warnings on the trend strength the orchestrator passes *)













